(** * playwright-sniff: the monitoring session, its report and its helpers

    A shallow embedding of [src/types.ts], [src/utils.ts] and [src/monitor.ts],
    of the figures that [src/html-report.ts] computes for the page, of the
    [sniff] fixture and of the example tests that use it.

    Conventions of the embedding.
    - A JavaScript string is a [string]; one [ascii] stands for one character
      of the source string.
    - Instants ([Date.now()]) and the durations computed from them are whole
      milliseconds and are held in [Z]; [slowThreshold] is held in [Z] too.
      Where the code does floating-point arithmetic on them ([calculateAverage])
      they are injected into IEEE binary64, modelled by [spec_float].
    - The class [PlaywrightSniff] lives in a [World]: the instance's private
      fields, the wall clock, the text files the reporter reads and writes, the
      calls received by the logger, the number of listener sets the instance
      has subscribed on the page, and the runs of its listeners that are
      waiting for a promise.  Methods are computations in a small state and
      completion monad [M]; a method that the test awaits is its settled
      completion.
    - Nobody awaits a listener.  A listener that is [async] stops at each of
      its awaits: what is left of the run is kept in the world and goes on
      when the promise settles, after whatever the test and the page have
      done meanwhile.
    - A thrown value is any value: one with a string form, or one on which
      the conversion to a string throws in its turn.
    - Writing a file always succeeds; a report file written by [saveReport] is
      kept as the structured value that [JSON.parse] gives back from it.  The
      pictures that the driver writes, and the directory it writes them to,
      are not among the files of the world.
    - A test is a [Script]: calls on the instance, page events, settling
      promises and changes of the host, in sequence; the facts that hold in
      every reachable world are proved by induction on scripts.  The world
      after a script is also the world before it after a sequence of single
      writes ([Effect]); what a script can and cannot change is read off the
      writes it permits.
    - [toISOString] is modelled for the years 0 to 9999, where the year has
      four digits; the facts about dates are stated for instants from 1970
      to 9999. *)

From Stdlib Require Import ZArith Lia Ascii String DecimalString SpecFloat.
From Stdlib Require Import Sorting.Sorted Sorting.Permutation.
From stdpp Require Import gmap strings list.

Open Scope string_scope.
Open Scope Z_scope.

(** ** The JavaScript built-ins the sources call *)

Module JS.

Definition LF : ascii := "010"%char.
Definition DQUOTE : string := String "034"%char EmptyString.
Definition ESC : ascii := "027"%char.

(** [`${n}`] for an integral number. *)
Definition string_of_Z (z : Z) : string := NilZero.string_of_int (Z.to_int z).

(** The decimal digits of a natural number given as [Z]. *)
Definition digits (n : Z) : string := NilZero.string_of_uint (N.to_uint (Z.to_N n)).

Fixpoint repeat0 (k : nat) : string :=
  match k with O => EmptyString | S k' => String "0"%char (repeat0 k') end.

(** [String.prototype.padStart(width, "0")]. *)
Definition padStart0 (width : nat) (s : string) : string :=
  repeat0 (width - String.length s) +:+ s.

(** [s.substring(0, n)]. *)
Definition substring0 (n : nat) (s : string) : string := String.substring 0 n s.

(** [s.split("\n")[0]]: the text before the first line feed. *)
Fixpoint firstLine (s : string) : string :=
  match s with
  | EmptyString => EmptyString
  | String c s' => if Ascii.eqb c LF then EmptyString else String c (firstLine s')
  end.

(** A value is truthy as a string when it is not empty. *)
Definition truthy (s : string) : bool :=
  match s with EmptyString => false | _ => true end.

(** *** Numbers: IEEE binary64 *)

Definition number := spec_float.
Definition prec : Z := 53.
Definition emax : Z := 1024.

Definition number_of_Z (z : Z) : number := binary_normalize prec emax z 0 false.
Definition add (x y : number) : number := SFadd prec emax x y.
Definition div (x y : number) : number := SFdiv prec emax x y.
Definition NaN : number := S754_nan.
Definition Infinity : number := S754_infinity false.

(** The integer [n] for which [n / 100 - m * 2^e] is as close to zero as
    possible, the larger one of two (step 10.a of Number.prototype.toFixed),
    for [m * 2^e >= 0]. *)
Definition nearestHundredths (m e : Z) : Z :=
  if 0 <=? e then 100 * m * 2 ^ e
  else (200 * m + 2 ^ (- e)) / 2 ^ (- e + 1).

(** [a + "." + b] where [b] is the last two characters of the digits of [n],
    padded to three digits at least. *)
Definition fixed2 (n : Z) : string :=
  let m := padStart0 3 (digits n) in
  let k := String.length m in
  String.substring 0 (k - 2) m +:+ "." +:+ String.substring (k - 2) 2 m.

(** [Number::toString] on the values [toFixed] hands over to it: only the
    non-finite ones are spelled out; a finite value of magnitude [10^21] or
    more is printed in exponent form, whose digits are left to [big]. *)
Definition toFixed2 (big : Z -> Z -> string) (x : number) : string :=
  match x with
  | S754_nan => "NaN"
  | S754_infinity false => "Infinity"
  | S754_infinity true => "-Infinity"
  | S754_zero _ => "0.00"
  | S754_finite s m e =>
      (if s then "-" else EmptyString) +:+
      (if (0 <=? e) && (10 ^ 21 <=? Zpos m * 2 ^ e) then big (Zpos m) e
       else fixed2 (nearestHundredths (Zpos m) e))
  end.

(** *** Dates *)

(** Year, month and day of the proleptic Gregorian calendar for a day count
    from 1970-01-01. *)
Definition civil (days : Z) : Z * Z * Z :=
  let z := days + 719468 in
  let era := z / 146097 in
  let doe := z - era * 146097 in
  let yoe := (doe - doe / 1460 + doe / 36524 - doe / 146096) / 365 in
  let doy := doe - (365 * yoe + yoe / 4 - yoe / 100) in
  let mp := (5 * doy + 2) / 153 in
  let d := doy - (153 * mp + 2) / 5 + 1 in
  let m := if mp <? 10 then mp + 3 else mp - 9 in
  let y := yoe + era * 400 + (if m <=? 2 then 1 else 0) in
  (y, m, d).

Definition pad (width : nat) (n : Z) : string := padStart0 width (digits n).

(** [new Date(t).toISOString()], for a year from 0 to 9999. *)
Definition toISOString (t : Z) : string :=
  let '(y, m, d) := civil (t / 86400000) in
  let ms := t mod 86400000 in
  pad 4 y +:+ "-" +:+ pad 2 m +:+ "-" +:+ pad 2 d +:+ "T" +:+
  pad 2 (ms / 3600000) +:+ ":" +:+ pad 2 (ms / 60000 mod 60) +:+ ":" +:+
  pad 2 (ms / 1000 mod 60) +:+ "." +:+ pad 3 (ms mod 1000) +:+ "Z".

(** [new Date(t).toLocaleString()] as the en-US locale renders it in the UTC
    time zone: the result depends on the host's locale and zone, so the
    session takes the rendering as a parameter and this is one instance. *)
Definition toLocaleString_enUS_UTC (t : Z) : string :=
  let '(y, m, d) := civil (t / 86400000) in
  let ms := t mod 86400000 in
  let h := ms / 3600000 in
  let h12 := if h mod 12 =? 0 then 12 else h mod 12 in
  digits m +:+ "/" +:+ digits d +:+ "/" +:+ digits y +:+ ", " +:+
  digits h12 +:+ ":" +:+ pad 2 (ms / 60000 mod 60) +:+ ":" +:+
  pad 2 (ms / 1000 mod 60) +:+ (if h <? 12 then " AM" else " PM").

(** [s.replace(/:/g, "-")] and the like: every [a] becomes [b]. *)
Fixpoint replaceChar (a b : ascii) (s : string) : string :=
  match s with
  | EmptyString => EmptyString
  | String c s' => String (if Ascii.eqb c a then b else c) (replaceChar a b s')
  end.

Definition isDigit (c : ascii) : bool :=
  let n := nat_of_ascii c in ((48 <=? n) && (n <=? 57))%nat.
Definition isLower (c : ascii) : bool :=
  let n := nat_of_ascii c in ((97 <=? n) && (n <=? 122))%nat.
Definition isUpper (c : ascii) : bool :=
  let n := nat_of_ascii c in ((65 <=? n) && (n <=? 90))%nat.
Definition toLower (c : ascii) : ascii :=
  if isUpper c then ascii_of_nat (nat_of_ascii c + 32) else c.

(** [s.replace(a, b)] for a pattern that is a string of one character: the
    first [a] becomes [b], which may be empty. *)
Fixpoint replaceFirst (a : ascii) (b s : string) : string :=
  match s with
  | EmptyString => EmptyString
  | String c s' =>
      if Ascii.eqb c a then b +:+ s' else String c (replaceFirst a b s')
  end.

(** *** More arithmetic on numbers *)

Definition sub (x y : number) : number := SFsub prec emax x y.
Definition mul (x y : number) : number := SFmul prec emax x y.

(** [Math.ceil]: a fraction between [-1] and [0] goes to [-0]. *)
Definition ceil (x : number) : number :=
  match x with
  | S754_finite s m e =>
      if 0 <=? e then x
      else
        let q := Zpos m / 2 ^ (- e) in
        if s then (if q =? 0 then S754_zero true else number_of_Z (- q))
        else number_of_Z (if Zpos m mod 2 ^ (- e) =? 0 then q else q + 1)
  | _ => x
  end.

(** [Math.max(0, x)]. *)
Definition max0 (x : number) : number :=
  match x with
  | S754_nan => NaN
  | _ => if SFltb (number_of_Z 0) x then x else number_of_Z 0
  end.

(** The array index that a number names when it is used as a property key:
    a whole number that is not negative; another number names no element. *)
Definition toIndex (x : number) : option Z :=
  match x with
  | S754_zero _ => Some 0
  | S754_finite false m e =>
      if 0 <=? e then Some (Zpos m * 2 ^ e)
      else if Zpos m mod 2 ^ (- e) =? 0 then Some (Zpos m / 2 ^ (- e))
      else None
  | _ => None
  end.

(** [array[x]]: [None] is [undefined]. *)
Definition elementAt {A : Type} (array : list A) (x : number) : option A :=
  match toIndex x with
  | Some k => if k <? Z.of_nat (length array) then nth_error array (Z.to_nat k) else None
  | None => None
  end.

End JS.

(** ** [src/types.ts] *)

Inductive LogLevel := DEBUG | INFO | WARN | ERROR.

(** [SniffOptions] with every field present ([Required<SniffOptions>]); the
    [logger] option is the sink that fills [logged] in the world. *)
Record SniffOptions := {
  slowThreshold : Z;
  captureScreenshots : bool;
  screenshotDir : string;
  outputFile : string;
  outputHTML : string;
}.

Record ActionTiming := {
  at_label : string;
  at_duration : Z;
  at_slow : bool;
  at_failed : bool;
}.

(** [type]: one of the three names, or whatever a spread [metadata] puts in
    its place. *)
Inductive FailureType := console | request | custom | otherType (text : string).

(** [requestStatus?: number | null]: absent, [null] or a number; or the text
    that a spread [metadata] puts in its place. *)
Inductive Status := StatusNull | StatusCode (code : Z) | StatusText (text : string).

(** A failure object.  [f_metadata] holds the further own properties, with
    string values, that [addFailure] spreads into the object. *)
Record Failure := {
  f_error : option string;
  f_type : FailureType;
  f_requestUrl : option string;
  f_requestStatus : option Status;
  f_requestMethod : option string;
  f_metadata : list (string * string);
}.

Record ShowStopper := {
  ss_label : string;
  ss_criticalError : string;
  ss_screenshot : option string;
}.

Record RequestDetails := {
  rd_url : string;
  rd_duration : Z;
  rd_method : string;
}.

Record SniffReport := {
  timestamp : string;
  passed : bool;
  r_showStoppers : list ShowStopper;
  r_slowThreshold : Z;
  pageLoadSteps : list ActionTiming;
  avgLoadTime : option string;
  avgRequestTime : option string;
  slowRequests : list RequestDetails;
  r_failures : list Failure;
  r_testName : option string;
}.

(** [TestReport]: the object [{ reportData: [...] }]. *)
Record TestReport := { tr_reportData : list SniffReport }.

(** ** [src/utils.ts] *)

(** A thrown value that has a string form: an [Error] with its [message],
    or anything else with its [String(raw)] text. *)
Inductive Thrown :=
  | ErrorObject (name message : string)
  | OtherValue (text : string).

(** Any value that a [throw] or a rejected promise carries.  [Printable]: a
    value with a string form.  [NoText cleaning template]: a value without
    one, such as an object without [toString]: on it [String(raw)] throws, so
    [cleanErrorMessage] throws [cleaning] and a template literal throws
    [template].  [NoMessage cleaning template]: an [Error] whose [message] is
    not a string: [message.replace] throws [cleaning], while a template
    literal gives the text [template]. *)
Inductive Raised :=
  | Printable (e : Thrown)
  | NoText (cleaning template : Raised)
  | NoMessage (cleaning : Raised) (template : string).

Coercion Printable : Thrown >-> Raised.

(** [raw instanceof Error ? raw.message : String(raw)]. *)
Definition errorText (raw : Thrown) : string :=
  match raw with ErrorObject _ m => m | OtherValue t => t end.

(** [`${raw}`]: [Error.prototype.toString] for an [Error]. *)
Definition thrownToString (raw : Thrown) : string :=
  match raw with
  | ErrorObject n m =>
      if negb (JS.truthy n) then m
      else if negb (JS.truthy m) then n
      else n +:+ ": " +:+ m
  | OtherValue t => t
  end.

(** A character of the class [[0-9;]]. *)
Definition isParam (c : ascii) : bool := JS.isDigit c || Ascii.eqb c ";".

(** Length of the longest prefix in [[0-9;]*]. *)
Fixpoint paramRun (s : string) : nat :=
  match s with
  | String c s' => if isParam c then S (paramRun s') else O
  | EmptyString => O
  end.

(** Length of the match of [/\u001b\[[0-9;]*m/] at the head of [s]. *)
Definition sgrMatch (s : string) : option nat :=
  match s with
  | String c0 (String c1 r) =>
      if Ascii.eqb c0 JS.ESC && Ascii.eqb c1 "[" then
        let k := paramRun r in
        match String.get k r with
        | Some c => if Ascii.eqb c "m" then Some (3 + k)%nat else None
        | None => None
        end
      else None
  | _ => None
  end.

(** [s.replace(/\u001b\[[0-9;]*m/g, '')]: scan from the left; [skip] counts
    the characters of the current match still to drop. *)
Fixpoint stripFrom (skip : nat) (s : string) : string :=
  match s with
  | EmptyString => EmptyString
  | String c s' =>
      match skip with
      | S k => stripFrom k s'
      | O =>
          match sgrMatch s with
          | Some (S k) => stripFrom k s'
          | _ => String c (stripFrom 0 s')
          end
      end
  end.

Definition stripAnsi (s : string) : string := stripFrom 0 s.

(** [cleanErrorMessage] on a value with a string form: the statement
    [return stripped] ends at its line break, so the function returns there;
    the statement after it, [return stripped.split('\n')[0]], is never
    reached.  On a value without a string form the first statement throws:
    [cleaned] below. *)
Definition cleanErrorMessage (raw : Thrown) : string :=
  let message := errorText raw in
  let stripped := stripAnsi message in
  stripped.

(** What the comments of [cleanErrorMessage] announce: the stripped message
    cut at its first line. *)
Definition cleanErrorMessage_firstLine (raw : Thrown) : string :=
  JS.firstLine (stripAnsi (errorText raw)).

Section Utils.

(** The exponent form [Number::toString] prints for a magnitude of [10^21] or
    more, given mantissa and exponent. *)
Variable exponentForm : Z -> Z -> string.

Definition toFixed2 : JS.number -> string := JS.toFixed2 exponentForm.

(** [values.reduce((acc, val) => acc + val, 0)]. *)
Definition total (values : list JS.number) : JS.number :=
  fold_left JS.add values (JS.number_of_Z 0).

Definition calculateAverage (values : list JS.number) : option string :=
  match values with
  | [] => None
  | _ => Some (toFixed2 (JS.div (total values)
                                (JS.number_of_Z (Z.of_nat (length values)))))
  end.

End Utils.

(** ** [src/monitor.ts]: the world of a [PlaywrightSniff] instance *)

(** The private fields of the class that change after construction. *)
Record Instance := {
  failures : list Failure;
  showStoppers : list ShowStopper;
  requestStartTimes : gmap string Z;
  requestDurations : list Z;
  detailedRequestDurations : list RequestDetails;
  timings : list ActionTiming;
  isMonitoring : bool;
  testName : option string;
  reportData : list TestReport;
}.

(** The content of the JSON report file: [{ reportData, testRunnerPid }]. *)
Record StoredReports := {
  stored_reportData : list SniffReport;
  testRunnerPid : option string;
}.

(** A file is the text [JSON.stringify] made of stored reports, or any
    other text. *)
Inductive File :=
  | JsonReports (d : StoredReports)
  | Text (content : string).

(** What [JSON.parse] gives on a text: stored reports; another value whose
    [reportData] is missing or not an array, with the error the HTML
    generator raises on it; [null], with the error that reading [reportData]
    off it raises; or the error [JSON.parse] throws. *)
Inductive Parsed :=
  | ParsedReports (d : StoredReports)
  | ParsedOther (e : Thrown)
  | ParsedNull (e : Thrown)
  | ParseThrows (e : Thrown).

(** What a run of an [async] listener has left to do when it stops at an
    [await]: the requestfailed listener awaits [request.response()], which
    will give [status]; the response listener awaits [response.text()], which
    will give [body]; [addShowStopper], called by the response listener,
    awaits the screenshot to be written at [path]. *)
Inductive Task :=
  | AwaitsResponse (status : option Z) (url : string)
                   (failureText : option string) (method : string)
  | AwaitsBody (status : Z) (url method : string) (body : option string)
  | AwaitsScreenshot (label criticalError path : string).

Record World := {
  this : Instance;
  now : Z;
  files : gmap string File;
  logged : list (string * LogLevel);
  subscriptions : nat;
  screenshotFailure : option Thrown;
  pending : list Task;
}.

(** The fields as the class initialises them. *)
Definition newInstance : Instance :=
  {| failures := []; showStoppers := []; requestStartTimes := ∅;
     requestDurations := []; detailedRequestDurations := []; timings := [];
     isMonitoring := false; testName := None; reportData := [] |}.

Definition set_this (i : Instance) (w : World) : World :=
  {| this := i; now := now w; files := files w; logged := logged w;
     subscriptions := subscriptions w; screenshotFailure := screenshotFailure w;
     pending := pending w |}.
Definition set_now (t : Z) (w : World) : World :=
  {| this := this w; now := t; files := files w; logged := logged w;
     subscriptions := subscriptions w; screenshotFailure := screenshotFailure w;
     pending := pending w |}.
Definition set_files (f : gmap string File) (w : World) : World :=
  {| this := this w; now := now w; files := f; logged := logged w;
     subscriptions := subscriptions w; screenshotFailure := screenshotFailure w;
     pending := pending w |}.
Definition set_logged (l : list (string * LogLevel)) (w : World) : World :=
  {| this := this w; now := now w; files := files w; logged := l;
     subscriptions := subscriptions w; screenshotFailure := screenshotFailure w;
     pending := pending w |}.
Definition set_subscriptions (n : nat) (w : World) : World :=
  {| this := this w; now := now w; files := files w; logged := logged w;
     subscriptions := n; screenshotFailure := screenshotFailure w;
     pending := pending w |}.

Definition set_screenshotFailure (e : option Thrown) (w : World) : World :=
  {| this := this w; now := now w; files := files w; logged := logged w;
     subscriptions := subscriptions w; screenshotFailure := e;
     pending := pending w |}.

Definition set_pending (l : list Task) (w : World) : World :=
  {| this := this w; now := now w; files := files w; logged := logged w;
     subscriptions := subscriptions w; screenshotFailure := screenshotFailure w;
     pending := l |}.

Definition push_failure (f : Failure) (i : Instance) : Instance :=
  {| failures := failures i ++ [f]; showStoppers := showStoppers i;
     requestStartTimes := requestStartTimes i;
     requestDurations := requestDurations i;
     detailedRequestDurations := detailedRequestDurations i;
     timings := timings i; isMonitoring := isMonitoring i;
     testName := testName i; reportData := reportData i |}.
Definition push_showStopper (s : ShowStopper) (i : Instance) : Instance :=
  {| failures := failures i; showStoppers := showStoppers i ++ [s];
     requestStartTimes := requestStartTimes i;
     requestDurations := requestDurations i;
     detailedRequestDurations := detailedRequestDurations i;
     timings := timings i; isMonitoring := isMonitoring i;
     testName := testName i; reportData := reportData i |}.
Definition push_timing (t : ActionTiming) (i : Instance) : Instance :=
  {| failures := failures i; showStoppers := showStoppers i;
     requestStartTimes := requestStartTimes i;
     requestDurations := requestDurations i;
     detailedRequestDurations := detailedRequestDurations i;
     timings := timings i ++ [t]; isMonitoring := isMonitoring i;
     testName := testName i; reportData := reportData i |}.
Definition set_requestStart (url : string) (t : Z) (i : Instance) : Instance :=
  {| failures := failures i; showStoppers := showStoppers i;
     requestStartTimes := <[url := t]> (requestStartTimes i);
     requestDurations := requestDurations i;
     detailedRequestDurations := detailedRequestDurations i;
     timings := timings i; isMonitoring := isMonitoring i;
     testName := testName i; reportData := reportData i |}.
Definition push_requestDuration (r : RequestDetails) (i : Instance) : Instance :=
  {| failures := failures i; showStoppers := showStoppers i;
     requestStartTimes := requestStartTimes i;
     requestDurations := requestDurations i ++ [rd_duration r];
     detailedRequestDurations := detailedRequestDurations i ++ [r];
     timings := timings i; isMonitoring := isMonitoring i;
     testName := testName i; reportData := reportData i |}.
Definition set_isMonitoring (b : bool) (i : Instance) : Instance :=
  {| failures := failures i; showStoppers := showStoppers i;
     requestStartTimes := requestStartTimes i;
     requestDurations := requestDurations i;
     detailedRequestDurations := detailedRequestDurations i;
     timings := timings i; isMonitoring := b;
     testName := testName i; reportData := reportData i |}.
Definition set_testName (n : string) (i : Instance) : Instance :=
  {| failures := failures i; showStoppers := showStoppers i;
     requestStartTimes := requestStartTimes i;
     requestDurations := requestDurations i;
     detailedRequestDurations := detailedRequestDurations i;
     timings := timings i; isMonitoring := isMonitoring i;
     testName := Some n; reportData := reportData i |}.

(** *** Completions and the monad of methods *)

(** How a call ends: it returns, it throws (an async method rejects), or the
    process exits. *)
Inductive Completion (A : Type) :=
  | Normal (a : A)
  | Throw (e : Raised)
  | Exit (code : Z).
Arguments Normal {A} a.
Arguments Throw {A} e.
Arguments Exit {A} code.

Definition M (A : Type) : Type := World -> Completion A * World.

Definition ret {A} (a : A) : M A := fun w => (Normal a, w).

Definition bind {A B} (m : M A) (k : A -> M B) : M B :=
  fun w =>
    match m w with
    | (Normal a, w') => k a w'
    | (Throw e, w') => (Throw e, w')
    | (Exit c, w') => (Exit c, w')
    end.

Definition throw {A} (e : Raised) : M A := fun w => (Throw e, w).
Definition exit {A} (code : Z) : M A := fun w => (Exit code, w).

(** [try { body } catch (e) { handler e }]. *)
Definition tryCatch {A} (body : M A) (handler : Raised -> M A) : M A :=
  fun w =>
    match body w with
    | (Throw e, w') => handler e w'
    | r => r
    end.

Definition get : M World := fun w => (Normal w, w).
Definition modify (f : World -> World) : M unit := fun w => (Normal tt, f w).
Definition update (f : Instance -> Instance) : M unit :=
  modify (fun w => set_this (f (this w)) w).

Notation "x <- m ;; k" := (bind m (fun x => k))
  (at level 100, m at next level, right associativity).
Notation "m ;; k" := (bind m (fun _ => k))
  (at level 100, right associativity).

(** [n] runs of [m], one after the other. *)
Fixpoint times (n : nat) (m : M unit) : M unit :=
  match n with
  | O => ret tt
  | S n' => m ;; times n' m
  end.

Definition Date_now : M Z := w <- get ;; ret (now w).

(** [cleanErrorMessage(error)] on whatever was caught. *)
Definition cleaned (error : Raised) : M string :=
  match error with
  | Printable e => ret (cleanErrorMessage e)
  | NoText cleaning _ | NoMessage cleaning _ => throw cleaning
  end.

(** [`${error}`] on whatever was caught. *)
Definition templateOf (error : Raised) : M string :=
  match error with
  | Printable e => ret (thrownToString e)
  | NoText _ template => throw template
  | NoMessage _ template => ret template
  end.

(** [this.logger(message, level)]. *)
Definition logger (message : string) (level : LogLevel) : M unit :=
  modify (fun w => set_logged (logged w ++ [(message, level)]) w).

(** [Array.prototype.sort(compare)]: the order the comparator asks for, with
    elements that compare equal kept in their original order. *)
Section Sort.
Context {A : Type} (compare : A -> A -> Z).

Fixpoint insertSorted (x : A) (l : list A) : list A :=
  match l with
  | [] => [x]
  | y :: l' => if compare x y <=? 0 then x :: l else y :: insertSorted x l'
  end.

Fixpoint sort (l : list A) : list A :=
  match l with
  | [] => []
  | x :: l' => insertSorted x (sort l')
  end.
End Sort.

(** ** [src/monitor.ts]: the class [PlaywrightSniff] *)

Section Monitor.

(** [this.options], fixed by the constructor. *)
Variable options : SniffOptions.
(** [process.ppid?.toString()]. *)
Variable currentPpid : string.
(** [new Date(t).toLocaleString()] on the host. *)
Variable toLocaleString : Z -> string.
(** [path.join]. *)
Variable path_join : string -> string -> string.
(** [JSON.parse] on a text that [saveReport] did not write. *)
Variable JSON_parse : string -> Parsed.
(** The page that [generateReportHTML] of [src/html-report.ts] renders, at an
    instant, for stored reports that are not empty. *)
Variable renderHTML : Z -> StoredReports -> string.
(** The exponent form of [Number::toString]. *)
Variable exponentForm : Z -> Z -> string.

(** [`${this.testName}`]. *)
Definition showTestName (i : Instance) : string :=
  match testName i with Some n => n | None => "undefined" end.

(** [setupSniffingListeners]: one more listener on each of the five page
    events; nothing ever removes a listener. *)
Definition setupSniffingListeners : M unit :=
  modify (fun w => set_subscriptions (S (subscriptions w)) w).

Definition start : M unit :=
  w <- get ;;
  if isMonitoring (this w) then logger "Monitoring already started" WARN
  else
    update (fun i =>
      {| failures := []; showStoppers := []; requestStartTimes := ∅;
         requestDurations := []; detailedRequestDurations := []; timings := [];
         isMonitoring := true; testName := testName i; reportData := [] |}) ;;
    logger ("Started monitoring Playwright actions for " +:+ showTestName (this w)) INFO ;;
    setupSniffingListeners.

Definition hasShowStoppers : M bool :=
  w <- get ;; ret (0 <? length (showStoppers (this w)))%nat.

Definition getShowStoppers : M (list ShowStopper) :=
  w <- get ;; ret (showStoppers (this w)).

Definition setTestName (name : string) : M unit := update (set_testName name).

(** [label.replace(/[^a-z0-9]/gi, '_').toLowerCase()]. *)
Fixpoint safeName (label : string) : string :=
  match label with
  | EmptyString => EmptyString
  | String c s =>
      String (if JS.isDigit c || JS.isLower c || JS.isUpper c
              then JS.toLower c else "_"%char) (safeName s)
  end.

(** [await this.page.screenshot({ path })], and the creation of the directory
    before it: they throw what the world holds in [screenshotFailure].  The
    picture and the directory are the driver's: they are not among the
    [files] of the world. *)
Definition page_screenshot (path : string) : M unit :=
  w <- get ;;
  match screenshotFailure w with
  | Some e => throw e
  | None => ret tt
  end.

Definition captureErrorScreenshot (label : string) : M (option string) :=
  tryCatch
    (t <- Date_now ;;
     let timestamp :=
       JS.replaceChar "." "-" (JS.replaceChar ":" "-" (JS.toISOString t)) in
     let fileName := "error_" +:+ safeName label +:+ "_" +:+ timestamp +:+ ".png" in
     let filePath := path_join (screenshotDir options) fileName in
     page_screenshot filePath ;;
     ret (Some filePath))
    (fun e =>
       text <- templateOf e ;;
       logger ("Failed to capture error screenshot: " +:+ text) ERROR ;;
       ret None).

Definition measureAction (action : M unit) (label : string) : M unit :=
  w <- get ;;
  if negb (isMonitoring (this w)) then
    logger "Monitoring not started" WARN ;;
    action
  else
    begin <- Date_now ;;
    tryCatch
      (action ;;
       t <- Date_now ;;
       let duration := t - begin in
       let isSlow := duration >? slowThreshold options in
       update (push_timing {| at_label := label; at_duration := duration;
                              at_slow := isSlow; at_failed := false |}) ;;
       if isSlow then
         logger ("Slow action detected: " +:+ label +:+ " took " +:+
                 JS.string_of_Z duration +:+ "ms (threshold: " +:+
                 JS.string_of_Z (slowThreshold options) +:+ "ms)") WARN
       else ret tt)
      (fun error =>
       errorMessage <- cleaned error ;;
       update (push_timing {| at_label := label; at_duration := 0;
                              at_slow := false; at_failed := true |}) ;;
       update (push_showStopper {| ss_label := label;
                                   ss_criticalError := errorMessage;
                                   ss_screenshot := None |}) ;;
       logger ("Showstopper detected during " +:+ JS.DQUOTE +:+ label +:+
               JS.DQUOTE +:+ ": " +:+ errorMessage) ERROR ;;
       if captureScreenshots options then
         _ <- captureErrorScreenshot label ;; ret tt
       else ret tt).

(** The [type] that a text stands for. *)
Definition typeOfText (text : string) : FailureType :=
  if String.eqb text "console" then console
  else if String.eqb text "request" then request
  else if String.eqb text "custom" then custom
  else otherType text.

(** One own property of [metadata] spread into a failure: it replaces the
    property of its name, or it is one more property. *)
Definition spreadEntry (f : Failure) (entry : string * string) : Failure :=
  let '(key, value) := entry in
  if String.eqb key "error" then
    {| f_error := Some value; f_type := f_type f;
       f_requestUrl := f_requestUrl f; f_requestStatus := f_requestStatus f;
       f_requestMethod := f_requestMethod f; f_metadata := f_metadata f |}
  else if String.eqb key "type" then
    {| f_error := f_error f; f_type := typeOfText value;
       f_requestUrl := f_requestUrl f; f_requestStatus := f_requestStatus f;
       f_requestMethod := f_requestMethod f; f_metadata := f_metadata f |}
  else if String.eqb key "requestUrl" then
    {| f_error := f_error f; f_type := f_type f;
       f_requestUrl := Some value; f_requestStatus := f_requestStatus f;
       f_requestMethod := f_requestMethod f; f_metadata := f_metadata f |}
  else if String.eqb key "requestStatus" then
    {| f_error := f_error f; f_type := f_type f;
       f_requestUrl := f_requestUrl f; f_requestStatus := Some (StatusText value);
       f_requestMethod := f_requestMethod f; f_metadata := f_metadata f |}
  else if String.eqb key "requestMethod" then
    {| f_error := f_error f; f_type := f_type f;
       f_requestUrl := f_requestUrl f; f_requestStatus := f_requestStatus f;
       f_requestMethod := Some value; f_metadata := f_metadata f |}
  else
    {| f_error := f_error f; f_type := f_type f;
       f_requestUrl := f_requestUrl f; f_requestStatus := f_requestStatus f;
       f_requestMethod := f_requestMethod f;
       f_metadata := f_metadata f ++ [(key, value)] |}.

(** [{ error, type, ...metadata }]: the own properties of [metadata], which
    names each of them once, are copied in their order after [error] and
    [type]. *)
Definition spread (error : string) (type : FailureType)
    (metadata : list (string * string)) : Failure :=
  fold_left spreadEntry metadata
    {| f_error := Some error; f_type := type; f_requestUrl := None;
       f_requestStatus := None; f_requestMethod := None; f_metadata := [] |}.

Definition addFailure (error : string) (type : FailureType)
    (metadata : list (string * string)) : M unit :=
  w <- get ;;
  if negb (isMonitoring (this w)) then logger "Monitoring not started" WARN
  else
    update (push_failure (spread error type metadata)) ;;
    logger ("Failure added: " +:+ error) WARN.

Definition addShowStopper (label criticalError : string) : M unit :=
  w <- get ;;
  if negb (isMonitoring (this w)) then logger "Monitoring not started" WARN
  else
    screenshot <-
      (if captureScreenshots options then
         screenshotPath <- captureErrorScreenshot label ;;
         ret (match screenshotPath with
              | Some p => if JS.truthy p then Some p else None
              | None => None
              end)
       else ret None) ;;
    update (push_showStopper {| ss_label := label;
                                ss_criticalError := criticalError;
                                ss_screenshot := screenshot |}) ;;
    logger ("Showstopper added: " +:+ label +:+ " - " +:+ criticalError) ERROR.

(** [(a, b) => b.duration - a.duration]. *)
Definition byDurationDesc (a b : RequestDetails) : Z :=
  rd_duration b - rd_duration a.

(** The one report of [getResults()], read off an instance at an instant. *)
Definition reportOf (i : Instance) (t : Z) : SniffReport :=
  let timingsPassed := filter (fun t => at_failed t = false) (timings i) in
  let avgLoadTime :=
    calculateAverage exponentForm
      (map (fun t => JS.number_of_Z (at_duration t)) timingsPassed) in
  let avgRequestTime :=
    calculateAverage exponentForm (map JS.number_of_Z (requestDurations i)) in
  let slowRequests :=
    sort byDurationDesc
      (filter (fun r => rd_duration r > slowThreshold options)
              (detailedRequestDurations i)) in
  {| timestamp := toLocaleString t;
     passed := (length (showStoppers i) =? 0)%nat;
     r_showStoppers := showStoppers i;
     r_slowThreshold := slowThreshold options;
     pageLoadSteps := timings i;
     avgLoadTime := avgLoadTime;
     avgRequestTime := avgRequestTime;
     slowRequests := slowRequests;
     r_failures := failures i;
     r_testName := testName i |}.

Definition getResults : M TestReport :=
  w <- get ;;
  ret {| tr_reportData := [reportOf (this w) (now w)] |}.

(** [fs.writeFileSync(path, content)]. *)
Definition writeFile (path : string) (content : File) : M unit :=
  modify (fun w => set_files (<[path := content]> (files w)) w).

(** [JSON.parse(fs.readFileSync(path, 'utf8'))]. *)
Definition parseFile (f : File) : Parsed :=
  match f with
  | JsonReports d => ParsedReports d
  | Text s => JSON_parse s
  end.

Definition emptyStore : StoredReports :=
  {| stored_reportData := []; testRunnerPid := None |}.

(** [a || b] on an optional string argument. *)
Definition orElse (a : option string) (b : string) : string :=
  match a with
  | Some s => if JS.truthy s then s else b
  | None => b
  end.

Definition saveReport (outputFile_arg : option string) : M string :=
  results <- getResults ;;
  let filePath := orElse outputFile_arg (outputFile options) in
  w <- get ;;
  loaded <-
    match files w !! filePath with
    | None => ret (emptyStore, false)
    | Some f =>
        tryCatch
          (match parseFile f with
           | ParseThrows e => throw e
           | ParsedNull e => throw e
           | ParsedOther _ => ret (emptyStore, false)
           | ParsedReports d =>
               match testRunnerPid d with
               | Some pid =>
                   if JS.truthy pid && negb (String.eqb pid currentPpid)
                   then ret (emptyStore, true)
                   else ret (d, false)
               | None => ret (d, false)
               end
           end)
          (fun error =>
             text <- templateOf error ;;
             logger ("Error reading existing report: " +:+ text) ERROR ;;
             ret (emptyStore, false))
    end ;;
  let existingData := fst loaded in
  let shouldClear := snd loaded in
  let stored :=
    {| stored_reportData := stored_reportData existingData ++ tr_reportData results;
       testRunnerPid := Some currentPpid |} in
  let action :=
    if bool_decide (is_Some (files w !! filePath)) && negb shouldClear
    then "updated" else "created" in
  writeFile filePath (JsonReports stored) ;;
  logger ("Report " +:+ action +:+ " at " +:+ filePath) INFO ;;
  ret filePath.

(** [generateReportHTML(data)]: it reads [data.reportData[0].slowThreshold],
    which throws on an empty list. *)
Definition generateReportHTML (data : StoredReports) : M string :=
  match stored_reportData data with
  | [] => throw (ErrorObject "TypeError"
                   "Cannot read properties of undefined (reading 'slowThreshold')")
  | _ => t <- Date_now ;; ret (renderHTML t data)
  end.

Definition generateHTMLReport (outputHTML_arg : option string) : M unit :=
  let filePath := orElse outputHTML_arg (outputHTML options) in
  let jsonFilePath := outputFile options in
  w <- get ;;
  parsed <-
    tryCatch
      (match files w !! jsonFilePath with
       | None => throw (ErrorObject "Error"
                          ("ENOENT: no such file or directory, open '" +:+
                           jsonFilePath +:+ "'"))
       | Some f =>
           match parseFile f with
           | ParseThrows e => throw e
           | p => ret p
           end
       end)
      (fun error =>
         text <- templateOf error ;;
         logger ("Error reading existing json report: " +:+ text) ERROR ;;
         exit 1) ;;
  html <-
    match parsed with
    | ParsedReports d => generateReportHTML d
    | ParsedOther e => throw e
    | ParsedNull e => throw e
    | ParseThrows e => throw e
    end ;;
  let action :=
    if bool_decide (is_Some (files w !! filePath)) then "updated" else "created" in
  writeFile filePath (Text html) ;;
  logger ("HTML Report " +:+ action +:+ " at " +:+ filePath) INFO.

Definition stop : M unit :=
  w <- get ;;
  if negb (isMonitoring (this w)) then logger "Monitoring not started" WARN
  else
    _ <- saveReport None ;;
    generateHTMLReport None ;;
    update (set_isMonitoring false) ;;
    logger ("Stopped monitoring Playwright actions for " +:+ showTestName (this w)) INFO ;;
    failed <- hasShowStoppers ;;
    if failed then throw (ErrorObject "Error" "Test failed due to showstoppers")
    else ret tt.

(** *** The listeners of [setupSniffingListeners] *)

(** What the page hands to a listener, with what the promises that the
    listener awaits will give: the [status] of the response of a failed
    request, the [body] of a response. *)
Inductive PageEvent :=
  | ConsoleMessage (type text : string)
  | RequestFailed (status : option Z) (url : string)
                  (failureText : option string) (method : string)
  | RequestStarted (url : string)
  | RequestFinished (url method : string)
  | ResponseReceived (status : Z) (url method : string) (body : option string).

Definition onConsole (type text : string) : M unit :=
  if String.eqb type "error" then
    update (push_failure {| f_error := Some text; f_type := console;
                            f_requestUrl := None; f_requestStatus := None;
                            f_requestMethod := None; f_metadata := [] |})
  else ret tt.

(** The requestfailed listener once [request.response()] has settled, with
    a response of [status] or with none: [status || null] and
    [request.failure()?.errorText || 'Unknown error']. *)
Definition onRequestFailed (status : option Z) (url : string)
    (failureText : option string) (method : string) : M unit :=
  let errorText := orElse failureText "Unknown error" in
  let requestStatus :=
    match status with
    | Some c => if c =? 0 then StatusNull else StatusCode c
    | None => StatusNull
    end in
  update (push_failure {| f_error := Some errorText; f_type := request;
                          f_requestUrl := Some url;
                          f_requestStatus := Some requestStatus;
                          f_requestMethod := Some method; f_metadata := [] |}).

Definition onRequest (url : string) : M unit :=
  t <- Date_now ;;
  update (set_requestStart url t).

(** [if (this.requestStartTimes[url])]: a start instant of [0] is falsy. *)
Definition onRequestFinished (url method : string) : M unit :=
  w <- get ;;
  match requestStartTimes (this w) !! url with
  | Some started =>
      if started =? 0 then ret tt
      else
        t <- Date_now ;;
        let duration := t - started in
        update (push_requestDuration
                  {| rd_url := url; rd_duration := duration; rd_method := method |})
  | None => ret tt
  end.

(** The response listener run in one go, its awaits settling with nothing
    in between; [body] is [None] when [response.text()] rejects.  The page
    does not run it so: see [listener], [settle] and the lemma
    [response_settled_at_once]. *)
Definition onResponse (status : Z) (url method : string)
    (body : option string) : M unit :=
  if (500 <=? status) && (status <? 600) then
    let body := match body with Some b => b | None => "[body unreadable]" end in
    addShowStopper
      (method +:+ " - " +:+ url)
      ("Status: " +:+ JS.string_of_Z status +:+ " - Body: " +:+
       JS.substring0 100 body +:+ "...")
  else ret tt.

(** *** The asynchronous listeners, await by await

    The requestfailed and the response listeners are [async]: a run stops at
    its first [await], and the rest of it runs once the awaited promise has
    settled, after whatever the test and the page did meanwhile.  What is
    left of a run is kept in [pending]. *)

Definition defer (task : Task) : M unit :=
  modify (fun w => set_pending (pending w ++ [task]) w).

(** The response listener once [response.text()] has settled: the call of
    [addShowStopper], up to the [await] of [captureErrorScreenshot], which
    has named the picture by then, if screenshots are enabled. *)
Definition onResponse_body (status : Z) (url method : string)
    (body : option string) : M unit :=
  let body := match body with Some b => b | None => "[body unreadable]" end in
  let label := method +:+ " - " +:+ url in
  let criticalError :=
    "Status: " +:+ JS.string_of_Z status +:+ " - Body: " +:+
    JS.substring0 100 body +:+ "..." in
  w <- get ;;
  if negb (isMonitoring (this w)) then logger "Monitoring not started" WARN
  else if captureScreenshots options then
    t <- Date_now ;;
    let timestamp :=
      JS.replaceChar "." "-" (JS.replaceChar ":" "-" (JS.toISOString t)) in
    let fileName := "error_" +:+ safeName label +:+ "_" +:+ timestamp +:+ ".png" in
    let filePath := path_join (screenshotDir options) fileName in
    defer (AwaitsScreenshot label criticalError filePath)
  else
    update (push_showStopper {| ss_label := label;
                                ss_criticalError := criticalError;
                                ss_screenshot := None |}) ;;
    logger ("Showstopper added: " +:+ label +:+ " - " +:+ criticalError) ERROR.

(** The rest of [addShowStopper] once the screenshot attempt has settled,
    with the picture written or with the failure of the driver, which is
    logged: nothing checks [isMonitoring] again. *)
Definition addShowStopper_rest (label criticalError filePath : string) : M unit :=
  screenshotPath <-
    tryCatch
      (page_screenshot filePath ;; ret (Some filePath))
      (fun e =>
         text <- templateOf e ;;
         logger ("Failed to capture error screenshot: " +:+ text) ERROR ;;
         ret None) ;;
  update (push_showStopper
            {| ss_label := label;
               ss_criticalError := criticalError;
               ss_screenshot := match screenshotPath with
                                | Some p => if JS.truthy p then Some p else None
                                | None => None
                                end |}) ;;
  logger ("Showstopper added: " +:+ label +:+ " - " +:+ criticalError) ERROR.

Definition resume (task : Task) : M unit :=
  match task with
  | AwaitsResponse status url failureText method =>
      onRequestFailed status url failureText method
  | AwaitsBody status url method body => onResponse_body status url method body
  | AwaitsScreenshot label criticalError path =>
      addShowStopper_rest label criticalError path
  end.

(** The promise that the [k]-th pending run awaits settles: the run goes on
    to its next [await] or to its end. *)
Definition settle (k : nat) : M unit :=
  w <- get ;;
  match pending w !! k with
  | Some task =>
      modify (fun w => set_pending (delete k (pending w)) w) ;;
      resume task
  | None => ret tt
  end.

(** A listener up to its first [await], or to its end if it has none. *)
Definition listener (ev : PageEvent) : M unit :=
  match ev with
  | ConsoleMessage type text => onConsole type text
  | RequestFailed status url failureText method =>
      defer (AwaitsResponse status url failureText method)
  | RequestStarted url => onRequest url
  | RequestFinished url method => onRequestFinished url method
  | ResponseReceived status url method body =>
      if (500 <=? status) && (status <? 600)
      then defer (AwaitsBody status url method body)
      else ret tt
  end.

(** The page emits an event: every listener subscribed for it is called
    once. *)
Definition emit (ev : PageEvent) : M unit :=
  w <- get ;;
  times (subscriptions w) (listener ev).

(** *** Test scripts *)

(** What a test does with the instance, one call after the other, and what
    the host does in between: the page emits events, promises that listeners
    await settle, time passes.  The body of a measured action is a script of
    its own, followed by the rejection of the action if it has one. *)
Inductive Script :=
  | Skip
  | Seq (first next : Script)
  | CallStart
  | CallStop
  | CallMeasureAction (body : Script) (rejection : option Raised) (label : string)
  | CallAddFailure (error : string) (type : FailureType)
                   (metadata : list (string * string))
  | CallAddShowStopper (label criticalError : string)
  | CallGetResults
  | CallSaveReport (outputFile_arg : option string)
  | CallGenerateHTMLReport (outputHTML_arg : option string)
  | CallSetTestName (name : string)
  | PageEmits (ev : PageEvent)
  | TimePasses (ms : Z)
  | DriverChanges (failure : option Thrown)
  | HostWrites (path : string) (content : File)
  | Settles (k : nat).

Fixpoint run (s : Script) : M unit :=
  match s with
  | Skip => ret tt
  | Seq first next => run first ;; run next
  | CallStart => start
  | CallStop => stop
  | CallMeasureAction body rejection label =>
      measureAction
        (run body ;;
         match rejection with Some e => throw e | None => ret tt end)
        label
  | CallAddFailure error type metadata => addFailure error type metadata
  | CallAddShowStopper label criticalError => addShowStopper label criticalError
  | CallGetResults => _ <- getResults ;; ret tt
  | CallSaveReport o => _ <- saveReport o ;; ret tt
  | CallGenerateHTMLReport o => generateHTMLReport o
  | CallSetTestName name => setTestName name
  | PageEmits ev => emit ev
  | TimePasses ms => modify (fun w => set_now (now w + ms) w)
  | DriverChanges failure => modify (set_screenshotFailure failure)
  | HostWrites path content => writeFile path content
  | Settles k => settle k
  end.

End Monitor.

(** [PlaywrightSniff.DEFAULT_OPTIONS]. *)
Definition DEFAULT_OPTIONS : SniffOptions :=
  {| slowThreshold := 2000; captureScreenshots := true;
     screenshotDir := "./screenshots"; outputFile := "sniffing-results.json";
     outputHTML := "sniffing-report.html" |}.

(** The world right after [new PlaywrightSniff(config)]. *)
Definition newWorld (t : Z) (fs : gmap string File) : World :=
  {| this := newInstance; now := t; files := fs; logged := [];
     subscriptions := O; screenshotFailure := None; pending := [] |}.

(** ** [src/utils.ts]: the helpers the class does not call *)

(** [(a, b) => a - b] as [sort] reads it: the sign of the difference, a
    difference that is [NaN] counting as [+0]. *)
Definition ascending (a b : JS.number) : Z :=
  match JS.sub a b with
  | S754_finite s _ _ => if s then -1 else 1
  | S754_infinity s => if s then -1 else 1
  | _ => 0
  end.

(** [calculatePercentile]; [None] is [undefined], the value of
    [sorted[k]] when [k] names no element.  On a list that holds [NaN] the
    comparator is not consistent and the order of [sorted] is left to the
    engine: [sort] gives one such order. *)
Definition calculatePercentile (values : list JS.number) (percentile : JS.number)
    : option JS.number :=
  match values with
  | [] => Some (JS.number_of_Z 0)
  | _ =>
      let sorted := sort ascending values in
      let index :=
        JS.sub
          (JS.ceil (JS.mul (JS.div percentile (JS.number_of_Z 100))
                           (JS.number_of_Z (Z.of_nat (length sorted)))))
          (JS.number_of_Z 1) in
      JS.elementAt sorted (JS.max0 index)
  end.

(** The text [generateTimestamp] makes of the ISO rendering of an instant. *)
Definition timestampOf (iso : string) : string :=
  JS.replaceFirst "Z" EmptyString
    (JS.replaceFirst "T" "_"
       (JS.replaceChar "." "-" (JS.replaceChar ":" "-" iso))).

(** [formatDate], on the instant of a valid date. *)
Definition formatDate (date : Z) : string :=
  JS.substring0 19 (JS.replaceFirst "T" " " (JS.toISOString date)).

Definition generateTimestamp : M string :=
  t <- Date_now ;;
  ret (timestampOf (JS.toISOString t)).

(** ** [src/html-report.ts]: the figures of the page *)

(** The aggregates and the counts that [generateReportHTML] computes from the
    stored reports before it lays the page out. *)
Definition allSlowRequests (data : StoredReports) : list RequestDetails :=
  flat_map slowRequests (stored_reportData data).

Definition allFailures (data : StoredReports) : list Failure :=
  flat_map r_failures (stored_reportData data).

(** [{ ...s, testName: report.testName }]. *)
Definition allShowStoppers (data : StoredReports)
    : list (ShowStopper * option string) :=
  flat_map (fun report => map (fun s => (s, r_testName report)) (r_showStoppers report))
           (stored_reportData data).

Definition overallPassed (data : StoredReports) : bool :=
  forallb passed (stored_reportData data).

Definition passedTests (data : StoredReports) : Z :=
  Z.of_nat (length (filter (fun report => passed report = true)
                           (stored_reportData data))).

Definition failedTests (data : StoredReports) : Z :=
  Z.of_nat (length (stored_reportData data)) - passedTests data.

(** ** The [sniff] fixture *)

Section Fixture.

Variable options : SniffOptions.
Variable currentPpid : string.
Variable toLocaleString : Z -> string.
Variable JSON_parse : string -> Parsed.
Variable renderHTML : Z -> StoredReports -> string.
Variable exponentForm : Z -> Z -> string.

(** [await use(sniff)]: the test body runs; the fixture goes on once the body
    has finished, whether it passed or failed. *)
Definition use (test : M unit) : M unit :=
  fun w =>
    match test w with
    | (Exit code, w') => (Exit code, w')
    | (_, w') => (Normal tt, w')
    end.

(** The fixture around a test body, on the instance it has just made. *)
Definition sniff (title : string) (test : M unit) : M unit :=
  setTestName title ;;
  start ;;
  use test ;;
  stop options currentPpid toLocaleString JSON_parse renderHTML exponentForm.

End Fixture.

(** ** The example tests *)

(** The body of the test [Monitor page performance] of
    [examples/example-usage.spec.ts], run on the instance of the fixture.
    Each of the three measured actions drives the page: what the page does
    meanwhile is a script of its own, followed by the rejection of the action
    if it has one.  The lines after [getResults] only read the instance. *)
Definition monitorPagePerformance (goto click expectVisible : Script)
    (rejection1 rejection2 rejection3 : option Thrown) : Script :=
  Seq (CallMeasureAction goto (option_map Printable rejection1) "Open Playwright Page")
 (Seq (CallMeasureAction click (option_map Printable rejection2) "Click Link")
 (Seq (CallMeasureAction expectVisible (option_map Printable rejection3)
         "Expects page to have a heading with the name of Installation")
 (Seq (CallAddFailure "Example custom failure" custom [("additionalInfo", "test")])
 (Seq (CallAddShowStopper "Manual check" "Found an issue during manual verification")
      CallGetResults)))).

(** The body of the test [Dashboard page smoke tests] of the same file: the
    three measured actions, then [getResults]; the lines after it only read
    the instance. *)
Definition dashboardPageSmokeTests (goto click expectVisible : Script)
    (rejection1 rejection2 rejection3 : option Thrown) : Script :=
  Seq (CallMeasureAction goto (option_map Printable rejection1) "Open Playwright Page")
 (Seq (CallMeasureAction click (option_map Printable rejection2) "Click Link")
 (Seq (CallMeasureAction expectVisible (option_map Printable rejection3)
         "Expects page to have a heading with the name of Installation")
      CallGetResults)).

(** The test [Basic usage of playwright-sniff], which does not ask for the
    fixture: it makes an instance of its own, names it, starts it, measures
    three page actions and adds a failure and a showstopper by hand; the call
    of [stop] is commented out. *)
Definition basicUsage (title : string) (goto click expectVisible : Script)
    (rejection1 rejection2 rejection3 : option Thrown) : Script :=
  Seq (CallSetTestName title)
 (Seq CallStart
 (Seq (CallMeasureAction goto (option_map Printable rejection1) "Open Playwright Page")
 (Seq (CallMeasureAction click (option_map Printable rejection2) "Click Link")
 (Seq (CallMeasureAction expectVisible (option_map Printable rejection3)
         "Expects page to have a heading with the name of Installation")
 (Seq (CallAddFailure "Example custom failure" custom [("additionalInfo", "test")])
      (CallAddShowStopper "Manual check"
         "Found an issue during manual verification")))))).

(** ** Predicates of the statements *)

(** [slow == (duration > slowThreshold && !failed)]. *)
Definition timingConsistent (threshold : Z) (t : ActionTiming) : bool :=
  Bool.eqb (at_slow t) ((at_duration t >? threshold) && negb (at_failed t)).

(** Descending order of durations: [a] may come before [b]. *)
Definition notShorter (a b : RequestDetails) : Prop :=
  rd_duration b <= rd_duration a.

(** The collections a session accumulates. *)
Definition collections (i : Instance) :=
  (failures i, showStoppers i, timings i, requestDurations i,
   detailedRequestDurations i).

(** What holds of an instance with [n] listener sets on the page, in every
    world a script reaches: the recorded timings are consistent with the
    threshold; before the first [start] nothing is recorded; a Running
    session has a listener set. *)
Definition sound (threshold : Z) (i : Instance) (n : nat) : Prop :=
  forallb (timingConsistent threshold) (timings i) = true /\
  (n = O -> isMonitoring i = false /\ collections i = ([], [], [], [], [])) /\
  (isMonitoring i = true -> n <> O).

(** A world is sound when its instance is and no run of a listener is
    pending on a page without listeners. *)
Definition soundWorld (threshold : Z) (w : World) : Prop :=
  sound threshold (this w) (subscriptions w) /\
  (subscriptions w = O -> pending w = []).

(** A step from [w] to [w'] keeps the world sound and loses no listener
    set. *)
Definition keeps (threshold : Z) (w w' : World) : Prop :=
  soundWorld threshold w ->
  soundWorld threshold w' /\
  (subscriptions w <= subscriptions w')%nat.

(** The names of the properties of a failure that the reporter sets
    itself. *)
Definition failureKeys : list string :=
  ["error"; "type"; "requestUrl"; "requestStatus"; "requestMethod"].

(** Metadata that names none of them: spread into a failure, it replaces
    neither [error] nor [type] and fills no request property. *)
Definition namesNoField (metadata : list (string * string)) : bool :=
  forallb (fun entry => negb (existsb (String.eqb (fst entry)) failureKeys))
          metadata.

(** What [cleanErrorMessage] throws on a thrown value, if it throws. *)
Definition cleaningError (raw : Raised) : option Raised :=
  match raw with
  | Printable _ => None
  | NoText cleaning _ | NoMessage cleaning _ => Some cleaning
  end.

(** A thrown value with a string form. *)
Definition hasText (raw : Raised) : bool :=
  match raw with Printable _ => true | _ => false end.

(** A script that never calls [start]. *)
Fixpoint noStart (s : Script) : bool :=
  match s with
  | CallStart => false
  | Seq first next => noStart first && noStart next
  | CallMeasureAction body _ _ => noStart body
  | _ => true
  end.

(** A report with its timestamp blanked. *)
Definition untimed (r : SniffReport) : SniffReport :=
  {| timestamp := EmptyString; passed := passed r; r_showStoppers := r_showStoppers r;
     r_slowThreshold := r_slowThreshold r; pageLoadSteps := pageLoadSteps r;
     avgLoadTime := avgLoadTime r; avgRequestTime := avgRequestTime r;
     slowRequests := slowRequests r; r_failures := r_failures r;
     r_testName := r_testName r |}.

Fixpoint allDigits (s : string) : bool :=
  match s with
  | EmptyString => true
  | String c s' => JS.isDigit c && allDigits s'
  end.

(** Digits, at least one, then a point, then exactly two digits. *)
Fixpoint unsignedTwoDecimals (s : string) : bool :=
  match s with
  | EmptyString => false
  | String c s' =>
      JS.isDigit c &&
      match s' with
      | String "."%char (String d1 (String d2 EmptyString)) =>
          JS.isDigit d1 && JS.isDigit d2
      | _ => unsignedTwoDecimals s'
      end
  end.

(** The same after an optional minus sign. *)
Definition hasTwoDecimals (s : string) : bool :=
  match s with
  | String "-"%char s' => unsignedTwoDecimals s'
  | _ => unsignedTwoDecimals s
  end.

(** A number that [toFixed] prints in fixed notation: finite and of
    magnitude below [10^21]. *)
Definition printsFixed (x : JS.number) : bool :=
  match x with
  | S754_zero _ => true
  | S754_finite _ m e => negb ((0 <=? e) && (10 ^ 21 <=? Zpos m * 2 ^ e))
  | _ => false
  end.

Definition containsChar (c : ascii) (s : string) : bool :=
  existsb (Ascii.eqb c) (list_ascii_of_string s).

(** The world with one more call received by the logger. *)
Definition warned (w : World) : World :=
  set_logged (logged w ++ [("Monitoring not started", WARN)]) w.

(** The [screenshot] field that [addShowStopper] attaches in a world. *)
Definition attachedScreenshot (options : SniffOptions)
    (path_join : string -> string -> string) (label : string) (w : World)
    : option string :=
  if captureScreenshots options then
    match fst (captureErrorScreenshot options path_join label w) with
    | Normal (Some p) => if JS.truthy p then Some p else None
    | _ => None
    end
  else None.

(** The showstopper that a server-error response is turned into. *)
Definition serverErrorStopper (status : Z) (url method : string)
    (body : option string) (screenshot : option string) : ShowStopper :=
  {| ss_label := method +:+ " - " +:+ url;
     ss_criticalError :=
       "Status: " +:+ JS.string_of_Z status +:+ " - Body: " +:+
       JS.substring0 100 (match body with
                          | Some b => b
                          | None => "[body unreadable]"
                          end) +:+ "...";
     ss_screenshot := screenshot |}.

(** ** The session as a sequence of writes *)

(** One write to the world, as the methods, the listeners and the host make
    them.  [Resets] is the block of assignments at the head of [start]. *)
Inductive Effect :=
  | Logs (entries : list (string * LogLevel))
  | WritesFile (path : string) (content : File)
  | ClockMoves (ms : Z)
  | DriverSet (failure : option Thrown)
  | Subscribes
  | Resets
  | PushesFailure (f : Failure)
  | PushesShowStopper (s : ShowStopper)
  | PushesTiming (t : ActionTiming)
  | NotesRequestStart (url : string) (t : Z)
  | PushesRequest (r : RequestDetails)
  | SetsMonitoring (b : bool)
  | SetsTestName (name : string)
  | Defers (task : Task)
  | Resumes (k : nat).

Definition perform (e : Effect) (w : World) : World :=
  match e with
  | Logs entries => set_logged (logged w ++ entries) w
  | WritesFile path content => set_files (<[path := content]> (files w)) w
  | ClockMoves ms => set_now (now w + ms) w
  | DriverSet failure => set_screenshotFailure failure w
  | Subscribes => set_subscriptions (S (subscriptions w)) w
  | Resets =>
      set_this
        {| failures := []; showStoppers := []; requestStartTimes := ∅;
           requestDurations := []; detailedRequestDurations := []; timings := [];
           isMonitoring := true; testName := testName (this w);
           reportData := [] |} w
  | PushesFailure f => set_this (push_failure f (this w)) w
  | PushesShowStopper s => set_this (push_showStopper s (this w)) w
  | PushesTiming t => set_this (push_timing t (this w)) w
  | NotesRequestStart url t => set_this (set_requestStart url t (this w)) w
  | PushesRequest r => set_this (push_requestDuration r (this w)) w
  | SetsMonitoring b => set_this (set_isMonitoring b (this w)) w
  | SetsTestName name => set_this (set_testName name (this w)) w
  | Defers task => set_pending (pending w ++ [task]) w
  | Resumes k => set_pending (delete k (pending w)) w
  end.

Definition performAll (es : list Effect) (w : World) : World :=
  fold_left (fun w e => perform e w) es w.

(** A script that never calls [stop]. *)
Fixpoint noStop (s : Script) : bool :=
  match s with
  | CallStop => false
  | Seq first next => noStop first && noStop next
  | CallMeasureAction body _ _ => noStop body
  | _ => true
  end.

(** What the page, its listeners, the clock and the driver do while an
    action runs. *)
Fixpoint pageActivity (s : Script) : bool :=
  match s with
  | Skip | PageEmits _ | Settles _ | TimePasses _ | DriverChanges _ => true
  | Seq first next => pageActivity first && pageActivity next
  | _ => false
  end.

(** A test body for the fixture: measured page actions, which return or
    reject with a value that has a string form, records added by hand, reads
    and saved reports, with the page events and the changes of the host in
    between, in sequence; it calls neither [start] nor [stop] nor
    [generateHTMLReport]. *)
Fixpoint testBody (s : Script) : bool :=
  match s with
  | Seq first next => testBody first && testBody next
  | CallMeasureAction body rejection _ =>
      pageActivity body &&
      match rejection with Some raw => hasText raw | None => true end
  | CallStart | CallStop | CallGenerateHTMLReport _ => false
  | _ => true
  end.

(** A response with a status from 500 to 599. *)
Definition serverError (ev : PageEvent) : bool :=
  match ev with
  | ResponseReceived status _ _ _ => (500 <=? status) && (status <? 600)
  | _ => false
  end.

(** A script without a source of showstoppers: no measured action that
    rejects, no call of [addShowStopper], no response with a server error. *)
Fixpoint quiet (s : Script) : bool :=
  match s with
  | Seq first next => quiet first && quiet next
  | CallMeasureAction body rejection _ =>
      quiet body && match rejection with None => true | Some _ => false end
  | CallAddShowStopper _ _ => false
  | PageEmits ev => negb (serverError ev)
  | _ => true
  end.

(** The run that a listener leaves pending on an event. *)
Definition deferred (ev : PageEvent) : list Task :=
  match ev with
  | RequestFailed status url failureText method =>
      [AwaitsResponse status url failureText method]
  | ResponseReceived status url method body =>
      if (500 <=? status) && (status <? 600)
      then [AwaitsBody status url method body] else []
  | _ => []
  end.

(** A pending run of the response listener: it ends in a showstopper when
    it goes on in a Running session. *)
Definition stopperTask (task : Task) : bool :=
  match task with
  | AwaitsResponse _ _ _ _ => false
  | AwaitsBody _ _ _ _ | AwaitsScreenshot _ _ _ => true
  end.

(** A showstopper is recorded, or a run of the response listener is
    pending. *)
Definition flagged (w : World) : Prop :=
  showStoppers (this w) <> [] \/ existsb stopperTask (pending w) = true.

(** A script that writes no file: it calls neither [stop] nor [saveReport]
    nor [generateHTMLReport], and the host writes none. *)
Fixpoint noWrite (s : Script) : bool :=
  match s with
  | CallStop | CallSaveReport _ | CallGenerateHTMLReport _ | HostWrites _ _ => false
  | Seq first next => noWrite first && noWrite next
  | CallMeasureAction body _ _ => noWrite body
  | _ => true
  end.

(** The writes a script may make: only [start] resets and subscribes, only
    [stop] turns [isMonitoring] off, only [stop], [saveReport],
    [generateHTMLReport] and the host write files. *)
Definition permits (s : Script) (e : Effect) : bool :=
  match e with
  | Resets | Subscribes => negb (noStart s)
  | SetsMonitoring b => negb b && negb (noStop s)
  | WritesFile _ _ => negb (noWrite s)
  | _ => true
  end.

(** The writes that every operation may make. *)
Definition plain (e : Effect) : bool :=
  match e with
  | Resets | Subscribes | SetsMonitoring _ | WritesFile _ _ => false
  | _ => true
  end.

(** [w'] is [w] after a sequence of writes that [P] allows. *)
Definition reaches (P : Effect -> bool) (w w' : World) : Prop :=
  exists es, w' = performAll es w /\ forallb P es = true.

(** The report of a session that has recorded nothing. *)
Definition emptyReport (threshold : Z) (stamp : string) (name : option string)
    : SniffReport :=
  {| timestamp := stamp; passed := true; r_showStoppers := [];
     r_slowThreshold := threshold; pageLoadSteps := []; avgLoadTime := None;
     avgRequestTime := None; slowRequests := []; r_failures := [];
     r_testName := name |}.

(** The stored reports of another run of the test runner: [saveReport]
    drops them. *)
Definition stale (currentPpid : string) (d : StoredReports) : bool :=
  match testRunnerPid d with
  | Some pid => JS.truthy pid && negb (String.eqb pid currentPpid)
  | None => false
  end.

(** Every record of [i] is still in [i'], at its place: each collection of
    [i] is a prefix of the same collection of [i'], and a request that has a
    start instant in [i] has one in [i']. *)
Definition extends (i i' : Instance) : Prop :=
  failures i `prefix_of` failures i' /\
  showStoppers i `prefix_of` showStoppers i' /\
  timings i `prefix_of` timings i' /\
  requestDurations i `prefix_of` requestDurations i' /\
  detailedRequestDurations i `prefix_of` detailedRequestDurations i' /\
  (forall url, is_Some (requestStartTimes i !! url) ->
               is_Some (requestStartTimes i' !! url)).

(** A report as [getResults] makes it: passed exactly when it lists no
    showstopper. *)
Definition verdictConsistent (r : SniffReport) : Prop :=
  passed r = (length (r_showStoppers r) =? 0)%nat.

(** The two records of request durations go together. *)
Definition inStep (i : Instance) : Prop :=
  requestDurations i = map rd_duration (detailedRequestDurations i).

(** The name [captureErrorScreenshot] gives the picture taken for [label] at
    instant [t]. *)
Definition errorFileName (label : string) (t : Z) : string :=
  "error_" +:+ safeName label +:+ "_" +:+
  JS.replaceChar "." "-" (JS.replaceChar ":" "-" (JS.toISOString t)) +:+ ".png".

(** The text [YYYY-MM-DD_HH-mm-ss-SSS] of an instant. *)
Definition timestampText (t : Z) : string :=
  let '(y, m, d) := JS.civil (t / 86400000) in
  let ms := t mod 86400000 in
  JS.pad 4 y +:+ "-" +:+ JS.pad 2 m +:+ "-" +:+ JS.pad 2 d +:+ "_" +:+
  JS.pad 2 (ms / 3600000) +:+ "-" +:+ JS.pad 2 (ms / 60000 mod 60) +:+ "-" +:+
  JS.pad 2 (ms / 1000 mod 60) +:+ "-" +:+ JS.pad 3 (ms mod 1000).

(** The text [YYYY-MM-DD HH:mm:ss] of an instant. *)
Definition dateText (t : Z) : string :=
  let '(y, m, d) := JS.civil (t / 86400000) in
  let ms := t mod 86400000 in
  JS.pad 4 y +:+ "-" +:+ JS.pad 2 m +:+ "-" +:+ JS.pad 2 d +:+ " " +:+
  JS.pad 2 (ms / 3600000) +:+ ":" +:+ JS.pad 2 (ms / 60000 mod 60) +:+ ":" +:+
  JS.pad 2 (ms / 1000 mod 60).

(** [p] holds of the [count] integers from [z] on. *)
Fixpoint allFrom (p : Z -> bool) (z : Z) (count : nat) : bool :=
  match count with
  | O => true
  | S count' => p z && allFrom p (z + 1) count'
  end.

(** A digit, a hyphen or an underscore. *)
Definition isStampChar (c : ascii) : bool :=
  JS.isDigit c || Ascii.eqb c "-" || Ascii.eqb c "_".

(** A character that [safeName] lets through. *)
Definition isSafeChar (c : ascii) : bool :=
  JS.isDigit c || JS.isLower c || Ascii.eqb c "_".

(** A character of a file name that needs no quoting. *)
Definition isFileNameChar (c : ascii) : bool :=
  JS.isDigit c || JS.isLower c ||
  existsb (Ascii.eqb c) ["_"; "-"; "."; "T"; "Z"]%char.

Fixpoint allChars (p : ascii -> bool) (s : string) : bool :=
  match s with
  | EmptyString => true
  | String c s' => p c && allChars p s'
  end.

(** A message as a terminal library colours it: stretches of text and
    colour codes [ESC [ params m]. *)
Inductive Piece :=
  | PlainText (text : string)
  | ColourCode (params : string).

Definition renderPiece (p : Piece) : string :=
  match p with
  | PlainText text => text
  | ColourCode params => String JS.ESC ("[" +:+ params +:+ "m")
  end.

Fixpoint render (ps : list Piece) : string :=
  match ps with
  | [] => EmptyString
  | p :: ps' => renderPiece p +:+ render ps'
  end.

(** The text alone. *)
Fixpoint plainText (ps : list Piece) : string :=
  match ps with
  | [] => EmptyString
  | PlainText text :: ps' => text +:+ plainText ps'
  | ColourCode _ :: ps' => plainText ps'
  end.

(** The text holds no escape character; the parameters of a code are digits
    and semicolons. *)
Definition wellFormed (p : Piece) : bool :=
  match p with
  | PlainText text => negb (containsChar JS.ESC text)
  | ColourCode params => allChars isParam params
  end.

(** ** A concrete host, for the examples *)

Module Demo.

Definition options : SniffOptions :=
  {| slowThreshold := 2000; captureScreenshots := false;
     screenshotDir := "./screenshots"; outputFile := "sniffing-results.json";
     outputHTML := "sniffing-report.html" |}.
Definition currentPpid : string := "4242".
(** [path.join] on a directory and a file name that hold no [.] or [..]
    segment but for a leading [./], which the normalisation drops. *)
Definition path_join (dir file : string) : string :=
  match dir with
  | String "."%char (String "/"%char rest) => rest
  | _ => dir
  end +:+ "/" +:+ file.
Definition JSON_parse (text : string) : Parsed :=
  ParseThrows (ErrorObject "SyntaxError" "Unexpected token").
Definition renderHTML (t : Z) (d : StoredReports) : string := "<html></html>".
Definition exponentForm (m e : Z) : string := "1e+21".

Definition start := start.
Definition stop := stop options currentPpid JS.toLocaleString_enUS_UTC
                        JSON_parse renderHTML exponentForm.
Definition measureAction := measureAction options path_join.
Definition addFailure := addFailure.
Definition addShowStopper := addShowStopper options path_join.
Definition getResults :=
  getResults options JS.toLocaleString_enUS_UTC exponentForm.
Definition emit := emit.
Definition settle := settle options path_join.

(** The world after a computation. *)
Definition after {A} (m : M A) (w : World) : World := snd (m w).

Definition fresh : World := newWorld 1000 ∅.
Definition running : World := after start fresh.
Definition stopped : World := after stop running.
Definition restarted : World := after start stopped.

(** An action that rejects with [new Error('boom')]. *)
Definition boom : Thrown := ErrorObject "Error" "boom".
Definition failing : M unit := throw boom.


(** An action that takes three seconds. *)
Definition sleep3000 : M unit := modify (fun w => set_now (now w + 3000) w).

(** A 503 answer to [GET http://shop.test/api/cart]. *)
Definition response503 : PageEvent :=
  ResponseReceived 503 "http://shop.test/api/cart" "GET" (Some "Service Unavailable").
Definition stopper503 : ShowStopper :=
  {| ss_label := "GET - http://shop.test/api/cart";
     ss_criticalError := "Status: 503 - Body: Service Unavailable...";
     ss_screenshot := None |}.

(** Requests of 50, 900 and 300 milliseconds under a threshold of 200. *)
Definition options200 : SniffOptions :=
  {| slowThreshold := 200; captureScreenshots := false;
     screenshotDir := "./screenshots"; outputFile := "sniffing-results.json";
     outputHTML := "sniffing-report.html" |}.
Definition threeRequests : Instance :=
  {| failures := []; showStoppers := []; requestStartTimes := ∅;
     requestDurations := [50; 900; 300];
     detailedRequestDurations :=
       [ {| rd_url := "http://shop.test/a"; rd_duration := 50; rd_method := "GET" |};
         {| rd_url := "http://shop.test/b"; rd_duration := 900; rd_method := "GET" |};
         {| rd_url := "http://shop.test/c"; rd_duration := 300; rd_method := "POST" |} ];
     timings := []; isMonitoring := true; testName := Some "cart";
     reportData := [] |}.

Definition saveReport :=
  saveReport options currentPpid JS.toLocaleString_enUS_UTC JSON_parse exponentForm.
Definition run :=
  run options currentPpid JS.toLocaleString_enUS_UTC path_join JSON_parse
      renderHTML exponentForm.
Definition sniff :=
  sniff options currentPpid JS.toLocaleString_enUS_UTC JSON_parse renderHTML
        exponentForm.

(** The report of the Running session, and the world after it was saved
    once. *)
Definition firstReport : SniffReport :=
  reportOf options JS.toLocaleString_enUS_UTC exponentForm (this running) (now running).
Definition savedOnce : World := after (saveReport None) running.

(** [boom] in red, then a stack line. *)
Definition coloured : list Piece :=
  [ColourCode "31"; PlainText "boom"; ColourCode "0";
   PlainText (String JS.LF "    at step (test.ts:3:9)")].


(** The same host with screenshots enabled. *)
Definition withScreenshots : SniffOptions :=
  {| slowThreshold := 2000; captureScreenshots := true;
     screenshotDir := "./screenshots"; outputFile := "sniffing-results.json";
     outputHTML := "sniffing-report.html" |}.

(** A test body whose one measured action rejects. *)
Definition clickFails : Script := CallMeasureAction Skip (Some (Printable boom)) "Click".

(** A navigation of two and a half seconds with one request, and the
    error of an assertion that does not hold. *)
Definition navigation : Script :=
  Seq (PageEmits (RequestStarted "https://playwright.dev/"))
      (Seq (TimePasses 2500)
           (PageEmits (RequestFinished "https://playwright.dev/" "GET"))).
Definition notVisible : Thrown :=
  ErrorObject "Error" "expect(locator).toBeVisible() failed".

(** The Running world with the report file of another run of the test
    runner. *)
Definition otherRun : World :=
  set_files
    (<["sniffing-results.json" :=
         JsonReports {| stored_reportData := [firstReport; firstReport];
                        testRunnerPid := Some "17" |}]> ∅)
    running.

(** A report with one showstopper, after [firstReport] in a report file. *)
Definition failedReport : SniffReport :=
  reportOf options JS.toLocaleString_enUS_UTC exponentForm
    (this (after (measureAction failing "Click") running)) 2000.
Definition twoTests : StoredReports :=
  {| stored_reportData := [firstReport; failedReport];
     testRunnerPid := Some "4242" |}.

(** A failure by hand, then [stop], then a late console error. *)
Definition lateEvents : Script :=
  Seq (CallAddFailure "note" custom [])
      (Seq CallStop (PageEmits (ConsoleMessage "error" "late"))).

End Demo.

(** ** Facts about the session *)

Open Scope list_scope.

(** Unfolds the monad so that a method reads as a function of the world. *)
Ltac mrun :=
  repeat (progress unfold bind, ret, get, modify, update, throw, exit,
                          tryCatch, Date_now, logger, writeFile, cleaned,
                          templateOf);
  cbn [fst snd this now files logged subscriptions screenshotFailure pending
       set_this set_now set_files set_logged set_subscriptions set_pending].

(** A closed statement is settled by evaluation, conjunct by conjunct. *)
Ltac evaluate :=
  cbv zeta; repeat match goal with |- _ /\ _ => split end; vm_compute; reflexivity.

Arguments JS.toISOString : simpl never.
Arguments JS.string_of_Z : simpl never.
Arguments JS.substring0 : simpl never.
Arguments JS.replaceChar : simpl never.
Arguments String.append : simpl never.
Arguments safeName : simpl never.
Arguments thrownToString : simpl never.
Arguments cleanErrorMessage : simpl never.
Arguments calculateAverage : simpl never.
Arguments sort : simpl never.

(** *** Error messages *)

(** A message without an escape character passes [stripAnsi] unchanged. *)
Lemma stripAnsi_plain (s : string) :
  containsChar JS.ESC s = false -> stripAnsi s = s.
Proof.
  unfold stripAnsi, containsChar.
  induction s as [|c s IH]; [reflexivity|].
  cbn [existsb list_ascii_of_string stripFrom].
  intros Hesc. apply orb_false_iff in Hesc as [Hc Hs].
  assert (Hno : sgrMatch (String c s) = None).
  { unfold sgrMatch. destruct s; [reflexivity|].
    rewrite Ascii.eqb_sym, Hc. reflexivity. }
  rewrite Hno, IH by exact Hs. reflexivity.
Qed.

(** The first line of a text holds no line feed. *)
Lemma firstLine_single_line (s : string) :
  containsChar JS.LF (JS.firstLine s) = false.
Proof.
  unfold containsChar. induction s as [|c s IH]; [reflexivity|].
  cbn [JS.firstLine].
  destruct (Ascii.eqb c JS.LF) eqn:Hc; [reflexivity|].
  cbn [existsb list_ascii_of_string].
  rewrite Ascii.eqb_sym, Hc. exact IH.
Qed.

(** Hence an error message without escape characters comes back whole,
    with every line it has. *)
Lemma cleanErrorMessage_plain (name message : string) :
  containsChar JS.ESC message = false ->
  cleanErrorMessage (ErrorObject name message) = message.
Proof. intros Hesc. unfold cleanErrorMessage. cbn [errorText]. apply stripAnsi_plain, Hesc. Qed.

(** C6.  On the error message [boom], a line feed and a stack line,
    [cleanErrorMessage] returns the whole text, line feed included, where the
    specification and the function's own comment announce the first line,
    [boom]. *)
Theorem cleanErrorMessage_keeps_later_lines :
  let message := "boom" +:+ String JS.LF "    at step (test.ts:3:9)" in
  cleanErrorMessage (ErrorObject "Error" message) = message /\
  containsChar JS.LF (cleanErrorMessage (ErrorObject "Error" message)) = true /\
  cleanErrorMessage_firstLine (ErrorObject "Error" message) = "boom".
Proof. repeat split; reflexivity. Qed.

(** *** Averages *)

Lemma append_cons (c : ascii) (a b : string) :
  String c a +:+ b = String c (a +:+ b).
Proof. reflexivity. Qed.

Lemma allDigits_app (a b : string) :
  allDigits a = true -> allDigits b = true -> allDigits (a +:+ b) = true.
Proof.
  intros Ha Hb. induction a as [|c a IH]; [exact Hb|].
  rewrite append_cons. cbn [allDigits] in *.
  apply andb_true_iff in Ha as [Hc Ha]. rewrite Hc. exact (IH Ha).
Qed.

Lemma length_app_string (a b : string) :
  String.length (a +:+ b) = (String.length a + String.length b)%nat.
Proof.
  induction a as [|c a IH]; [reflexivity|].
  rewrite append_cons. cbn [String.length]. rewrite IH. reflexivity.
Qed.

Lemma digits_allDigits (n : Z) : allDigits (JS.digits n) = true.
Proof.
  unfold JS.digits, NilZero.string_of_uint.
  assert (H : forall d, allDigits (NilEmpty.string_of_uint d) = true)
    by (induction d; cbn [allDigits NilEmpty.string_of_uint]; auto).
  destruct (N.to_uint (Z.to_N n)); try apply H. reflexivity.
Qed.

Lemma digits_nonempty (n : Z) : (1 <= String.length (JS.digits n))%nat.
Proof.
  unfold JS.digits, NilZero.string_of_uint.
  destruct (N.to_uint (Z.to_N n)); cbn; lia.
Qed.

Lemma padStart0_digits (width : nat) (s : string) :
  allDigits s = true ->
  allDigits (JS.padStart0 width s) = true /\
  (width <= String.length (JS.padStart0 width s))%nat.
Proof.
  intros Hs. unfold JS.padStart0.
  assert (Hr : forall k, allDigits (JS.repeat0 k) = true /\
                         String.length (JS.repeat0 k) = k).
  { induction k as [|k [IH1 IH2]]; [split; reflexivity|].
    cbn [allDigits JS.repeat0 String.length]. rewrite IH1, IH2. auto. }
  destruct (Hr (width - String.length s)%nat) as [Hd Hl].
  split; [apply allDigits_app; assumption|].
  rewrite length_app_string, Hl. lia.
Qed.

(** A digit string of three characters or more, split before its last two
    characters by a point. *)
Lemma split_two_decimals (s : string) :
  allDigits s = true -> (3 <= String.length s)%nat ->
  unsignedTwoDecimals
    (String.substring 0 (String.length s - 2) s +:+ "." +:+
     String.substring (String.length s - 2) 2 s) = true /\
  exists c rest,
    String.substring 0 (String.length s - 2) s +:+ "." +:+
    String.substring (String.length s - 2) 2 s = String c rest /\
    JS.isDigit c = true.
Proof.
  induction s as [|c s IH]; cbn [String.length]; [lia|].
  intros Hd Hlen. cbn [allDigits] in Hd. apply andb_true_iff in Hd as [Hc Hd].
  destruct (Nat.eq_dec (String.length s) 2%nat) as [H2|H2].
  - destruct s as [|d1 [|d2 [|x s]]]; try discriminate.
    cbn in Hd. apply andb_true_iff in Hd as [Hd1 Hd].
    apply andb_true_iff in Hd as [Hd2 _].
    split; [|exists c; eexists; split; [reflexivity|exact Hc]].
    change (unsignedTwoDecimals
              (String c (String "." (String d1 (String d2 EmptyString)))) = true).
    cbn [unsignedTwoDecimals]. rewrite Hc, Hd1, Hd2. reflexivity.
  - destruct (IH Hd) as (Hok & c' & rest & Hshape & Hc'); [lia|].
    replace (S (String.length s) - 2)%nat with (S (String.length s - 2)) by lia.
    cbn [String.substring]. rewrite append_cons, Hshape.
    split; [|exists c; eexists; split; [reflexivity|exact Hc]].
    cbn [unsignedTwoDecimals]. rewrite Hc. cbn [andb].
    rewrite Hshape in Hok.
    destruct c' as [[|] [|] [|] [|] [|] [|] [|] [|]]; try discriminate Hc';
      exact Hok.
Qed.

Lemma fixed2_two_decimals (n : Z) :
  unsignedTwoDecimals (JS.fixed2 n) = true /\
  exists c rest, JS.fixed2 n = String c rest /\ JS.isDigit c = true.
Proof.
  unfold JS.fixed2.
  destruct (padStart0_digits 3 (JS.digits n) (digits_allDigits n)) as [Hd Hl].
  apply split_two_decimals; assumption.
Qed.

(** The integer printed is the nearest number of hundredths, the upper one of
    two at equal distance. *)
Lemma nearestHundredths_nearest (m e : Z) :
  0 < m ->
  let n := JS.nearestHundredths m e in
  let p := 2 ^ Z.max 0 (- e) in
  let q := 2 ^ Z.max 0 e in
  0 <= n /\ - p < 2 * n * p - 200 * m * q <= p.
Proof.
  intros Hm n p q. unfold JS.nearestHundredths in n.
  destruct (0 <=? e) eqn:He.
  - apply Z.leb_le in He. subst n p q.
    replace (Z.max 0 (- e)) with 0 by lia. replace (Z.max 0 e) with e by lia.
    assert (0 < 2 ^ e) by (apply Z.pow_pos_nonneg; lia).
    change (2 ^ 0) with 1. nia.
  - apply Z.leb_gt in He. subst p q.
    replace (Z.max 0 (- e)) with (- e) by lia. replace (Z.max 0 e) with 0 by lia.
    change (2 ^ 0) with 1. subst n.
    assert (Hp : 0 < 2 ^ (- e)) by (apply Z.pow_pos_nonneg; lia).
    replace (2 ^ (- e + 1)) with (2 * 2 ^ (- e))
      by (rewrite Z.pow_add_r by lia; change (2 ^ 1) with 2; lia).
    set (p := 2 ^ (- e)) in *.
    pose proof (Z.div_mod (200 * m + p) (2 * p) ltac:(lia)) as Hdm.
    pose proof (Z.mod_pos_bound (200 * m + p) (2 * p) ltac:(lia)) as Hmod.
    split; [apply Z.div_pos; lia|]. nia.
Qed.

Section UtilsFacts.

Variable exponentForm : Z -> Z -> string.

Local Abbreviation calculateAverage' := (calculateAverage exponentForm).
Local Abbreviation toFixed2' := (toFixed2 exponentForm).

Lemma toFixed2_two_decimals (x : JS.number) :
  printsFixed x = true -> hasTwoDecimals (toFixed2' x) = true.
Proof.
  destruct x as [s| | |s m e]; try discriminate; intros Hx; [reflexivity|].
  unfold toFixed2, JS.toFixed2. cbn in Hx.
  apply negb_true_iff in Hx. rewrite Hx.
  destruct (fixed2_two_decimals (JS.nearestHundredths (Z.pos m) e))
    as (Hok & c & rest & Hshape & Hc).
  destruct s; cbn [String.append hasTwoDecimals]; [exact Hok|].
  rewrite Hshape in *.
  destruct c as [[|] [|] [|] [|] [|] [|] [|] [|]]; try discriminate Hc;
    exact Hok.
Qed.

(** C10 (amended).  [calculateAverage] returns [null] on the empty list; on
    a list that is not empty it returns a string, never [null]: the
    [toFixed(2)] text of the binary64 quotient of the running sum by the
    length.  When that quotient is finite and of magnitude below [10^21],
    the text is an optional minus sign, digits, a point and exactly two
    digits, and the number it spells is the nearest count of hundredths to
    the quotient, the upper one of two at equal distance.  For a quotient
    that is [NaN] or infinite, the text is [NaN], [Infinity] or
    [-Infinity]. *)
Theorem calculateAverage_spec :
  calculateAverage' [] = None /\
  forall (v : JS.number) (values : list JS.number),
    let mean :=
      JS.div (total (v :: values))
             (JS.number_of_Z (Z.of_nat (length (v :: values)))) in
    calculateAverage' (v :: values) = Some (toFixed2' mean) /\
    (printsFixed mean = true ->
       hasTwoDecimals (toFixed2' mean) = true /\
       forall s m e, mean = S754_finite s m e ->
         let n := JS.nearestHundredths (Zpos m) e in
         toFixed2' mean = (if s then "-" else EmptyString) +:+ JS.fixed2 n /\
         0 <= n /\
         - 2 ^ Z.max 0 (- e) <
           2 * n * 2 ^ Z.max 0 (- e) - 200 * Zpos m * 2 ^ Z.max 0 e <=
           2 ^ Z.max 0 (- e)) /\
    (mean = JS.NaN -> calculateAverage' (v :: values) = Some "NaN") /\
    (mean = S754_infinity false ->
       calculateAverage' (v :: values) = Some "Infinity") /\
    (mean = S754_infinity true ->
       calculateAverage' (v :: values) = Some "-Infinity").
Proof.
  split; [reflexivity|]. intros v values mean.
  split; [reflexivity|]. split.
  - intros Hfixed.
    split; [apply toFixed2_two_decimals; exact Hfixed|].
    intros s m e Hmean n. rewrite Hmean in *.
    split.
    + unfold toFixed2, JS.toFixed2. cbn in Hfixed.
      apply negb_true_iff in Hfixed. rewrite Hfixed. reflexivity.
    + apply nearestHundredths_nearest. lia.
  - unfold calculateAverage. fold mean.
    repeat split; intros ->; reflexivity.
Qed.

End UtilsFacts.

(** *** Sorting by duration *)

Section SortFacts.
Context {A : Type} (compare : A -> A -> Z).

Lemma insertSorted_perm (x : A) (l : list A) :
  insertSorted compare x l ≡ₚ x :: l.
Proof.
  induction l as [|y l IH]; cbn; [reflexivity|].
  destruct (compare x y <=? 0); [reflexivity|].
  rewrite IH. apply Permutation_swap.
Qed.

Lemma sort_perm (l : list A) : sort compare l ≡ₚ l.
Proof.
  unfold sort. induction l as [|x l IH]; [reflexivity|].
  fold (sort compare l) in *. rewrite insertSorted_perm, IH. reflexivity.
Qed.
End SortFacts.

Lemma insertSorted_desc (x : RequestDetails) (l : list RequestDetails) :
  StronglySorted notShorter l ->
  StronglySorted notShorter (insertSorted byDurationDesc x l).
Proof.
  induction 1 as [|y l Hl IH Hy]; cbn.
  - repeat constructor.
  - unfold byDurationDesc at 1.
    destruct (rd_duration y - rd_duration x <=? 0) eqn:Hcmp.
    + apply Z.leb_le in Hcmp. constructor; [constructor; assumption|].
      constructor; [unfold notShorter; lia|].
      eapply Forall_impl; [exact Hy|].
      unfold notShorter; intros z Hz; cbn in *; lia.
    + apply Z.leb_gt in Hcmp. constructor; [exact IH|].
      rewrite (insertSorted_perm byDurationDesc x l).
      constructor; [unfold notShorter; lia|exact Hy].
Qed.

Lemma sort_desc (l : list RequestDetails) :
  StronglySorted notShorter (sort byDurationDesc l).
Proof.
  unfold sort. induction l as [|x l IH]; [constructor|].
  apply insertSorted_desc, IH.
Qed.

(** Entries of one duration keep their relative order through an insertion. *)
Lemma insertSorted_stable (d : Z) (x : RequestDetails) (l : list RequestDetails) :
  filter (fun r => rd_duration r = d) (insertSorted byDurationDesc x l) =
  filter (fun r => rd_duration r = d) (x :: l).
Proof.
  induction l as [|y l IH]; cbn [insertSorted]; [reflexivity|].
  unfold byDurationDesc at 1.
  destruct (rd_duration y - rd_duration x <=? 0) eqn:Hcmp; [reflexivity|].
  apply Z.leb_gt in Hcmp.
  rewrite (filter_cons _ y), IH, !(filter_cons _ x), (filter_cons _ y).
  repeat case_decide; try reflexivity; lia.
Qed.

Lemma sort_stable (d : Z) (l : list RequestDetails) :
  filter (fun r => rd_duration r = d) (sort byDurationDesc l) =
  filter (fun r => rd_duration r = d) l.
Proof.
  unfold sort. induction l as [|x l IH]; [reflexivity|].
  fold (sort byDurationDesc l) in *.
  rewrite insertSorted_stable, !(filter_cons _ x), IH. reflexivity.
Qed.

(** *** Colour codes in messages *)

Lemma append_assoc (a b c : string) : (a +:+ b) +:+ c = a +:+ (b +:+ c).
Proof.
  induction a as [|x a IH]; [reflexivity|].
  rewrite !append_cons, IH. reflexivity.
Qed.

Lemma containsChar_app (c : ascii) (a b : string) :
  containsChar c (a +:+ b) = containsChar c a || containsChar c b.
Proof.
  unfold containsChar. induction a as [|x a IH]; [reflexivity|].
  rewrite append_cons. cbn [list_ascii_of_string existsb].
  rewrite IH, orb_assoc. reflexivity.
Qed.

(** Text without an escape character passes, and the scan goes on after
    it. *)
Lemma stripFrom_text (a rest : string) :
  containsChar JS.ESC a = false ->
  stripFrom 0 (a +:+ rest) = a +:+ stripFrom 0 rest.
Proof.
  unfold containsChar. induction a as [|c a IH]; [reflexivity|].
  cbn [existsb list_ascii_of_string]. intros Hesc.
  apply orb_false_iff in Hesc as [Hc Ha].
  rewrite !append_cons. cbn [stripFrom].
  assert (Hno : sgrMatch (String c (a +:+ rest)) = None).
  { unfold sgrMatch. destruct (a +:+ rest); [reflexivity|].
    rewrite Ascii.eqb_sym, Hc. reflexivity. }
  rewrite Hno, (IH Ha). reflexivity.
Qed.

(** Once a match is found, its characters are dropped. *)
Lemma stripFrom_skip (a rest : string) :
  stripFrom (String.length a) (a +:+ rest) = stripFrom 0 rest.
Proof.
  induction a as [|c a IH]; [reflexivity|].
  rewrite append_cons. cbn [String.length stripFrom]. exact IH.
Qed.

Lemma paramRun_params (params rest : string) :
  allChars isParam params = true ->
  paramRun (params +:+ String "m" rest) = String.length params /\
  String.get (String.length params) (params +:+ String "m" rest) = Some "m"%char.
Proof.
  induction params as [|c params IH]; [split; reflexivity|].
  cbn [allChars]. intros H. apply andb_true_iff in H as [Hc H].
  destruct (IH H) as [IH1 IH2]. rewrite append_cons.
  cbn [paramRun String.length String.get]. rewrite Hc, IH1. split; [reflexivity|exact IH2].
Qed.

(** A colour code is matched whole and dropped. *)
Lemma stripFrom_code (params rest : string) :
  allChars isParam params = true ->
  stripFrom 0 (renderPiece (ColourCode params) +:+ rest) = stripFrom 0 rest.
Proof.
  intros Hp. cbn [renderPiece].
  rewrite append_cons, append_assoc, append_assoc.
  change ("[" +:+ params +:+ "m" +:+ rest)
    with (String "[" (params +:+ String "m" rest)).
  destruct (paramRun_params params rest Hp) as [Hrun Hget].
  cbn [stripFrom].
  assert (Hm : sgrMatch (String JS.ESC (String "[" (params +:+ String "m" rest)))
               = Some (3 + String.length params)%nat).
  { unfold sgrMatch. rewrite !Ascii.eqb_refl. cbn [andb].
    rewrite Hrun, Hget. reflexivity. }
  rewrite Hm. cbn [Nat.add stripFrom].
  change (String "m" rest) with ("m" +:+ rest).
  rewrite <- append_assoc.
  replace (S (String.length params)) with (String.length (params +:+ "m"))
    by (rewrite length_app_string; cbn; lia).
  apply stripFrom_skip.
Qed.

Lemma stripAnsi_render (ps : list Piece) :
  forallb wellFormed ps = true ->
  stripAnsi (render ps) = plainText ps /\
  containsChar JS.ESC (plainText ps) = false.
Proof.
  unfold stripAnsi. induction ps as [|p ps IH]; [split; reflexivity|].
  cbn [forallb]. intros H. apply andb_true_iff in H as [Hp H].
  destruct (IH H) as [IH1 IH2]. cbn [render plainText].
  destruct p as [text|params]; cbn [wellFormed renderPiece] in *.
  - apply negb_true_iff in Hp. rewrite (stripFrom_text _ _ Hp), IH1.
    split; [reflexivity|]. rewrite containsChar_app, Hp, IH2. reflexivity.
  - change (String JS.ESC ("[" +:+ params +:+ "m"))
      with (renderPiece (ColourCode params)).
    rewrite (stripFrom_code _ _ Hp). split; assumption.
Qed.

Section MonitorFacts.

Variable options : SniffOptions.
Variable currentPpid : string.
Variable toLocaleString : Z -> string.
Variable path_join : string -> string -> string.
Variable JSON_parse : string -> Parsed.
Variable renderHTML : Z -> StoredReports -> string.
Variable exponentForm : Z -> Z -> string.

Local Abbreviation getResults' := (getResults options toLocaleString exponentForm).
Local Abbreviation reportOf' := (reportOf options toLocaleString exponentForm).
Local Abbreviation measureAction' := (measureAction options path_join).
Local Abbreviation addShowStopper' := (addShowStopper options path_join).
Local Abbreviation captureErrorScreenshot' := (captureErrorScreenshot options path_join).
Local Abbreviation saveReport' :=
  (saveReport options currentPpid toLocaleString JSON_parse exponentForm).
Local Abbreviation generateHTMLReport' :=
  (generateHTMLReport options JSON_parse renderHTML).
Local Abbreviation stop' :=
  (stop options currentPpid toLocaleString JSON_parse renderHTML exponentForm).
Local Abbreviation onResponse' := (onResponse options path_join).
Local Abbreviation listener' := listener.
Local Abbreviation emit' := emit.
Local Abbreviation settle' := (settle options path_join).
Local Abbreviation resume' := (resume options path_join).

(** The screenshot helper returns normally whatever the driver does, and
    touches nothing but the log. *)
Lemma captureErrorScreenshot_total (label : string) (w : World) :
  exists p lg,
    captureErrorScreenshot' label w = (Normal p, set_logged (logged w ++ lg) w).
Proof.
  unfold captureErrorScreenshot, page_screenshot. mrun.
  destruct (screenshotFailure w) as [e|] eqn:Hshot.
  - eexists None, [_]. reflexivity.
  - eexists (Some _), []. rewrite app_nil_r.
    destruct w; reflexivity.
Qed.

(** C1.  For every world, whatever its failures, timings and lifecycle state,
    [getResults] returns one report whose [passed] is true exactly when the
    list of showstoppers is empty; it is the negation of
    [hasShowStoppers]. *)
Theorem getResults_passed (w : World) :
  exists r,
    getResults' w = (Normal {| tr_reportData := [r] |}, w) /\
    passed r = (length (showStoppers (this w)) =? 0)%nat /\
    (passed r = true <-> showStoppers (this w) = []) /\
    hasShowStoppers w = (Normal (negb (passed r)), w).
Proof.
  eexists. split; [reflexivity|]. cbn.
  destruct (showStoppers (this w)) as [|s l]; cbn; repeat split; congruence.
Qed.

(** The catch block of [measureAction]: what a rejection leaves behind. *)
Lemma measureAction_rejected
    (action : M unit) (label : string) (w w1 : World) (e : Thrown) :
  isMonitoring (this w) = true ->
  action w = (Throw e, w1) ->
  exists w2,
    measureAction' action label w = (Normal tt, w2) /\
    timings (this w2) =
      timings (this w1) ++ [{| at_label := label; at_duration := 0;
                               at_slow := false; at_failed := true |}] /\
    showStoppers (this w2) =
      showStoppers (this w1) ++ [{| ss_label := label;
                                    ss_criticalError := cleanErrorMessage e;
                                    ss_screenshot := None |}] /\
    failures (this w2) = failures (this w1) /\
    requestDurations (this w2) = requestDurations (this w1) /\
    detailedRequestDurations (this w2) = detailedRequestDurations (this w1).
Proof.
  intros Hrun Hact. unfold measureAction. mrun. rewrite Hrun. cbn.
  rewrite Hact. cbn.
  destruct (captureScreenshots options).
  - match goal with
    | |- context [captureErrorScreenshot _ _ label ?w0] =>
        destruct (captureErrorScreenshot_total label w0) as (p & lg & ->)
    end.
    eexists. split; [reflexivity|]. cbn. auto.
  - eexists. split; [reflexivity|]. cbn. auto.
Qed.

(** The catch block of [measureAction] on a rejection without a string form:
    [cleanErrorMessage] throws before anything is recorded. *)
Lemma measureAction_textless
    (action : M unit) (label : string) (w w1 : World) (raw cleaning : Raised) :
  isMonitoring (this w) = true ->
  action w = (Throw raw, w1) ->
  cleaningError raw = Some cleaning ->
  measureAction' action label w = (Throw cleaning, w1).
Proof.
  intros Hrun Hact Hraw. unfold measureAction. mrun. rewrite Hrun. cbn.
  rewrite Hact. destruct raw; cbn in *; congruence.
Qed.


(** In a Running session [measureAction] appends exactly one timing to those
    the action left, consistent with the threshold. *)
Lemma measureAction_appends_timing
    (action : M unit) (label : string) (w w1 : World) (c : Completion unit) :
  isMonitoring (this w) = true ->
  action w = (c, w1) ->
  (forall code, c <> Exit code) ->
  (forall raw, c = Throw raw -> hasText raw = true) ->
  exists t,
    timings (this (snd (measureAction' action label w))) = timings (this w1) ++ [t] /\
    at_label t = label /\
    (c = Normal tt ->
       at_duration t = now w1 - now w /\ at_failed t = false /\
       at_slow t = (now w1 - now w >? slowThreshold options)) /\
    (forall raw, c = Throw raw ->
       at_duration t = 0 /\ at_failed t = true /\ at_slow t = false) /\
    timingConsistent (slowThreshold options) t = true /\
    (forallb (timingConsistent (slowThreshold options)) (timings (this w1)) = true ->
     forallb (timingConsistent (slowThreshold options))
       (timings (this (snd (measureAction' action label w)))) = true).
Proof.
  intros Hrun Hact Hexit Htext.
  destruct c as [[]|raw|code]; [| |exfalso; eapply Hexit; reflexivity].
  2: destruct raw as [e| |]; try (specialize (Htext _ eq_refl); discriminate).
  - unfold measureAction. mrun. rewrite Hrun. cbn. rewrite Hact. cbn.
    set (D := now w1 - now w).
    set (t := {| at_label := label; at_duration := D;
                 at_slow := D >? slowThreshold options; at_failed := false |}).
    assert (Hok : timingConsistent (slowThreshold options) t = true).
    { unfold timingConsistent; cbn. rewrite andb_true_r. apply eqb_reflx. }
    match goal with
    | |- context [snd ?X] =>
        assert (Hw : timings (this (snd X)) = timings (this w1) ++ [t])
          by (destruct (D >? slowThreshold options); reflexivity)
    end.
    exists t. rewrite Hw. clear Hw.
    split; [reflexivity|]. split; [reflexivity|].
    split; [intros _; auto|]. split; [intros e0 He0; discriminate|].
    split; [exact Hok|].
    intros Hall. rewrite forallb_app, Hall. cbn [forallb andb].
    rewrite Hok. reflexivity.
  - destruct (measureAction_rejected action label w w1 e Hrun Hact)
      as (w2 & Heq & Ht & _).
    rewrite Heq. cbn. rewrite Ht.
    eexists. split; [reflexivity|]. cbn.
    split; [reflexivity|]. split; [intros H0; discriminate|].
    assert (Hok : timingConsistent (slowThreshold options)
              {| at_label := label; at_duration := 0;
                 at_slow := false; at_failed := true |} = true).
    { unfold timingConsistent; cbn. rewrite andb_false_r. reflexivity. }
    split; [intros e0 _; auto|]. split; [exact Hok|].
    intros Hall. rewrite forallb_app, Hall. cbn [forallb andb].
    rewrite Hok. reflexivity.
Qed.

(** *** The end of a session *)

Lemma saveReport_spec (arg : option string) (w : World) :
  let filePath := orElse arg (outputFile options) in
  exists previous lg,
    saveReport' arg w =
      (Normal filePath,
       set_logged (logged w ++ lg)
         (set_files
            (<[filePath :=
                 JsonReports
                   {| stored_reportData := previous ++ [reportOf' (this w) (now w)];
                      testRunnerPid := Some currentPpid |}]> (files w)) w)).
Proof.
  intros filePath. unfold saveReport, getResults. fold filePath. mrun.
  destruct (files w !! filePath) as [f|] eqn:Hf.
  - destruct (parseFile JSON_parse f) as [d|e|e|e] eqn:Hp.
    + destruct (testRunnerPid d) as [pid|] eqn:Hpid;
        [destruct (JS.truthy pid && negb (String.eqb pid currentPpid))|].
      * exists []. eexists. destruct w; reflexivity.
      * exists (stored_reportData d). eexists. destruct w; reflexivity.
      * exists (stored_reportData d). eexists. destruct w; reflexivity.
    + exists []. eexists. destruct w; reflexivity.
    + exists []. eexists (_ :: _ :: nil).
      destruct w; cbn. rewrite <- app_assoc. reflexivity.
    + exists []. eexists (_ :: _ :: nil).
      destruct w; cbn. rewrite <- app_assoc. reflexivity.
  - exists []. eexists. destruct w; reflexivity.
Qed.

Lemma generateHTMLReport_default (w : World) (d : StoredReports) :
  files w !! outputFile options = Some (JsonReports d) ->
  stored_reportData d <> [] ->
  exists lg,
    generateHTMLReport' None w =
      (Normal tt,
       set_logged (logged w ++ lg)
         (set_files (<[outputHTML options := Text (renderHTML (now w) d)]> (files w))
            w)).
Proof.
  intros Hf Hne. unfold generateHTMLReport, generateReportHTML, orElse. mrun.
  rewrite Hf. cbn.
  destruct (stored_reportData d) as [|r l]; [congruence|]. mrun.
  eexists. destruct w; reflexivity.
Qed.

(** What [stop] does in either state. *)
Lemma stop_spec (w : World) :
  if isMonitoring (this w) then
    exists previous lg,
      let stored :=
        {| stored_reportData := previous ++ [reportOf' (this w) (now w)];
           testRunnerPid := Some currentPpid |} in
      stop' w =
        (match showStoppers (this w) with
         | [] => Normal tt
         | _ => Throw (ErrorObject "Error" "Test failed due to showstoppers")
         end,
         {| this := set_isMonitoring false (this w);
            now := now w;
            files := <[outputHTML options := Text (renderHTML (now w) stored)]>
                       (<[outputFile options := JsonReports stored]> (files w));
            logged := logged w ++ lg;
            subscriptions := subscriptions w;
            screenshotFailure := screenshotFailure w;
            pending := pending w |})
  else
    stop' w = (Normal tt, warned w).
Proof.
  destruct (isMonitoring (this w)) eqn:Hrun.
  - destruct (saveReport_spec None w) as (previous & lg1 & Hsave).
    cbn [orElse] in Hsave.
    set (stored := {| stored_reportData := previous ++ [reportOf' (this w) (now w)];
                      testRunnerPid := Some currentPpid |}) in *.
    set (w1 := set_logged (logged w ++ lg1)
                 (set_files (<[outputFile options := JsonReports stored]> (files w)) w))
      in *.
    destruct (generateHTMLReport_default w1 stored) as (lg2 & Hhtml).
    { subst w1. cbn. apply lookup_insert_eq. }
    { subst stored. cbn. destruct previous; discriminate. }
    exists previous, (lg1 ++ lg2 ++
      [("Stopped monitoring Playwright actions for " +:+ showTestName (this w), INFO)]).
    unfold stop, hasShowStoppers.
    unfold bind at 1. unfold get at 1. rewrite Hrun. cbn [negb].
    unfold bind at 1. rewrite Hsave.
    unfold bind at 1. rewrite Hhtml. mrun.
    subst w1. cbn.
    destruct (showStoppers (this w)) as [|s l]; cbn;
      rewrite <- !app_assoc; reflexivity.
  - unfold stop. mrun. rewrite Hrun. reflexivity.
Qed.

(** C3.  When the session is not Running, [stop] returns normally and the
    world is the same but for one warning received by the logger.  When it is
    Running, [stop] appends the final report to the stored reports of the
    output file, writes the HTML page rendered from them, turns
    [isMonitoring] off, leaves the collections as they were, and throws
    exactly when a showstopper has been recorded.  So [stop] throws if and
    only if the session is Running with a showstopper, and a second [stop]
    right after the first only warns. *)
Theorem stop_contract (w : World) :
  (if isMonitoring (this w) then
     exists previous lg,
       let stored :=
         {| stored_reportData := previous ++ [reportOf' (this w) (now w)];
            testRunnerPid := Some currentPpid |} in
       stop' w =
         (match showStoppers (this w) with
          | [] => Normal tt
          | _ => Throw (ErrorObject "Error" "Test failed due to showstoppers")
          end,
          {| this := set_isMonitoring false (this w);
             now := now w;
             files := <[outputHTML options := Text (renderHTML (now w) stored)]>
                        (<[outputFile options := JsonReports stored]> (files w));
             logged := logged w ++ lg;
             subscriptions := subscriptions w;
             screenshotFailure := screenshotFailure w;
             pending := pending w |})
   else
     stop' w = (Normal tt, warned w)) /\
  ((exists e, fst (stop' w) = Throw e) <->
   isMonitoring (this w) = true /\ showStoppers (this w) <> []) /\
  stop' (snd (stop' w)) = (Normal tt, warned (snd (stop' w))).
Proof.
  pose proof (stop_spec w) as Hstop. split; [exact Hstop|].
  destruct (isMonitoring (this w)) eqn:Hrun.
  - destruct Hstop as (previous & lg & Hstop). cbn zeta in Hstop.
    rewrite Hstop. cbn [fst snd]. split.
    + destruct (showStoppers (this w)) as [|s l]; split.
      * intros [e He]; discriminate.
      * intros [_ Hne]; congruence.
      * intros _. split; [reflexivity|discriminate].
      * intros _. eexists. reflexivity.
    + match goal with
      | |- stop' ?w1 = _ =>
          pose proof (stop_spec w1) as Hagain;
          cbn [this isMonitoring set_isMonitoring] in Hagain; exact Hagain
      end.
  - rewrite Hstop. cbn [fst snd]. split.
    + split; [intros [e He]; discriminate|intros [Hc _]; discriminate].
    + pose proof (stop_spec (warned w)) as Hagain.
      cbn [this warned set_logged] in Hagain.
      rewrite Hrun in Hagain. exact Hagain.
Qed.

(** *** Operations outside a Running session *)

(** Outside a Running session [measureAction] warns and hands over to the
    action. *)
Lemma measureAction_idle (action : M unit) (label : string) (w : World) :
  isMonitoring (this w) = false ->
  measureAction' action label w = action (warned w).
Proof.
  intros Hidle. unfold measureAction. mrun. rewrite Hidle. cbn.
  destruct (action _) as [[[]|e|c] w']; reflexivity.
Qed.

(** *** Server errors on the response stream *)

Lemma addShowStopper_running (label criticalError : string) (w : World) :
  isMonitoring (this w) = true ->
  exists lg,
    addShowStopper' label criticalError w =
      (Normal tt,
       set_logged (logged w ++ lg)
         (set_this
            (push_showStopper
               {| ss_label := label; ss_criticalError := criticalError;
                  ss_screenshot := attachedScreenshot options path_join label w |}
               (this w)) w)).
Proof.
  intros Hrun. unfold addShowStopper, attachedScreenshot. mrun. rewrite Hrun. cbn.
  destruct (captureScreenshots options).
  - destruct (captureErrorScreenshot_total label w) as (p & lg & Hshot).
    rewrite Hshot. cbn. eexists (lg ++ [_]).
    destruct w; cbn. rewrite <- app_assoc. reflexivity.
  - cbn. eexists. destruct w; reflexivity.
Qed.

(** The screenshot attached depends on the clock and the driver alone. *)
Lemma attachedScreenshot_ext (label : string) (w w' : World) :
  now w' = now w -> screenshotFailure w' = screenshotFailure w ->
  attachedScreenshot options path_join label w' =
  attachedScreenshot options path_join label w.
Proof.
  intros Hnow Hshot.
  unfold attachedScreenshot, captureErrorScreenshot, page_screenshot. mrun.
  rewrite Hnow, Hshot. destruct (screenshotFailure w); reflexivity.
Qed.

(** [n] runs of the response listener on a server error append [n] copies
    of the same showstopper. *)
Lemma onResponse_times (status : Z) (url method : string) (body : option string)
    (n : nat) (w : World) :
  isMonitoring (this w) = true ->
  (500 <=? status) && (status <? 600) = true ->
  exists w',
    times n (onResponse' status url method body) w = (Normal tt, w') /\
    showStoppers (this w') =
      showStoppers (this w) ++
      repeat (serverErrorStopper status url method body
                (attachedScreenshot options path_join (method +:+ " - " +:+ url) w)) n /\
    isMonitoring (this w') = true /\
    now w' = now w /\ screenshotFailure w' = screenshotFailure w /\
    failures (this w') = failures (this w) /\
    timings (this w') = timings (this w) /\
    requestDurations (this w') = requestDurations (this w) /\
    detailedRequestDurations (this w') = detailedRequestDurations (this w).
Proof.
  intros Hrun Hrange. revert w Hrun. induction n as [|n IH]; intros w Hrun.
  - exists w. cbn. rewrite app_nil_r. repeat split; auto.
  - cbn [times]. unfold bind at 1. unfold onResponse at 1. rewrite Hrange.
    destruct (addShowStopper_running (method +:+ " - " +:+ url)
                ("Status: " +:+ JS.string_of_Z status +:+ " - Body: " +:+
                 JS.substring0 100 (match body with
                                    | Some b => b
                                    | None => "[body unreadable]"
                                    end) +:+ "...") w Hrun) as (lg & Hadd).
    rewrite Hadd.
    match goal with
    | |- context [times n _ ?w1] =>
        destruct (IH w1) as (w' & Hrest & Hss & Hrun' & Hnow & Hshot & Hf & Ht & Hd & Hdd);
          [exact Hrun|]
    end.
    exists w'. rewrite Hrest. split; [reflexivity|].
    cbn in Hss, Hnow, Hshot, Hf, Ht, Hd, Hdd.
    rewrite Hss. cbn [repeat].
    match goal with
    | |- context [attachedScreenshot _ _ ?l (set_logged ?a ?b)] =>
        rewrite (attachedScreenshot_ext l w (set_logged a b)) by reflexivity
    end.
    rewrite <- app_assoc.
    repeat split; auto.
Qed.

(** *** The report *)

(** C9.  For every list of recorded request details and every threshold,
    [slowRequests] holds exactly the entries whose duration is strictly above
    [slowThreshold], each as often as it was recorded, in descending order of
    duration, and entries of equal duration stay in the order in which they
    were recorded; recorded durations 50, 900, 300 with threshold 200 give
    900, 300. *)
Theorem slowRequests_sorted_stable (i : Instance) (t : Z) :
  let recorded := detailedRequestDurations i in
  let slow := filter (fun r => rd_duration r > slowThreshold options) recorded in
  let result := slowRequests (reportOf' i t) in
  result ≡ₚ slow /\
  (forall r, r ∈ result <-> r ∈ recorded /\ rd_duration r > slowThreshold options) /\
  StronglySorted notShorter result /\
  (forall d, filter (fun r => rd_duration r = d) result =
             filter (fun r => rd_duration r = d) slow) /\
  (slowThreshold options = 200 -> map rd_duration recorded = [50; 900; 300] ->
   map rd_duration result = [900; 300]).
Proof.
  clear currentPpid path_join JSON_parse renderHTML.
  intros recorded slow result.
  assert (Hres : result = sort byDurationDesc slow) by reflexivity.
  split; [rewrite Hres; apply sort_perm|].
  split.
  { intros r. rewrite Hres, (sort_perm byDurationDesc slow).
    unfold slow. rewrite list_elem_of_filter. tauto. }
  split; [rewrite Hres; apply sort_desc|].
  split; [intros d; rewrite Hres; apply sort_stable|].
  intros Hthr Hdur. rewrite Hres. unfold slow. rewrite Hthr.
  destruct recorded as [|a [|b [|c [|x l]]]]; try discriminate.
  cbn in Hdur. injection Hdur as Ha Hb Hc.
  rewrite !filter_cons, filter_nil.
  repeat case_decide; try lia.
  unfold sort; cbn. unfold byDurationDesc. rewrite Hb, Hc.
  change (300 - 900 <=? 0) with true. cbn [map]. congruence.
Qed.

(** *** What every script preserves *)

Local Abbreviation run' :=
  (run options currentPpid toLocaleString path_join JSON_parse renderHTML
       exponentForm).
Local Abbreviation soundAt w := (soundWorld (slowThreshold options) w).

Local Abbreviation keeps := (keeps (slowThreshold options)).

Lemma keeps_frame (w w' : World) :
  this w' = this w -> subscriptions w' = subscriptions w ->
  pending w' = pending w -> keeps w w'.
Proof.
  intros Hi Hn Hp Hs. unfold soundWorld in *. rewrite Hi, Hn, Hp.
  split; [exact Hs|lia].
Qed.

Lemma keeps_trans (w1 w2 w3 : World) :
  keeps w1 w2 -> keeps w2 w3 -> keeps w1 w3.
Proof.
  intros H12 H23 Hs. destruct (H12 Hs) as [Hs2 Hle2].
  destruct (H23 Hs2) as [Hs3 Hle3]. split; [exact Hs3|lia].
Qed.

(** In a world with a listener set, soundness is about the timings alone. *)
Lemma sound_started (w : World) :
  subscriptions w <> O ->
  forallb (timingConsistent (slowThreshold options)) (timings (this w)) = true ->
  soundAt w.
Proof. intros Hn Ht. repeat split; auto; intros; congruence. Qed.

(** A step that leaves the timings and the listener sets as they are, on a
    page that has a listener set. *)
Lemma keeps_started (w w' : World) :
  (soundAt w -> subscriptions w <> O) ->
  timings (this w') = timings (this w) ->
  subscriptions w' = subscriptions w -> keeps w w'.
Proof.
  intros Hn Ht Hs Hsound. pose proof (Hn Hsound) as Hne.
  split; [|lia]. apply sound_started; [lia|].
  rewrite Ht. apply Hsound.
Qed.

Lemma start_keeps (w : World) : keeps w (snd (start w)).
Proof.
  unfold start, setupSniffingListeners. mrun.
  destruct (isMonitoring (this w)) eqn:Hrun; cbn.
  - apply keeps_frame; reflexivity.
  - intros _. split; [|cbn; lia]. apply sound_started; cbn; [lia|reflexivity].
Qed.

Lemma stop_keeps (w : World) : keeps w (snd (stop' w)).
Proof.
  pose proof (stop_spec w) as Hstop.
  destruct (isMonitoring (this w)) eqn:Hrun.
  - destruct Hstop as (previous & lg & ->). cbn [snd].
    apply keeps_started; [|reflexivity..].
    intros ((_ & _ & Hn) & _). exact (Hn Hrun).
  - rewrite Hstop. apply keeps_frame; reflexivity.
Qed.

Lemma addFailure_keeps error type metadata (w : World) :
  keeps w (snd (addFailure error type metadata w)).
Proof.
  unfold addFailure. mrun.
  destruct (isMonitoring (this w)) eqn:Hrun; cbn [negb snd].
  - apply keeps_started; [|reflexivity..].
    intros ((_ & _ & Hn) & _). exact (Hn Hrun).
  - apply keeps_frame; reflexivity.
Qed.

Lemma addShowStopper_keeps label criticalError (w : World) :
  keeps w (snd (addShowStopper' label criticalError w)).
Proof.
  destruct (isMonitoring (this w)) eqn:Hrun.
  - destruct (addShowStopper_running label criticalError w Hrun) as (lg & ->).
    cbn [snd]. apply keeps_started; [|reflexivity..].
    intros ((_ & _ & Hn) & _). exact (Hn Hrun).
  - unfold addShowStopper. mrun. rewrite Hrun. apply keeps_frame; reflexivity.
Qed.

(** A listener, up to its first await, returns normally and touches
    neither the timings, nor the showstoppers, nor the status, nor the
    subscriptions. *)
Lemma listener_footprint (ev : PageEvent) (w : World) :
  exists w',
    listener' ev w = (Normal tt, w') /\
    timings (this w') = timings (this w) /\
    showStoppers (this w') = showStoppers (this w) /\
    isMonitoring (this w') = isMonitoring (this w) /\
    subscriptions w' = subscriptions w.
Proof.
  destruct ev as [type text|status url failureText method|url|url method
                  |status url method body]; cbn [listener].
  - unfold onConsole. mrun. destruct (String.eqb type "error");
      eexists; (split; [reflexivity|]); cbn; auto.
  - unfold defer. mrun. eexists; (split; [reflexivity|]); cbn; auto.
  - unfold onRequest. mrun. eexists; (split; [reflexivity|]); cbn; auto.
  - unfold onRequestFinished. mrun.
    destruct (requestStartTimes (this w) !! url) as [started|];
      [destruct (started =? 0)|]; eexists; (split; [reflexivity|]); cbn; auto.
  - unfold defer. mrun. destruct ((500 <=? status) && (status <? 600));
      eexists; (split; [reflexivity|]); cbn; auto.
Qed.

(** So does the event as a whole. *)
Lemma emit_footprint (ev : PageEvent) (w : World) :
  exists w',
    emit' ev w = (Normal tt, w') /\
    timings (this w') = timings (this w) /\
    showStoppers (this w') = showStoppers (this w) /\
    isMonitoring (this w') = isMonitoring (this w) /\
    subscriptions w' = subscriptions w.
Proof.
  assert (Hall : forall n w0,
            exists w', times n (listener' ev) w0 = (Normal tt, w') /\
              timings (this w') = timings (this w0) /\
              showStoppers (this w') = showStoppers (this w0) /\
              isMonitoring (this w') = isMonitoring (this w0) /\
              subscriptions w' = subscriptions w0).
  { induction n as [|n IH]; intros w0; [exists w0; repeat split|].
    cbn [times]. unfold bind at 1.
    destruct (listener_footprint ev w0) as (w1 & -> & Ht1 & Hss1 & Hm1 & Hs1).
    destruct (IH w1) as (w' & -> & Ht' & Hss' & Hm' & Hs'). exists w'.
    repeat split; congruence. }
  unfold emit. mrun. apply Hall.
Qed.

Lemma emit_keeps (ev : PageEvent) (w : World) : keeps w (snd (emit' ev w)).
Proof.
  destruct (subscriptions w) as [|k] eqn:Hsub.
  - unfold emit. mrun. rewrite Hsub. apply keeps_frame; reflexivity.
  - destruct (emit_footprint ev w) as (w' & -> & Ht & _ & _ & Hs). cbn [snd].
    apply keeps_started; [intros _; lia|exact Ht|exact Hs].
Qed.

(** The rest of a run of a listener returns normally and touches neither
    the timings, nor the status, nor the subscriptions, nor the clock, nor
    the driver. *)
Lemma resume_footprint (task : Task) (w : World) :
  exists w',
    resume' task w = (Normal tt, w') /\
    timings (this w') = timings (this w) /\
    isMonitoring (this w') = isMonitoring (this w) /\
    subscriptions w' = subscriptions w /\
    now w' = now w /\ screenshotFailure w' = screenshotFailure w.
Proof.
  destruct task as [status url failureText method|status url method body
                    |label criticalError path]; cbn [resume].
  - unfold onRequestFailed. mrun. eexists; (split; [reflexivity|]); cbn; auto.
  - unfold onResponse_body, defer. mrun.
    destruct (isMonitoring (this w)) eqn:Hrun; cbn [negb];
      [destruct (captureScreenshots options)|];
      eexists; (split; [reflexivity|]); cbn; auto.
  - unfold addShowStopper_rest, page_screenshot. mrun.
    destruct (screenshotFailure w) eqn:Hshot;
      eexists; (split; [reflexivity|]); cbn; auto.
Qed.

Lemma settle_footprint (k : nat) (w : World) :
  exists w',
    settle' k w = (Normal tt, w') /\
    timings (this w') = timings (this w) /\
    isMonitoring (this w') = isMonitoring (this w) /\
    subscriptions w' = subscriptions w /\
    now w' = now w /\ screenshotFailure w' = screenshotFailure w.
Proof.
  unfold settle. mrun.
  destruct (pending w !! k) as [task|]; [|exists w; repeat split].
  destruct (resume_footprint task (set_pending (delete k (pending w)) w))
    as (w' & -> & H). exists w'. split; [reflexivity|exact H].
Qed.

Lemma settle_keeps (k : nat) (w : World) : keeps w (snd (settle' k w)).
Proof.
  destruct (pending w !! k) as [task|] eqn:Hk.
  - destruct (settle_footprint k w) as (w' & -> & Ht & _ & Hs & _). cbn [snd].
    apply keeps_started; [|exact Ht|exact Hs].
    intros (_ & Hcalm) Hzero. rewrite (Hcalm Hzero) in Hk. discriminate.
  - unfold settle. mrun. rewrite Hk. apply keeps_frame; reflexivity.
Qed.

Lemma generateHTMLReport_footprint (arg : option string) (w : World) :
  this (snd (generateHTMLReport' arg w)) = this w /\
  subscriptions (snd (generateHTMLReport' arg w)) = subscriptions w /\
  pending (snd (generateHTMLReport' arg w)) = pending w.
Proof.
  unfold generateHTMLReport, generateReportHTML. mrun.
  destruct (files w !! outputFile options) as [f|]; [|repeat split; reflexivity].
  destruct (parseFile JSON_parse f) as [d|e|e|e]; try (repeat split; reflexivity).
  cbn. destruct (stored_reportData d); repeat split; reflexivity.
Qed.

(** [measureAction] subscribes nothing of its own and leaves the pending
    runs to its action. *)
Lemma measureAction_subscriptions (action : M unit) (label : string) (w : World) :
  let w1 := snd (action (if isMonitoring (this w) then w else warned w)) in
  subscriptions (snd (measureAction' action label w)) = subscriptions w1 /\
  pending (snd (measureAction' action label w)) = pending w1.
Proof.
  destruct (isMonitoring (this w)) eqn:Hrun.
  - unfold measureAction. mrun. rewrite Hrun. cbn.
    destruct (action w) as [[[]|[e| |]|code] w1] eqn:Hc; cbn;
      try (split; reflexivity).
    + destruct (_ >? _); split; reflexivity.
    + destruct (captureScreenshots options); [|split; reflexivity].
      match goal with
      | |- context [captureErrorScreenshot _ _ label ?w0] =>
          destruct (captureErrorScreenshot_total label w0) as (p & lg & ->)
      end. split; reflexivity.
  - rewrite (measureAction_idle action label w Hrun). split; reflexivity.
Qed.

(** [measureAction] keeps what its action keeps. *)
Lemma measureAction_keeps (action : M unit) (label : string) :
  (forall w, keeps w (snd (action w))) ->
  forall w, keeps w (snd (measureAction' action label w)).
Proof.
  intros Hact w. destruct (isMonitoring (this w)) eqn:Hrun.
  - destruct (action w) as [c w1] eqn:Hc.
    pose proof (Hact w) as Hw1. rewrite Hc in Hw1. cbn [snd] in Hw1.
    assert (Hsub : subscriptions (snd (measureAction' action label w))
                   = subscriptions w1).
    { destruct (measureAction_subscriptions action label w) as [H _].
      rewrite Hrun, Hc in H. exact H. }
    assert (Hdone : forall t,
              timings (this (snd (measureAction' action label w))) =
                timings (this w1) ++ [t] ->
              (forallb (timingConsistent (slowThreshold options))
                       (timings (this w1)) = true ->
               forallb (timingConsistent (slowThreshold options))
                 (timings (this (snd (measureAction' action label w)))) = true) ->
              keeps w (snd (measureAction' action label w))).
    { intros t _ Hall Hs. destruct (Hw1 Hs) as [((Ht1 & _ & _) & _) Hle].
      rewrite Hsub. split; [|exact Hle].
      destruct Hs as ((_ & _ & Hn) & _).
      apply sound_started; [rewrite Hsub; specialize (Hn Hrun); lia|exact (Hall Ht1)]. }
    destruct c as [[]|raw|code];
      [|destruct (cleaningError raw) as [cleaning|] eqn:Hraw|].
    + destruct (measureAction_appends_timing action label w w1 (Normal tt) Hrun Hc)
        as (t & Ht & _ & _ & _ & _ & Hall); [discriminate|discriminate|].
      exact (Hdone t Ht Hall).
    + rewrite (measureAction_textless action label w w1 raw cleaning Hrun Hc Hraw).
      exact Hw1.
    + destruct (measureAction_appends_timing action label w w1 (Throw raw) Hrun Hc)
        as (t & Ht & _ & _ & _ & _ & Hall);
        [discriminate
        |intros raw0 Heq; injection Heq as <-; destruct raw; [reflexivity|discriminate..]
        |].
      exact (Hdone t Ht Hall).
    + replace (snd (measureAction' action label w)) with w1; [exact Hw1|].
      unfold measureAction. mrun. rewrite Hrun. cbn. rewrite Hc. reflexivity.
  - rewrite (measureAction_idle action label w Hrun).
    eapply keeps_trans; [|apply Hact].
    apply keeps_frame; reflexivity.
Qed.

(** Every script keeps the world sound. *)
Lemma run_keeps (s : Script) : forall w, keeps w (snd (run' s w)).
Proof.
  induction s as [|first IH1 next IH2| | |body IH rejection label| | | | | | | | | | |k];
    intros w; cbn [run].
  - apply keeps_frame; reflexivity.
  - unfold bind. specialize (IH1 w).
    destruct (run' first w) as [[[]|e|c] w1]; cbn [snd] in *;
      [eapply keeps_trans; [exact IH1|apply IH2]|exact IH1|exact IH1].
  - apply start_keeps.
  - apply stop_keeps.
  - apply measureAction_keeps. intros w0. unfold bind. specialize (IH w0).
    destruct (run' body w0) as [[[]|e|c] w1]; cbn [snd] in *;
      [destruct rejection|..]; exact IH.
  - apply addFailure_keeps.
  - apply addShowStopper_keeps.
  - apply keeps_frame; reflexivity.
  - destruct (saveReport_spec outputFile_arg w) as (previous & lg & H).
    unfold bind. rewrite H. apply keeps_frame; reflexivity.
  - destruct (generateHTMLReport_footprint outputHTML_arg w) as (Hi & Hn & Hp).
    apply keeps_frame; assumption.
  - unfold setTestName. mrun. intros ((Ht & H0 & Hn) & Hp). split; [|cbn; lia].
    exact (conj (conj Ht (conj H0 Hn)) Hp).
  - apply emit_keeps.
  - apply keeps_frame; reflexivity.
  - apply keeps_frame; reflexivity.
  - apply keeps_frame; reflexivity.
  - apply settle_keeps.
Qed.

(** In every world a script reaches from a new instance, the instance is
    sound. *)
Lemma reachable_sound (s : Script) (t : Z) (fs : gmap string File) :
  sound (slowThreshold options) (this (snd (run' s (newWorld t fs))))
        (subscriptions (snd (run' s (newWorld t fs)))).
Proof.
  apply (run_keeps s (newWorld t fs)).
  split; [|reflexivity].
  split; [reflexivity|]. split; [split; reflexivity|discriminate].
Qed.

(** Only [start] subscribes listeners. *)
Lemma run_no_start (s : Script) :
  noStart s = true -> forall w, subscriptions (snd (run' s w)) = subscriptions w.
Proof.
  induction s as [|first IH1 next IH2| | |body IH rejection label| | | | | | | | | | |k];
    cbn [noStart run]; intros Hno w; try discriminate; try reflexivity.
  - apply andb_true_iff in Hno as [Hno1 Hno2]. unfold bind.
    specialize (IH1 Hno1 w).
    destruct (run' first w) as [[[]|e|c] w1]; cbn [snd] in *;
      [rewrite (IH2 Hno2 w1)|..]; exact IH1.
  - pose proof (stop_spec w) as Hstop.
    destruct (isMonitoring (this w)).
    + destruct Hstop as (previous & lg & ->). reflexivity.
    + rewrite Hstop. reflexivity.
  - destruct (measureAction_subscriptions
                (run' body ;;
                 match rejection with Some e => throw e | None => ret tt end)
                label w) as [-> _].
    set (w0 := if isMonitoring (this w) then w else warned w).
    assert (Hw0 : subscriptions w0 = subscriptions w)
      by (subst w0; destruct (isMonitoring (this w)); reflexivity).
    rewrite <- Hw0. unfold bind. specialize (IH Hno w0).
    destruct (run' body w0) as [[[]|e|c] w1]; cbn [snd] in *;
      [destruct rejection|..]; exact IH.
  - unfold addFailure. mrun. destruct (isMonitoring (this w)); reflexivity.
  - destruct (isMonitoring (this w)) eqn:Hrun.
    + destruct (addShowStopper_running label criticalError w Hrun) as (lg & ->).
      reflexivity.
    + unfold addShowStopper. mrun. rewrite Hrun. reflexivity.
  - destruct (saveReport_spec outputFile_arg w) as (previous & lg & H).
    unfold bind. rewrite H. reflexivity.
  - apply generateHTMLReport_footprint.
  - destruct (emit_footprint ev w) as (w' & -> & _ & _ & _ & Hs). exact Hs.
  - destruct (settle_footprint k w) as (w' & -> & _ & _ & Hs & _). exact Hs.
Qed.

(** C4 (amended).  When [isMonitoring] is off, the operations that check it
    record nothing: [measureAction] logs one warning and hands over to the
    action, [addFailure] and [addShowStopper] only log one warning, the
    response listener changes no collection, whether it runs in one go or
    goes on after the body has been read; and while nothing is subscribed,
    as in every world a script reaches without calling [start], an event
    reaches no listener and leaves the world as it is.  The console,
    requestfailed, request and requestfinished listeners themselves carry no
    such check: they record in every world. *)
Theorem guarded_operations_frozen :
  (forall w : World,
     isMonitoring (this w) = false ->
     (forall action label, measureAction' action label w = action (warned w)) /\
     (forall error type metadata,
        addFailure error type metadata w = (Normal tt, warned w)) /\
     (forall label criticalError,
        addShowStopper' label criticalError w = (Normal tt, warned w)) /\
     (forall status url method body,
        fst (onResponse' status url method body w) = Normal tt /\
        collections (this (snd (onResponse' status url method body w))) =
          collections (this w)) /\
     (forall status url method body k,
        pending w !! k = Some (AwaitsBody status url method body) ->
        settle' k w =
          (Normal tt, warned (set_pending (delete k (pending w)) w))) /\
     (subscriptions w = O -> forall ev, emit' ev w = (Normal tt, w))) /\
  (forall (s : Script) (t0 : Z) (fs : gmap string File) (ev : PageEvent),
     noStart s = true ->
     emit' ev (snd (run' s (newWorld t0 fs))) =
       (Normal tt, snd (run' s (newWorld t0 fs)))) /\
  (forall w : World,
     (forall text,
        failures (this (snd (onConsole "error" text w))) =
          failures (this w) ++
          [{| f_error := Some text; f_type := console; f_requestUrl := None;
              f_requestStatus := None; f_requestMethod := None;
              f_metadata := [] |}]) /\
     (forall status url failureText method,
        length (failures (this (snd (onRequestFailed status url failureText method w)))) =
          S (length (failures (this w)))) /\
     (forall url,
        requestStartTimes (this (snd (onRequest url w))) !! url = Some (now w)) /\
     (forall url method started,
        requestStartTimes (this w) !! url = Some started -> started <> 0 ->
        requestDurations (this (snd (onRequestFinished url method w))) =
          requestDurations (this w) ++ [now w - started] /\
        detailedRequestDurations (this (snd (onRequestFinished url method w))) =
          detailedRequestDurations (this w) ++
          [{| rd_url := url; rd_duration := now w - started;
              rd_method := method |}])).
Proof.
  split; [|split].
  - intros w Hidle. split; [|split; [|split; [|split; [|split]]]].
    + intros action label. apply measureAction_idle, Hidle.
    + intros error type metadata. unfold addFailure. mrun. rewrite Hidle.
      reflexivity.
    + intros label criticalError. unfold addShowStopper. mrun. rewrite Hidle.
      reflexivity.
    + intros status url method body. unfold onResponse, addShowStopper. mrun.
      destruct ((500 <=? status) && (status <? 600)); [rewrite Hidle|];
        split; reflexivity.
    + intros status url method body k Hk. unfold settle. mrun. rewrite Hk.
      cbn [resume]. unfold onResponse_body. mrun. rewrite Hidle. reflexivity.
    + intros Hsub ev. unfold emit. mrun. rewrite Hsub. reflexivity.
  - intros s t0 fs ev Hno. unfold emit. mrun.
    rewrite (run_no_start s Hno). reflexivity.
  - intros w. split; [|split; [|split]].
    + intros text. reflexivity.
    + intros status url failureText method. unfold onRequestFailed. mrun. cbn.
      rewrite length_app. cbn. lia.
    + intros url. unfold onRequest. mrun. cbn. apply lookup_insert_eq.
    + intros url method started Hstart Hnz. unfold onRequestFinished. mrun.
      rewrite Hstart. destruct (started =? 0) eqn:Hz; [lia|]. split; reflexivity.
Qed.

(** *** The response listener, await by await *)

Lemma times_add (a b : nat) (m : M unit) (w : World) :
  times (a + b) m w = (times a m ;; times b m) w.
Proof.
  revert w. induction a as [|a IH]; intros w; [reflexivity|].
  cbn [Nat.add times]. unfold bind.
  destruct (m w) as [[[]|e|c] w1]; try reflexivity.
  rewrite IH. reflexivity.
Qed.

(** A response event leaves one run of the listener pending for each
    listener set, if its status is a server error, and nothing otherwise. *)
Lemma emit_response (status : Z) (url method : string) (body : option string)
    (w : World) :
  emit' (ResponseReceived status url method body) w =
    (Normal tt,
     set_pending
       (pending w ++
        (if (500 <=? status) && (status <? 600)
         then repeat (AwaitsBody status url method body) (subscriptions w)
         else [])) w).
Proof.
  set (ev := ResponseReceived status url method body).
  assert (Hone : forall w0,
            listener' ev w0 =
              (Normal tt,
               set_pending
                 (pending w0 ++
                  (if (500 <=? status) && (status <? 600)
                   then [AwaitsBody status url method body] else [])) w0)).
  { intros w0. cbn [listener ev].
    destruct ((500 <=? status) && (status <? 600)); [reflexivity|].
    rewrite app_nil_r. destruct w0; reflexivity. }
  unfold emit. mrun. generalize (subscriptions w) as n. intros n. revert w.
  induction n as [|n IH]; intros w.
  - cbn. destruct ((500 <=? status) && (status <? 600));
      rewrite app_nil_r; destruct w; reflexivity.
  - cbn [times]. unfold bind at 1. rewrite Hone, IH.
    cbn [pending set_pending].
    destruct ((500 <=? status) && (status <? 600)); cbn [repeat];
      rewrite <- app_assoc; reflexivity.
Qed.

(** The body of the response has been read: [addShowStopper] checks
    [isMonitoring] now. *)
Lemma settle_body (status : Z) (url method : string) (body : option string)
    (k : nat) (w : World) :
  pending w !! k = Some (AwaitsBody status url method body) ->
  let label := method +:+ " - " +:+ url in
  let stopper := serverErrorStopper status url method body None in
  let w0 := set_pending (delete k (pending w)) w in
  settle' k w =
    (Normal tt,
     if isMonitoring (this w) then
       if captureScreenshots options then
         set_pending
           (pending w0 ++
            [AwaitsScreenshot label (ss_criticalError stopper)
               (path_join (screenshotDir options)
                          (errorFileName label (now w)))]) w0
       else
         set_logged
           (logged w ++
            [("Showstopper added: " +:+ label +:+ " - " +:+
              ss_criticalError stopper, ERROR)])
           (set_this (push_showStopper stopper (this w)) w0)
     else warned w0).
Proof.
  intros Hk label stopper w0. unfold settle. mrun. rewrite Hk.
  cbn [resume]. unfold onResponse_body, defer. mrun.
  destruct (isMonitoring (this w)); [|reflexivity].
  destruct (captureScreenshots options); reflexivity.
Qed.

(** The screenshot attempt has settled: the showstopper is pushed, whatever
    the session has become. *)
Lemma settle_screenshot (label criticalError path : string) (k : nat) (w : World) :
  pending w !! k = Some (AwaitsScreenshot label criticalError path) ->
  exists lg,
    settle' k w =
      (Normal tt,
       set_logged (logged w ++ lg)
         (set_this
            (push_showStopper
               {| ss_label := label; ss_criticalError := criticalError;
                  ss_screenshot :=
                    match screenshotFailure w with
                    | None => if JS.truthy path then Some path else None
                    | Some _ => None
                    end |}
               (this w))
            (set_pending (delete k (pending w)) w))).
Proof.
  intros Hk. unfold settle. mrun. rewrite Hk.
  cbn [resume]. unfold addShowStopper_rest, page_screenshot. mrun.
  destruct (screenshotFailure w) as [e|].
  - eexists [_; _]. cbn. rewrite <- app_assoc. reflexivity.
  - eexists [_]. reflexivity.
Qed.

(** Nothing pending: nothing settles. *)
Lemma settle_nothing (n : nat) (w : World) :
  pending w = [] -> times n (settle' 0) w = (Normal tt, w).
Proof.
  intros Hp. induction n as [|n IH]; [reflexivity|].
  cbn [times]. unfold bind at 1. unfold settle at 1. mrun. rewrite Hp. exact IH.
Qed.

(** The picture that the settled attempt attaches is the one
    [addShowStopper] attaches when nothing happens in between. *)
Lemma attachedScreenshot_settled (label : string) (w : World) :
  captureScreenshots options = true ->
  attachedScreenshot options path_join label w =
    match screenshotFailure w with
    | None =>
        if JS.truthy (path_join (screenshotDir options)
                                (errorFileName label (now w)))
        then Some (path_join (screenshotDir options)
                             (errorFileName label (now w)))
        else None
    | Some _ => None
    end.
Proof.
  intros Hcap. unfold attachedScreenshot, captureErrorScreenshot, page_screenshot.
  rewrite Hcap. mrun. destruct (screenshotFailure w); reflexivity.
Qed.

(** The body reads of [m] runs settle, one after the other, in a Running
    session. *)
Lemma settle_bodies (status : Z) (url method : string) (body : option string)
    (m : nat) :
  let label := method +:+ " - " +:+ url in
  let stopper := serverErrorStopper status url method body None in
  forall (w : World) (rest : list Task),
    isMonitoring (this w) = true ->
    pending w = repeat (AwaitsBody status url method body) m ++ rest ->
    exists w',
      times m (settle' 0) w = (Normal tt, w') /\
      now w' = now w /\ screenshotFailure w' = screenshotFailure w /\
      failures (this w') = failures (this w) /\
      timings (this w') = timings (this w) /\
      requestDurations (this w') = requestDurations (this w) /\
      detailedRequestDurations (this w') = detailedRequestDurations (this w) /\
      if captureScreenshots options then
        showStoppers (this w') = showStoppers (this w) /\
        pending w' =
          rest ++
          repeat (AwaitsScreenshot label (ss_criticalError stopper)
                    (path_join (screenshotDir options)
                               (errorFileName label (now w)))) m
      else
        showStoppers (this w') = showStoppers (this w) ++ repeat stopper m /\
        pending w' = rest.
Proof.
  intros label stopper. induction m as [|m IH]; intros w rest Hrun Hp.
  - exists w. split; [reflexivity|]. cbn [repeat] in *.
    rewrite !app_nil_r.
    destruct (captureScreenshots options); repeat split; auto.
  - cbn [times]. unfold bind at 1.
    assert (Hk : pending w !! 0%nat = Some (AwaitsBody status url method body))
      by (rewrite Hp; reflexivity).
    rewrite (settle_body status url method body 0 w Hk), Hrun.
    fold label stopper. rewrite Hp. cbn [repeat app].
    change (delete 0%nat (AwaitsBody status url method body ::
                          repeat (AwaitsBody status url method body) m ++ rest))
      with (repeat (AwaitsBody status url method body) m ++ rest).
    destruct (captureScreenshots options) eqn:Hcap.
    + match goal with
      | |- context [times m _ ?w1] =>
          destruct (IH w1 (rest ++
                      [AwaitsScreenshot label (ss_criticalError stopper)
                         (path_join (screenshotDir options)
                                    (errorFileName label (now w)))]))
            as (w' & -> & Hnow & Hshot & Hf & Ht & Hd & Hdd & Hss & Hpend);
            [exact Hrun|cbn; rewrite <- app_assoc; reflexivity|]
      end.
      exists w'. split; [reflexivity|]. cbn in Hnow, Hshot, Hf, Ht, Hd, Hdd, Hss.
      repeat split; auto.
      rewrite Hpend. cbn [now set_pending]. rewrite <- app_assoc. reflexivity.
    + match goal with
      | |- context [times m _ ?w1] =>
          destruct (IH w1 rest)
            as (w' & -> & Hnow & Hshot & Hf & Ht & Hd & Hdd & Hss & Hpend);
            [exact Hrun|reflexivity|]
      end.
      exists w'. split; [reflexivity|]. cbn in Hnow, Hshot, Hf, Ht, Hd, Hdd, Hss.
      repeat split; auto.
      rewrite Hss. rewrite <- app_assoc. reflexivity.
Qed.

(** The screenshot attempts of [m] runs settle, one after the other. *)
Lemma settle_screenshots (label criticalError path : string) (m : nat) :
  forall (w : World) (rest : list Task),
    pending w = repeat (AwaitsScreenshot label criticalError path) m ++ rest ->
    exists w',
      times m (settle' 0) w = (Normal tt, w') /\
      showStoppers (this w') =
        showStoppers (this w) ++
        repeat {| ss_label := label; ss_criticalError := criticalError;
                  ss_screenshot :=
                    match screenshotFailure w with
                    | None => if JS.truthy path then Some path else None
                    | Some _ => None
                    end |} m /\
      pending w' = rest /\
      failures (this w') = failures (this w) /\
      timings (this w') = timings (this w) /\
      requestDurations (this w') = requestDurations (this w) /\
      detailedRequestDurations (this w') = detailedRequestDurations (this w).
Proof.
  induction m as [|m IH]; intros w rest Hp.
  - exists w. split; [reflexivity|]. cbn [repeat] in *. rewrite app_nil_r.
    repeat split; auto.
  - cbn [times]. unfold bind at 1.
    assert (Hk : pending w !! 0%nat =
                 Some (AwaitsScreenshot label criticalError path))
      by (rewrite Hp; reflexivity).
    destruct (settle_screenshot label criticalError path 0 w Hk) as (lg & ->).
    rewrite Hp. cbn [repeat app].
    change (delete 0%nat (AwaitsScreenshot label criticalError path ::
                          repeat (AwaitsScreenshot label criticalError path) m ++ rest))
      with (repeat (AwaitsScreenshot label criticalError path) m ++ rest).
    match goal with
    | |- context [times m _ ?w1] =>
        destruct (IH w1 rest) as (w' & -> & Hss & Hpend & Hf & Ht & Hd & Hdd);
          [reflexivity|]
    end.
    exists w'. split; [reflexivity|]. cbn in Hss, Hf, Ht, Hd, Hdd.
    repeat split; auto.
    rewrite Hss. rewrite <- app_assoc. reflexivity.
Qed.

(** A response with a server error whose awaits settle with nothing in
    between, in a Running session: one showstopper for each listener set. *)
Lemma response_settled_at_once (status : Z) (url method : string)
    (body : option string) (w : World) :
  isMonitoring (this w) = true ->
  (500 <=? status) && (status <? 600) = true ->
  pending w = [] ->
  let stopper :=
    serverErrorStopper status url method body
      (attachedScreenshot options path_join (method +:+ " - " +:+ url) w) in
  exists w',
    (emit' (ResponseReceived status url method body) ;;
     times (2 * subscriptions w) (settle' 0)) w = (Normal tt, w') /\
    showStoppers (this w') = showStoppers (this w) ++ repeat stopper (subscriptions w) /\
    pending w' = [] /\
    failures (this w') = failures (this w) /\
    timings (this w') = timings (this w) /\
    requestDurations (this w') = requestDurations (this w) /\
    detailedRequestDurations (this w') = detailedRequestDurations (this w) /\
    collections (this w') =
      collections
        (this (snd (times (subscriptions w) (onResponse' status url method body) w))).
Proof.
  intros Hrun Hrange Hp stopper.
  set (n := subscriptions w).
  assert (Hgoal : forall w',
            showStoppers (this w') = showStoppers (this w) ++ repeat stopper n ->
            pending w' = [] ->
            failures (this w') = failures (this w) ->
            timings (this w') = timings (this w) ->
            requestDurations (this w') = requestDurations (this w) ->
            detailedRequestDurations (this w') = detailedRequestDurations (this w) ->
            showStoppers (this w') = showStoppers (this w) ++ repeat stopper n /\
            pending w' = [] /\
            failures (this w') = failures (this w) /\
            timings (this w') = timings (this w) /\
            requestDurations (this w') = requestDurations (this w) /\
            detailedRequestDurations (this w') = detailedRequestDurations (this w) /\
            collections (this w') =
              collections
                (this (snd (times n (onResponse' status url method body) w)))).
  { intros w' Hss Hpend Hf Ht Hd Hdd. repeat (split; [assumption|]).
    destruct (onResponse_times status url method body n w Hrun Hrange)
      as (wa & -> & Hssa & _ & _ & _ & Hfa & Hta & Hda & Hdda).
    cbn [snd]. unfold collections. fold stopper in Hssa. congruence. }
  unfold bind at 1. rewrite emit_response, Hrange, Hp. cbn [app]. fold n.
  replace (2 * n)%nat with (n + n)%nat by lia.
  set (w1 := set_pending (repeat (AwaitsBody status url method body) n) w).
  rewrite times_add. unfold bind at 1.
  destruct (settle_bodies status url method body n w1 [])
    as (w2 & -> & Hnow & Hshot & Hf & Ht & Hd & Hdd & Hrest);
    [exact Hrun|cbn; rewrite app_nil_r; reflexivity|].
  cbn in Hnow, Hshot, Hf, Ht, Hd, Hdd, Hrest.
  destruct (captureScreenshots options) eqn:Hcap.
  - destruct Hrest as [Hss Hpend]. cbn [app] in Hpend.
    match type of Hpend with
    | _ = repeat (AwaitsScreenshot ?l ?c ?path) _ =>
        destruct (settle_screenshots l c path n w2 [])
          as (w3 & -> & Hss3 & Hp3 & Hf3 & Ht3 & Hd3 & Hdd3);
          [rewrite Hpend, app_nil_r; reflexivity|]
    end.
    exists w3. split; [reflexivity|]. apply Hgoal; try congruence.
    rewrite Hss3, Hss, Hshot. f_equal. f_equal.
    unfold stopper, serverErrorStopper.
    rewrite (attachedScreenshot_settled _ w Hcap). reflexivity.
  - destruct Hrest as [Hss Hpend].
    rewrite (settle_nothing n w2 Hpend).
    exists w2. split; [reflexivity|]. apply Hgoal; try assumption.
    rewrite Hss. f_equal. f_equal.
    unfold stopper, attachedScreenshot. rewrite Hcap. reflexivity.
Qed.

(** C7 (amended).  A response event with a status in [[500,600)] leaves one
    run of the response listener pending, awaiting the body, for each
    listener set subscribed on the page, and changes nothing else; any
    other status changes nothing.  When the body read of a run has settled,
    the run calls [addShowStopper], which checks [isMonitoring] at that
    moment: outside a Running session it logs one warning and records
    nothing; in a Running session with screenshots disabled it appends at
    once the showstopper labelled [METHOD - URL] whose [criticalError] is
    [Status: <code> - Body: <first 100 characters>...], with the placeholder
    [[body unreadable]] for a body that could not be read; with screenshots
    enabled the run awaits the screenshot attempt, and once that has settled
    it appends the showstopper, with the path of the picture if the attempt
    succeeded, whatever the session has become meanwhile.  So an event whose
    awaits settle with nothing in between, in a Running session, appends
    that showstopper once for each listener set, and changes no other
    collection: it leaves the collections that as many runs of the listener
    in one go, [onResponse], leave.  An instance started once has one
    listener set, whatever is called on it afterwards short of another
    [start]. *)
Theorem onResponse_server_error :
  (forall (status : Z) (url method : string) (body : option string) (w : World),
     emit' (ResponseReceived status url method body) w =
       (Normal tt,
        set_pending
          (pending w ++
           (if (500 <=? status) && (status <? 600)
            then repeat (AwaitsBody status url method body) (subscriptions w)
            else [])) w)) /\
  (forall (status : Z) (url method : string) (body : option string)
          (k : nat) (w : World),
     pending w !! k = Some (AwaitsBody status url method body) ->
     let label := method +:+ " - " +:+ url in
     let stopper := serverErrorStopper status url method body None in
     let w0 := set_pending (delete k (pending w)) w in
     settle' k w =
       (Normal tt,
        if isMonitoring (this w) then
          if captureScreenshots options then
            set_pending
              (pending w0 ++
               [AwaitsScreenshot label (ss_criticalError stopper)
                  (path_join (screenshotDir options)
                             (errorFileName label (now w)))]) w0
          else
            set_logged
              (logged w ++
               [("Showstopper added: " +:+ label +:+ " - " +:+
                 ss_criticalError stopper, ERROR)])
              (set_this (push_showStopper stopper (this w)) w0)
        else warned w0)) /\
  (forall (label criticalError path : string) (k : nat) (w : World),
     pending w !! k = Some (AwaitsScreenshot label criticalError path) ->
     exists lg,
       settle' k w =
         (Normal tt,
          set_logged (logged w ++ lg)
            (set_this
               (push_showStopper
                  {| ss_label := label; ss_criticalError := criticalError;
                     ss_screenshot :=
                       match screenshotFailure w with
                       | None => if JS.truthy path then Some path else None
                       | Some _ => None
                       end |}
                  (this w))
               (set_pending (delete k (pending w)) w)))) /\
  (forall (status : Z) (url method : string) (body : option string) (w : World),
     isMonitoring (this w) = true ->
     (500 <=? status) && (status <? 600) = true ->
     pending w = [] ->
     let stopper :=
       serverErrorStopper status url method body
         (attachedScreenshot options path_join (method +:+ " - " +:+ url) w) in
     exists w',
       (emit' (ResponseReceived status url method body) ;;
        times (2 * subscriptions w) (settle' 0)) w = (Normal tt, w') /\
       showStoppers (this w') =
         showStoppers (this w) ++ repeat stopper (subscriptions w) /\
       pending w' = [] /\
       failures (this w') = failures (this w) /\
       timings (this w') = timings (this w) /\
       requestDurations (this w') = requestDurations (this w) /\
       detailedRequestDurations (this w') = detailedRequestDurations (this w) /\
       collections (this w') =
         collections
           (this (snd (times (subscriptions w)
                             (onResponse' status url method body) w)))) /\
  (forall (s : Script) (t0 : Z) (fs : gmap string File),
     noStart s = true ->
     subscriptions (snd (run' s (snd (start (newWorld t0 fs))))) = 1%nat).
Proof.
  split; [exact emit_response|].
  split; [exact settle_body|].
  split; [exact settle_screenshot|].
  split; [exact response_settled_at_once|].
  intros s t0 fs Hno. rewrite (run_no_start s Hno). reflexivity.
Qed.

(** C5.  In a Running session, for every action that returns or rejects,
    [measureAction] appends exactly one timing to those the action left: on
    success, with the elapsed time [D] between the two clock readings,
    [{duration D, slow = (D > slowThreshold), failed false}]; on rejection
    [{duration 0, slow false, failed true}]; either way the timing satisfies
    [slow = (duration > slowThreshold && !failed)].  The rejection is one
    with a string form; on one without, [measureAction] appends no timing.
    And in every world that a script of calls and page events reaches from a
    new instance, every recorded timing satisfies it. *)
Theorem measureAction_timing :
  (forall (action : M unit) (label : string) (w w1 : World) (c : Completion unit),
     isMonitoring (this w) = true ->
     action w = (c, w1) ->
     (forall code, c <> Exit code) ->
     (forall e, c = Throw e -> hasText e = true) ->
     exists t,
       timings (this (snd (measureAction' action label w))) =
         timings (this w1) ++ [t] /\
       at_label t = label /\
       (c = Normal tt ->
          at_duration t = now w1 - now w /\ at_failed t = false /\
          at_slow t = (now w1 - now w >? slowThreshold options)) /\
       (forall e, c = Throw e ->
          at_duration t = 0 /\ at_failed t = true /\ at_slow t = false) /\
       timingConsistent (slowThreshold options) t = true) /\
  (forall (action : M unit) (label : string) (w w1 : World) (e : Raised),
     isMonitoring (this w) = true ->
     action w = (Throw e, w1) ->
     hasText e = false ->
     timings (this (snd (measureAction' action label w))) = timings (this w1)) /\
  (forall (s : Script) (t0 : Z) (fs : gmap string File) (t : ActionTiming),
     t ∈ timings (this (snd (run' s (newWorld t0 fs)))) ->
     at_slow t = ((at_duration t >? slowThreshold options) && negb (at_failed t))).
Proof.
  split; [|split].
  - intros action label w w1 c Hrun Hact Hexit Htext.
    destruct (measureAction_appends_timing action label w w1 c Hrun Hact Hexit Htext)
      as (t & H1 & H2 & H3 & H4 & H5 & _).
    exists t. auto.
  - intros action label w w1 e Hrun Hact Htext.
    destruct (cleaningError e) as [cleaning|] eqn:He;
      [|destruct e; discriminate].
    rewrite (measureAction_textless action label w w1 e cleaning Hrun Hact He).
    reflexivity.
  - intros s t0 fs t Hin.
    destruct (reachable_sound s t0 fs) as (Hall & _).
    rewrite forallb_forall in Hall.
    apply list_elem_of_In in Hin. specialize (Hall t Hin).
    unfold timingConsistent in Hall. apply eqb_prop in Hall. exact Hall.
Qed.

(** C8 (amended).  In every world, whatever the lifecycle state,
    [getResults] returns normally with the report read off the instance at
    the current instant and leaves the world as it is.  Before the first
    [start], on a new instance and in every world a script reaches without
    starting, the report is empty: passed, no showstoppers, steps, slow
    requests or failures, and no averages.  Reports of the same instance at
    two instants agree on every field but [timestamp], which is the rendering
    of the instant of the call; so they are equal when that rendering is. *)
Theorem getResults_pure :
  (forall w,
     getResults' w =
       (Normal {| tr_reportData := [reportOf' (this w) (now w)] |}, w)) /\
  (forall (s : Script) (t0 : Z) (fs : gmap string File),
     let w := snd (run' s (newWorld t0 fs)) in
     subscriptions w = O ->
     reportOf' (this w) (now w) =
       {| timestamp := toLocaleString (now w); passed := true;
          r_showStoppers := []; r_slowThreshold := slowThreshold options;
          pageLoadSteps := []; avgLoadTime := None; avgRequestTime := None;
          slowRequests := []; r_failures := [];
          r_testName := testName (this w) |}) /\
  (forall i t1 t2,
     untimed (reportOf' i t1) = untimed (reportOf' i t2) /\
     timestamp (reportOf' i t1) = toLocaleString t1 /\
     (toLocaleString t1 = toLocaleString t2 -> reportOf' i t1 = reportOf' i t2)).
Proof.
  split; [reflexivity|]. split.
  - intros s t0 fs w Hsub.
    destruct (reachable_sound s t0 fs) as (_ & Hnew & _).
    destruct (Hnew Hsub) as [_ Hempty]. fold w in Hempty.
    unfold collections in Hempty.
    injection Hempty as Hf Hs Ht Hd Hdd.
    unfold reportOf. rewrite Hf, Hs, Ht, Hd, Hdd. reflexivity.
  - intros i t1 t2. split; [reflexivity|]. split; [reflexivity|].
    intros Heq. unfold reportOf. rewrite Heq. reflexivity.
Qed.

(** *** The start of a session *)

(** X1.  [start] on a Running session logs one warning and changes nothing
    else.  On a session that is not Running it returns normally with every
    collection empty, whatever the session before recorded; it keeps the test
    name, turns [isMonitoring] on and subscribes one more listener set.  So
    the report read right after a [start] that took effect is the empty,
    passed report, and a second [start] right after the first only warns. *)
Theorem start_opens_empty_session (w : World) :
  (if isMonitoring (this w) then
     start w =
       (Normal tt,
        set_logged (logged w ++ [("Monitoring already started", WARN)]) w)
   else
     start w =
       (Normal tt,
        {| this :=
             {| failures := []; showStoppers := []; requestStartTimes := ∅;
                requestDurations := []; detailedRequestDurations := [];
                timings := []; isMonitoring := true;
                testName := testName (this w); reportData := [] |};
           now := now w; files := files w;
           logged := logged w ++
             [("Started monitoring Playwright actions for " +:+
               showTestName (this w), INFO)];
           subscriptions := S (subscriptions w);
           screenshotFailure := screenshotFailure w;
           pending := pending w |})) /\
  (forall t,
     reportOf' (this (snd (start w))) t =
       if isMonitoring (this w) then reportOf' (this w) t
       else emptyReport (slowThreshold options) (toLocaleString t)
                        (testName (this w))) /\
  start (snd (start w)) =
    (Normal tt,
     set_logged (logged (snd (start w)) ++ [("Monitoring already started", WARN)])
       (snd (start w))).
Proof.
  unfold start, setupSniffingListeners. mrun.
  destruct (isMonitoring (this w)) eqn:Hrun; cbn.
  - rewrite Hrun. repeat split.
  - repeat split.
Qed.

(** *** Stored reports *)

(** The file [saveReport] finds holds reports of this run of the test
    runner: they are kept. *)
Lemma saveReport_kept (arg : option string) (w : World) (f : File)
    (d : StoredReports) :
  files w !! orElse arg (outputFile options) = Some f ->
  parseFile JSON_parse f = ParsedReports d ->
  stale currentPpid d = false ->
  saveReport' arg w =
    (Normal (orElse arg (outputFile options)),
     set_logged
       (logged w ++
        [("Report updated at " +:+ orElse arg (outputFile options), INFO)])
       (set_files
          (<[orElse arg (outputFile options) :=
               JsonReports
                 {| stored_reportData :=
                      stored_reportData d ++ [reportOf' (this w) (now w)];
                    testRunnerPid := Some currentPpid |}]> (files w)) w)).
Proof.
  intros Hf Hp Hstale. unfold saveReport, getResults. mrun.
  rewrite Hf. cbn. rewrite Hp. unfold stale in Hstale.
  destruct (testRunnerPid d) as [pid|]; [rewrite Hstale|];
    destruct w; reflexivity.
Qed.

(** X2.  When the file at the report path parses to stored reports whose
    [testRunnerPid] is missing, empty or the current one, [saveReport]
    returns the path, and the file then holds the reports it held followed by
    the report of the session, under the current [testRunnerPid]; the logger
    receives [Report updated at <path>] and nothing else changes. *)
Theorem saveReport_accumulates (arg : option string) (w : World) (f : File)
    (d : StoredReports) :
  let filePath := orElse arg (outputFile options) in
  files w !! filePath = Some f ->
  parseFile JSON_parse f = ParsedReports d ->
  stale currentPpid d = false ->
  saveReport' arg w =
    (Normal filePath,
     set_logged (logged w ++ [("Report updated at " +:+ filePath, INFO)])
       (set_files
          (<[filePath :=
               JsonReports
                 {| stored_reportData :=
                      stored_reportData d ++ [reportOf' (this w) (now w)];
                    testRunnerPid := Some currentPpid |}]> (files w)) w)).
Proof. apply saveReport_kept. Qed.

(** X3.  [saveReport] never throws, and it starts the file over, with the
    report of the session as its only entry, in four cases: there is no file
    at the path (logged as created); the stored reports carry the
    [testRunnerPid] of another run (logged as created); the file parses to a
    value without a [reportData] array (logged as updated); the file does
    not parse, or parses to [null] (one error received by the logger, then
    logged as updated). *)
Theorem saveReport_starts_over (arg : option string) (w : World) :
  let filePath := orElse arg (outputFile options) in
  let saved lg :=
    (Normal filePath,
     set_logged (logged w ++ lg)
       (set_files
          (<[filePath :=
               JsonReports
                 {| stored_reportData := [reportOf' (this w) (now w)];
                    testRunnerPid := Some currentPpid |}]> (files w)) w)) in
  (files w !! filePath = None ->
   saveReport' arg w = saved [("Report created at " +:+ filePath, INFO)]) /\
  (forall f d,
     files w !! filePath = Some f ->
     parseFile JSON_parse f = ParsedReports d ->
     stale currentPpid d = true ->
     saveReport' arg w = saved [("Report created at " +:+ filePath, INFO)]) /\
  (forall f e,
     files w !! filePath = Some f ->
     parseFile JSON_parse f = ParsedOther e ->
     saveReport' arg w = saved [("Report updated at " +:+ filePath, INFO)]) /\
  (forall f e,
     files w !! filePath = Some f ->
     parseFile JSON_parse f = ParseThrows e \/ parseFile JSON_parse f = ParsedNull e ->
     saveReport' arg w =
       saved [("Error reading existing report: " +:+ thrownToString e, ERROR);
              ("Report updated at " +:+ filePath, INFO)]).
Proof.
  intros filePath saved. subst saved. unfold saveReport, getResults.
  fold filePath. mrun.
  split; [|split; [|split]].
  - intros Hf. rewrite Hf. destruct w; reflexivity.
  - intros f d Hf Hp Hstale. rewrite Hf. cbn. rewrite Hp.
    unfold stale in Hstale.
    destruct (testRunnerPid d) as [pid|]; [rewrite Hstale|discriminate].
    destruct w; reflexivity.
  - intros f e Hf Hp. rewrite Hf. cbn. rewrite Hp. destruct w; reflexivity.
  - intros f e Hf [Hp|Hp]; rewrite Hf; cbn; rewrite Hp;
      destruct w; cbn; rewrite <- app_assoc; reflexivity.
Qed.

(** X4.  [saveReport] is not idempotent: of two calls in a row the second
    finds the reports the first stored, under the current [testRunnerPid],
    and appends the same report once more. *)
Theorem saveReport_twice (arg : option string) (w : World) :
  let filePath := orElse arg (outputFile options) in
  let report := reportOf' (this w) (now w) in
  exists previous,
    files (snd (saveReport' arg w)) !! filePath =
      Some (JsonReports {| stored_reportData := previous ++ [report];
                           testRunnerPid := Some currentPpid |}) /\
    files (snd (saveReport' arg (snd (saveReport' arg w)))) !! filePath =
      Some (JsonReports {| stored_reportData := previous ++ [report; report];
                           testRunnerPid := Some currentPpid |}).
Proof.
  intros filePath report.
  destruct (saveReport_spec arg w) as (previous & lg & Hsave).
  fold filePath report in Hsave. exists previous. rewrite Hsave. cbn [snd].
  split; [cbn; apply lookup_insert_eq|].
  erewrite saveReport_kept;
    [|cbn; apply lookup_insert_eq|reflexivity
     |unfold stale; cbn; rewrite String.eqb_refl; apply andb_false_r].
  cbn. fold filePath. rewrite lookup_insert_eq, <- app_assoc. reflexivity.
Qed.

(** *** The HTML page *)

(** [generateHTMLReport] by the content of the JSON report file. *)
Lemma generateHTMLReport_cases (arg : option string) (w : World) :
  let filePath := orElse arg (outputHTML options) in
  match files w !! outputFile options with
  | None =>
      exists lg, generateHTMLReport' arg w = (Exit 1, set_logged (logged w ++ lg) w)
  | Some f =>
      match parseFile JSON_parse f with
      | ParseThrows e =>
          exists lg,
            generateHTMLReport' arg w = (Exit 1, set_logged (logged w ++ lg) w)
      | ParsedNull e | ParsedOther e => generateHTMLReport' arg w = (Throw e, w)
      | ParsedReports d =>
          match stored_reportData d with
          | [] => exists e, generateHTMLReport' arg w = (Throw e, w)
          | _ =>
              exists lg,
                generateHTMLReport' arg w =
                  (Normal tt,
                   set_logged (logged w ++ lg)
                     (set_files
                        (<[filePath := Text (renderHTML (now w) d)]> (files w)) w))
          end
      end
  end.
Proof.
  intros filePath. unfold generateHTMLReport, generateReportHTML.
  fold filePath. mrun.
  destruct (files w !! outputFile options) as [f|]; cbn.
  - destruct (parseFile JSON_parse f) as [d|e|e|e]; cbn;
      [|reflexivity|reflexivity|eexists; reflexivity].
    destruct (stored_reportData d); cbn; eexists;
      [reflexivity|destruct w; reflexivity].
  - eexists. reflexivity.
Qed.

(** X5.  [generateHTMLReport] always reads the JSON report at
    [options.outputFile]; its argument only names the page to write.  It
    ends the process, with exit code 1, exactly when that file is missing or
    does not parse; it returns normally exactly when the file parses to
    stored reports that are not empty, and then the page rendered from them
    is written at the page path; whenever it does not return normally, no
    file is written and the instance is unchanged. *)
Theorem generateHTMLReport_outcome (arg : option string) (w : World) :
  let filePath := orElse arg (outputHTML options) in
  let source := files w !! outputFile options in
  let result := generateHTMLReport' arg w in
  ((exists code, fst result = Exit code) <->
   source = None \/
   exists f e, source = Some f /\ parseFile JSON_parse f = ParseThrows e) /\
  (forall code, fst result = Exit code -> code = 1) /\
  (fst result <> Normal tt ->
   files (snd result) = files w /\ this (snd result) = this w) /\
  (fst result = Normal tt <->
   exists f d, source = Some f /\ parseFile JSON_parse f = ParsedReports d /\
               stored_reportData d <> []) /\
  (forall f d,
     source = Some f -> parseFile JSON_parse f = ParsedReports d ->
     stored_reportData d <> [] ->
     files (snd result) = <[filePath := Text (renderHTML (now w) d)]> (files w)).
Proof.
  intros filePath source result.
  pose proof (generateHTMLReport_cases arg w) as H. cbn zeta in H.
  fold filePath source result in H.
  destruct source as [f|] eqn:Hsrc.
  - destruct (parseFile JSON_parse f) as [d|e|e|e] eqn:Hp.
    + destruct (stored_reportData d) as [|r l] eqn:Hd.
      * destruct H as (e & ->). cbn.
        split; [split; [intros [c Hc]; discriminate|]|].
        { intros [Hn|(f0 & e0 & Hf0 & Hp0)]; [discriminate|].
          injection Hf0 as <-. congruence. }
        split; [discriminate|]. split; [auto|].
        split; [split; [discriminate|]|].
        { intros (f0 & d0 & Hf0 & Hp0 & Hne). injection Hf0 as <-.
          rewrite Hp in Hp0. injection Hp0 as <-. congruence. }
        intros f0 d0 Hf0 Hp0 Hne. injection Hf0 as <-.
        rewrite Hp in Hp0. injection Hp0 as <-. congruence.
      * destruct H as (lg & ->). cbn.
        split; [split; [intros [c Hc]; discriminate|]|].
        { intros [Hn|(f0 & e0 & Hf0 & Hp0)]; [discriminate|].
          injection Hf0 as <-. congruence. }
        split; [discriminate|]. split; [congruence|].
        split; [split; [|reflexivity]|].
        { intros _. exists f, d. rewrite Hd. repeat split; congruence. }
        intros f0 d0 Hf0 Hp0 Hne. injection Hf0 as <-.
        rewrite Hp in Hp0. injection Hp0 as <-. reflexivity.
    + rewrite H. cbn.
      split; [split; [intros [c Hc]; discriminate|]|].
      { intros [Hn|(f0 & e0 & Hf0 & Hp0)]; [discriminate|].
        injection Hf0 as <-. congruence. }
      split; [discriminate|]. split; [auto|].
      split; [split; [discriminate|]|].
      { intros (f0 & d0 & Hf0 & Hp0 & Hne). injection Hf0 as <-. congruence. }
      intros f0 d0 Hf0 Hp0 Hne. injection Hf0 as <-. congruence.
    + rewrite H. cbn.
      split; [split; [intros [c Hc]; discriminate|]|].
      { intros [Hn|(f0 & e0 & Hf0 & Hp0)]; [discriminate|].
        injection Hf0 as <-. congruence. }
      split; [discriminate|]. split; [auto|].
      split; [split; [discriminate|]|].
      { intros (f0 & d0 & Hf0 & Hp0 & Hne). injection Hf0 as <-. congruence. }
      intros f0 d0 Hf0 Hp0 Hne. injection Hf0 as <-. congruence.
    + destruct H as (lg & ->). cbn.
      split; [split; [intros _; right; exists f, e; auto|eauto]|].
      split; [intros c Hc; injection Hc as <-; reflexivity|]. split; [auto|].
      split; [split; [discriminate|]|].
      { intros (f0 & d0 & Hf0 & Hp0 & Hne). injection Hf0 as <-. congruence. }
      intros f0 d0 Hf0 Hp0 Hne. injection Hf0 as <-. congruence.
  - destruct H as (lg & ->). cbn.
    split; [split; [intros _; left; reflexivity|eauto]|].
    split; [intros c Hc; injection Hc as <-; reflexivity|]. split; [auto|].
    split; [split; [discriminate|]|].
    { intros (f0 & d0 & Hf0 & _). discriminate. }
    intros f0 d0 Hf0. discriminate.
Qed.

(** X6.  After [saveReport()] with the default path, [generateHTMLReport],
    with any argument, returns normally: the JSON file holds stored reports
    that end with the report just saved, and the page is rendered from
    exactly those.  After [saveReport(custom)] for another path, while there
    is no file at [options.outputFile], [generateHTMLReport] ends the
    process: it does not read the custom file. *)
Theorem saveReport_then_generateHTMLReport (arg : option string) (w : World) :
  (exists previous lg,
     let stored :=
       {| stored_reportData := previous ++ [reportOf' (this w) (now w)];
          testRunnerPid := Some currentPpid |} in
     let w1 := snd (saveReport' None w) in
     files w1 !! outputFile options = Some (JsonReports stored) /\
     generateHTMLReport' arg w1 =
       (Normal tt,
        set_logged (logged w1 ++ lg)
          (set_files
             (<[orElse arg (outputHTML options) :=
                  Text (renderHTML (now w) stored)]> (files w1)) w1))) /\
  (forall custom,
     JS.truthy custom = true -> custom <> outputFile options ->
     files w !! outputFile options = None ->
     fst (generateHTMLReport' arg (snd (saveReport' (Some custom) w))) = Exit 1).
Proof.
  split.
  - destruct (saveReport_spec None w) as (previous & lg1 & Hsave).
    cbn [orElse] in Hsave. rewrite Hsave. cbn [snd].
    set (stored := {| stored_reportData := previous ++ [reportOf' (this w) (now w)];
                      testRunnerPid := Some currentPpid |}) in *.
    match goal with
    | |- context [generateHTMLReport' arg ?w1] =>
        pose proof (generateHTMLReport_cases arg w1) as H
    end.
    cbn [files set_files set_logged] in H.
    rewrite lookup_insert_eq in H. cbn [parseFile] in H.
    assert (Hne : stored_reportData stored <> [])
      by (subst stored; cbn; destruct previous; discriminate).
    destruct (stored_reportData stored) as [|r l] eqn:Hd; [congruence|].
    destruct H as (lg & H). exists previous, lg.
    split; [cbn; apply lookup_insert_eq|exact H].
  - intros custom Htruthy Hother Hnone.
    destruct (saveReport_spec (Some custom) w) as (previous & lg1 & Hsave).
    cbn [orElse] in Hsave. rewrite Htruthy in Hsave. rewrite Hsave. cbn [snd].
    match goal with
    | |- context [generateHTMLReport' arg ?w1] =>
        pose proof (generateHTMLReport_cases arg w1) as H
    end.
    cbn [files set_files set_logged] in H.
    rewrite lookup_insert_ne, Hnone in H by exact Hother.
    destruct H as (lg & ->). reflexivity.
Qed.

(** *** Showstoppers and failures added by hand *)

(** X7.  In a Running session [addShowStopper] returns normally and appends
    exactly one showstopper with the label and the error given; it carries a
    screenshot path exactly when screenshots are enabled, the driver took the
    picture and the path is not empty.  No other collection changes and the
    session stays Running; from then on the report is not passed and [stop]
    throws. *)
Theorem addShowStopper_records (label criticalError : string) (w : World) :
  isMonitoring (this w) = true ->
  let path := path_join (screenshotDir options) (errorFileName label (now w)) in
  let shot :=
    if captureScreenshots options then
      match screenshotFailure w with
      | None => if JS.truthy path then Some path else None
      | Some _ => None
      end
    else None in
  exists w',
    addShowStopper' label criticalError w = (Normal tt, w') /\
    showStoppers (this w') =
      showStoppers (this w) ++
      [{| ss_label := label; ss_criticalError := criticalError;
          ss_screenshot := shot |}] /\
    failures (this w') = failures (this w) /\
    timings (this w') = timings (this w) /\
    requestDurations (this w') = requestDurations (this w) /\
    detailedRequestDurations (this w') = detailedRequestDurations (this w) /\
    isMonitoring (this w') = true /\
    files w' = files w /\
    (forall t, passed (reportOf' (this w') t) = false) /\
    fst (stop' w') = Throw (ErrorObject "Error" "Test failed due to showstoppers").
Proof.
  intros Hrun path shot.
  destruct (addShowStopper_running label criticalError w Hrun) as (lg & Hadd).
  assert (Hshot : attachedScreenshot options path_join label w = shot).
  { unfold attachedScreenshot, captureErrorScreenshot, page_screenshot. mrun.
    subst shot path. destruct (captureScreenshots options); [|reflexivity].
    destruct (screenshotFailure w); reflexivity. }
  rewrite Hshot in Hadd. eexists. split; [exact Hadd|].
  cbn [this files set_this set_logged push_showStopper showStoppers failures
       timings requestDurations detailedRequestDurations isMonitoring].
  repeat (split; [reflexivity|]).
  split; [exact Hrun|]. split; [reflexivity|]. split.
  - intros t. cbn. rewrite length_app. cbn. apply Nat.eqb_neq. lia.
  - match goal with
    | |- fst (stop' ?w1) = _ => pose proof (stop_spec w1) as Hstop
    end.
    cbn [this set_this set_logged isMonitoring push_showStopper] in Hstop.
    rewrite Hrun in Hstop. destruct Hstop as (previous & lg' & Hstop).
    cbn zeta in Hstop. rewrite Hstop. cbn.
    destruct (showStoppers (this w)); reflexivity.
Qed.

Lemma spread_further (metadata : list (string * string)) :
  namesNoField metadata = true ->
  forall f,
    fold_left spreadEntry metadata f =
      {| f_error := f_error f; f_type := f_type f;
         f_requestUrl := f_requestUrl f; f_requestStatus := f_requestStatus f;
         f_requestMethod := f_requestMethod f;
         f_metadata := f_metadata f ++ metadata |}.
Proof.
  induction metadata as [|[key value] metadata IH]; intros Hno f.
  - cbn. rewrite app_nil_r. destruct f; reflexivity.
  - cbn [namesNoField forallb] in Hno. apply andb_true_iff in Hno as [Hkey Hno].
    cbn [fold_left]. rewrite (IH Hno).
    apply negb_true_iff in Hkey. cbn [existsb failureKeys fst] in Hkey.
    repeat (apply orb_false_iff in Hkey as [? Hkey]).
    unfold spreadEntry. repeat match goal with H : String.eqb key _ = false |- _ =>
      rewrite H; clear H end.
    cbn. rewrite <- app_assoc. reflexivity.
Qed.

(** X8.  In a Running session [addFailure] returns normally and appends
    exactly one failure, the object [{ error, type, ...metadata }], for
    metadata of string values; the logger receives one warning.  When the
    metadata names none of the properties [error], [type], [requestUrl],
    [requestStatus] and [requestMethod], the failure has the error and the
    type given, no request property, and the metadata as its further
    properties; an [error] or a [type] that the metadata names last
    replaces the one given.  Nothing else changes: the showstoppers are the
    same, so the report is passed exactly when it was, and [stop] ends as it
    would have without the failure. *)
Theorem addFailure_records (error : string) (type : FailureType)
    (metadata : list (string * string)) (w : World) :
  isMonitoring (this w) = true ->
  let w' := snd (addFailure error type metadata w) in
  addFailure error type metadata w =
    (Normal tt,
     set_logged (logged w ++ [("Failure added: " +:+ error, WARN)])
       (set_this (push_failure (spread error type metadata) (this w)) w)) /\
  (namesNoField metadata = true ->
   spread error type metadata =
     {| f_error := Some error; f_type := type; f_requestUrl := None;
        f_requestStatus := None; f_requestMethod := None;
        f_metadata := metadata |}) /\
  (forall before value,
     metadata = before ++ [("error", value)] ->
     f_error (spread error type metadata) = Some value) /\
  (forall before value,
     metadata = before ++ [("type", value)] ->
     f_type (spread error type metadata) = typeOfText value) /\
  showStoppers (this w') = showStoppers (this w) /\
  (forall t, passed (reportOf' (this w') t) = passed (reportOf' (this w) t)) /\
  fst (stop' w') = fst (stop' w).
Proof.
  intros Hrun w'.
  assert (Heq : addFailure error type metadata w =
    (Normal tt,
     set_logged (logged w ++ [("Failure added: " +:+ error, WARN)])
       (set_this (push_failure (spread error type metadata) (this w)) w))).
  { unfold addFailure. mrun. rewrite Hrun. reflexivity. }
  split; [exact Heq|].
  split; [intros Hno; unfold spread; rewrite (spread_further metadata Hno); reflexivity|].
  split; [intros before value ->; unfold spread; rewrite fold_left_app; reflexivity|].
  split; [intros before value ->; unfold spread; rewrite fold_left_app; reflexivity|].
  subst w'. rewrite Heq. cbn [snd].
  split; [reflexivity|]. split; [reflexivity|].
  pose proof (stop_spec w) as Hstop. rewrite Hrun in Hstop.
  destruct Hstop as (previous & lg & ->).
  match goal with
  | |- fst (stop' ?w1) = _ => pose proof (stop_spec w1) as Hstop
  end.
  cbn [this set_this set_logged isMonitoring push_failure] in Hstop.
  rewrite Hrun in Hstop. destruct Hstop as (previous' & lg' & ->).
  reflexivity.
Qed.

(** *** The listeners that record failures and requests *)

(** X9.  The console listener records a failure for a message of type
    [error] and nothing for any other type.  The requestfailed listener
    always records one failure of type [request] with the URL and the method;
    its status is [null] when the request has no response or the status is
    0, and its error is [Unknown error] when the failure text is missing or
    empty.  Neither listener touches the showstoppers: the report is passed
    exactly when it was. *)
Theorem failure_listeners (w : World) :
  (forall type text,
     onConsole type text w =
       (Normal tt,
        if String.eqb type "error" then
          set_this
            (push_failure
               {| f_error := Some text; f_type := console; f_requestUrl := None;
                  f_requestStatus := None; f_requestMethod := None;
                  f_metadata := [] |} (this w)) w
        else w)) /\
  (forall status url failureText method,
     exists f,
       onRequestFailed status url failureText method w =
         (Normal tt, set_this (push_failure f (this w)) w) /\
       f_type f = request /\ f_requestUrl f = Some url /\
       f_requestMethod f = Some method /\ f_metadata f = [] /\
       (f_requestStatus f = Some StatusNull <->
        status = None \/ status = Some 0) /\
       (forall code, status = Some code -> code <> 0 ->
                     f_requestStatus f = Some (StatusCode code)) /\
       (failureText = None \/ failureText = Some EmptyString ->
        f_error f = Some "Unknown error") /\
       (forall text, failureText = Some text -> text <> EmptyString ->
                     f_error f = Some text)) /\
  (forall type text t,
     passed (reportOf' (this (snd (onConsole type text w))) t) =
       passed (reportOf' (this w) t)) /\
  (forall status url failureText method t,
     passed (reportOf' (this (snd (onRequestFailed status url failureText method w))) t) =
       passed (reportOf' (this w) t)).
Proof.
  split; [|split; [|split]].
  - intros type text. unfold onConsole. mrun.
    destruct (String.eqb type "error"); reflexivity.
  - intros status url failureText method. eexists. split; [reflexivity|].
    cbn. repeat (split; [reflexivity|]). split; [|split; [|split]].
    + destruct status as [c|]; [destruct (c =? 0) eqn:Hc|].
      * apply Z.eqb_eq in Hc. subst c. split; auto.
      * apply Z.eqb_neq in Hc. split; [discriminate|].
        intros [H|H]; [discriminate|]. injection H as ->. lia.
      * split; auto.
    + intros code -> Hnz. apply Z.eqb_neq in Hnz. rewrite Hnz. reflexivity.
    + intros [->| ->]; reflexivity.
    + intros text -> Hne. destruct text; [congruence|reflexivity].
  - intros type text t. unfold onConsole. mrun.
    destruct (String.eqb type "error"); reflexivity.
  - intros status url failureText method t. reflexivity.
Qed.


(** *** The averages of the report *)

Lemma calculateAverage_None (values : list JS.number) :
  calculateAverage exponentForm values = None <-> values = [].
Proof. unfold calculateAverage. destruct values; split; congruence. Qed.

(** X11.  [avgLoadTime] is the average over the timings that did not fail:
    it is [null] exactly when every recorded action failed (or none was
    recorded), and recording one more failed action leaves it as it was;
    [avgRequestTime] is [null] exactly when no request duration was
    recorded. *)
Theorem avgLoadTime_skips_failed (i : Instance) (t : Z) :
  (avgLoadTime (reportOf' i t) = None <->
   Forall (fun x => at_failed x = true) (timings i)) /\
  (forall x, at_failed x = true ->
     avgLoadTime (reportOf' (push_timing x i) t) = avgLoadTime (reportOf' i t)) /\
  (forall x, at_failed x = false ->
     avgLoadTime (reportOf' (push_timing x i) t) <> None) /\
  (avgRequestTime (reportOf' i t) = None <-> requestDurations i = []).
Proof.
  clear currentPpid path_join JSON_parse renderHTML.
  cbn [avgLoadTime avgRequestTime reportOf]. split; [|split; [|split]].
  - rewrite calculateAverage_None. split.
    + intros Hnil. apply map_eq_nil in Hnil.
      induction (timings i) as [|x l IH]; [constructor|].
      rewrite filter_cons in Hnil. case_decide as Hx; [discriminate|].
      constructor; [destruct (at_failed x); congruence|exact (IH Hnil)].
    + intros Hall. induction Hall as [|x l Hx Hall IH]; [reflexivity|].
      rewrite filter_cons. case_decide; [congruence|exact IH].
  - intros x Hx. cbn [timings push_timing].
    rewrite filter_app, filter_cons, filter_nil.
    case_decide; [congruence|]. rewrite app_nil_r. reflexivity.
  - intros x Hx. cbn [timings push_timing]. rewrite calculateAverage_None.
    rewrite filter_app, filter_cons, filter_nil.
    case_decide; [|congruence]. rewrite map_app. cbn.
    intros Hnil. apply app_eq_nil in Hnil as [_ Hnil]. discriminate.
  - rewrite calculateAverage_None. split; [apply map_eq_nil|intros ->; reflexivity].
Qed.

(** *** Actions that succeed *)

(** X21.  In a Running session, for every action that returns normally,
    [measureAction] returns normally and appends one timing with the elapsed
    time, not failed, slow exactly when the elapsed time is above the
    threshold; the logger receives one warning, with the label, the elapsed
    time and the threshold, exactly when the action was slow.  Nothing else
    changes: a slow action adds neither a showstopper nor a failure, so the
    report is passed exactly when it was, and [stop] ends as it would have
    without the measurement. *)
Theorem measureAction_success (action : M unit) (label : string) (w w1 : World) :
  isMonitoring (this w) = true ->
  action w = (Normal tt, w1) ->
  let duration := now w1 - now w in
  let slow := duration >? slowThreshold options in
  let w2 := snd (measureAction' action label w) in
  fst (measureAction' action label w) = Normal tt /\
  this w2 =
    push_timing {| at_label := label; at_duration := duration; at_slow := slow;
                   at_failed := false |} (this w1) /\
  logged w2 =
    logged w1 ++
    (if slow then
       [("Slow action detected: " +:+ label +:+ " took " +:+
         JS.string_of_Z duration +:+ "ms (threshold: " +:+
         JS.string_of_Z (slowThreshold options) +:+ "ms)", WARN)]
     else []) /\
  files w2 = files w1 /\ now w2 = now w1 /\
  subscriptions w2 = subscriptions w1 /\
  (forall t, passed (reportOf' (this w2) t) = passed (reportOf' (this w1) t)) /\
  (isMonitoring (this w1) = true -> fst (stop' w2) = fst (stop' w1)).
Proof.
  intros Hrun Hact duration slow w2.
  assert (Hw2 : measureAction' action label w =
    (Normal tt,
     if slow then
       set_logged
         (logged w1 ++
          [("Slow action detected: " +:+ label +:+ " took " +:+
            JS.string_of_Z duration +:+ "ms (threshold: " +:+
            JS.string_of_Z (slowThreshold options) +:+ "ms)", WARN)])
         (set_this
            (push_timing {| at_label := label; at_duration := duration;
                            at_slow := slow; at_failed := false |} (this w1)) w1)
     else
       set_this
         (push_timing {| at_label := label; at_duration := duration;
                         at_slow := slow; at_failed := false |} (this w1)) w1)).
  { unfold measureAction. mrun. rewrite Hrun. cbn [negb]. rewrite Hact. cbn.
    fold duration. fold slow. destruct slow; reflexivity. }
  subst w2. rewrite Hw2. cbn [fst snd].
  split; [reflexivity|].
  assert (Hthis : this (if slow then
       set_logged
         (logged w1 ++
          [("Slow action detected: " +:+ label +:+ " took " +:+
            JS.string_of_Z duration +:+ "ms (threshold: " +:+
            JS.string_of_Z (slowThreshold options) +:+ "ms)", WARN)])
         (set_this
            (push_timing {| at_label := label; at_duration := duration;
                            at_slow := slow; at_failed := false |} (this w1)) w1)
     else
       set_this
         (push_timing {| at_label := label; at_duration := duration;
                         at_slow := slow; at_failed := false |} (this w1)) w1) =
     push_timing {| at_label := label; at_duration := duration;
                    at_slow := slow; at_failed := false |} (this w1))
    by (destruct slow; reflexivity).
  split; [exact Hthis|].
  split; [destruct slow; cbn; [reflexivity|rewrite app_nil_r; reflexivity]|].
  split; [destruct slow; reflexivity|].
  split; [destruct slow; reflexivity|].
  split; [destruct slow; reflexivity|].
  split; [intros t; cbn; rewrite Hthis; reflexivity|].
  intros Hrun1.
  pose proof (stop_spec w1) as Hstop1. rewrite Hrun1 in Hstop1.
  destruct Hstop1 as (previous1 & lg1 & ->).
  match goal with
  | |- fst (stop' ?w0) = _ => pose proof (stop_spec w0) as Hstop2
  end.
  rewrite Hthis in Hstop2. cbn [isMonitoring push_timing] in Hstop2.
  rewrite Hrun1 in Hstop2. destruct Hstop2 as (previous2 & lg2 & ->).
  reflexivity.
Qed.

(** *** The writes of a script *)

Lemma performAll_app (es1 es2 : list Effect) (w : World) :
  performAll (es1 ++ es2) w = performAll es2 (performAll es1 w).
Proof. apply fold_left_app. Qed.

Lemma reaches_refl (P : Effect -> bool) (w : World) : reaches P w w.
Proof. exists []. split; reflexivity. Qed.

Lemma reaches_trans (P : Effect -> bool) (w1 w2 w3 : World) :
  reaches P w1 w2 -> reaches P w2 w3 -> reaches P w1 w3.
Proof.
  intros (es1 & -> & H1) (es2 & -> & H2). exists (es1 ++ es2).
  split; [symmetry; apply performAll_app|].
  rewrite forallb_app, H1, H2. reflexivity.
Qed.

Lemma reaches_mono (P Q : Effect -> bool) (w w' : World) :
  (forall e, P e = true -> Q e = true) -> reaches P w w' -> reaches Q w w'.
Proof.
  intros Himp (es & -> & H). exists es. split; [reflexivity|].
  rewrite forallb_forall in *. auto.
Qed.

Section Writes.

Variable P : Effect -> bool.
Hypothesis Hplain : forall e, plain e = true -> P e = true.

Lemma log_reaches (w : World) (lg : list (string * LogLevel)) :
  reaches P w (set_logged (logged w ++ lg) w).
Proof.
  exists [Logs lg]. split; [reflexivity|].
  cbn [forallb]. rewrite Hplain; reflexivity.
Qed.

Lemma update_reaches (e : Effect) (w : World) :
  plain e = true -> reaches P w (perform e w).
Proof.
  intros He. exists [e]. split; [reflexivity|].
  cbn [forallb]. rewrite Hplain; [reflexivity|exact He].
Qed.

Lemma write_reaches (w : World) (path : string) (content : File) :
  P (WritesFile path content) = true ->
  reaches P w (set_files (<[path := content]> (files w)) w).
Proof.
  intros H. exists [WritesFile path content]. split; [reflexivity|].
  cbn [forallb]. rewrite H. reflexivity.
Qed.

Lemma push_failure_reaches (w : World) (f : Failure) :
  reaches P w (set_this (push_failure f (this w)) w).
Proof. apply (update_reaches (PushesFailure f)). reflexivity. Qed.

Lemma push_showStopper_reaches (w : World) (s : ShowStopper) :
  reaches P w (set_this (push_showStopper s (this w)) w).
Proof. apply (update_reaches (PushesShowStopper s)). reflexivity. Qed.

Lemma push_timing_reaches (w : World) (t : ActionTiming) :
  reaches P w (set_this (push_timing t (this w)) w).
Proof. apply (update_reaches (PushesTiming t)). reflexivity. Qed.

Lemma set_requestStart_reaches (w : World) (url : string) (t : Z) :
  reaches P w (set_this (set_requestStart url t (this w)) w).
Proof. apply (update_reaches (NotesRequestStart url t)). reflexivity. Qed.

Lemma push_requestDuration_reaches (w : World) (r : RequestDetails) :
  reaches P w (set_this (push_requestDuration r (this w)) w).
Proof. apply (update_reaches (PushesRequest r)). reflexivity. Qed.

Lemma defer_reaches (w : World) (task : Task) :
  reaches P w (snd (defer task w)).
Proof. apply (update_reaches (Defers task)). reflexivity. Qed.

Lemma start_reaches (w : World) :
  P Resets = true -> P Subscribes = true -> reaches P w (snd (start w)).
Proof.
  intros HR HS. unfold start, setupSniffingListeners. mrun.
  destruct (isMonitoring (this w)); cbn [snd].
  - apply log_reaches.
  - exists [Resets;
            Logs [("Started monitoring Playwright actions for " +:+
                   showTestName (this w), INFO)];
            Subscribes].
    split; [reflexivity|]. cbn [forallb]. rewrite HR, HS, Hplain; reflexivity.
Qed.

Lemma saveReport_reaches (arg : option string) (w : World) :
  (forall path content, P (WritesFile path content) = true) ->
  reaches P w (snd (saveReport' arg w)).
Proof.
  intros HW. destruct (saveReport_spec arg w) as (previous & lg & ->). cbn [snd].
  eapply reaches_trans; [|eapply (log_reaches (set_files _ w))].
  apply write_reaches, HW.
Qed.

Lemma generateHTMLReport_reaches (arg : option string) (w : World) :
  (forall path content, P (WritesFile path content) = true) ->
  reaches P w (snd (generateHTMLReport' arg w)).
Proof.
  intros HW. pose proof (generateHTMLReport_cases arg w) as H. cbn zeta in H.
  destruct (files w !! outputFile options) as [f|].
  - destruct (parseFile JSON_parse f) as [d|e|e|e].
    + destruct (stored_reportData d).
      * destruct H as (e & ->). apply reaches_refl.
      * destruct H as (lg & ->). cbn [snd].
        eapply reaches_trans; [|eapply (log_reaches (set_files _ w))].
        apply write_reaches, HW.
    + rewrite H. apply reaches_refl.
    + rewrite H. apply reaches_refl.
    + destruct H as (lg & ->). apply log_reaches.
  - destruct H as (lg & ->). apply log_reaches.
Qed.

Lemma stop_reaches (w : World) :
  (forall path content, P (WritesFile path content) = true) ->
  P (SetsMonitoring false) = true -> reaches P w (snd (stop' w)).
Proof.
  intros HW Hoff. pose proof (stop_spec w) as Hstop.
  destruct (isMonitoring (this w)).
  - destruct Hstop as (previous & lg & ->). cbn [snd].
    exists [WritesFile (outputFile options)
              (JsonReports
                 {| stored_reportData := previous ++ [reportOf' (this w) (now w)];
                    testRunnerPid := Some currentPpid |});
            WritesFile (outputHTML options)
              (Text (renderHTML (now w)
                 {| stored_reportData := previous ++ [reportOf' (this w) (now w)];
                    testRunnerPid := Some currentPpid |}));
            Logs lg; SetsMonitoring false].
    split; [reflexivity|]. cbn [forallb].
    rewrite !HW, Hoff, Hplain; reflexivity.
  - rewrite Hstop. apply log_reaches.
Qed.

Lemma addFailure_reaches error type metadata (w : World) :
  reaches P w (snd (addFailure error type metadata w)).
Proof.
  unfold addFailure. mrun. destruct (isMonitoring (this w)); cbn [negb snd].
  - eapply reaches_trans; [|eapply (log_reaches (set_this _ w))]. apply push_failure_reaches.
  - apply log_reaches.
Qed.

Lemma addShowStopper_reaches label criticalError (w : World) :
  reaches P w (snd (addShowStopper' label criticalError w)).
Proof.
  destruct (isMonitoring (this w)) eqn:Hrun.
  - destruct (addShowStopper_running label criticalError w Hrun) as (lg & ->).
    cbn [snd].
    eapply reaches_trans; [|eapply (log_reaches (set_this _ w))]. apply push_showStopper_reaches.
  - unfold addShowStopper. mrun. rewrite Hrun. apply log_reaches.
Qed.

Lemma listener_reaches (ev : PageEvent) (w : World) :
  reaches P w (snd (listener' ev w)).
Proof.
  destruct ev as [type text|status url failureText method|url|url method
                  |status url method body]; cbn [listener].
  - unfold onConsole. mrun. destruct (String.eqb type "error");
      [apply push_failure_reaches|apply reaches_refl].
  - apply defer_reaches.
  - apply set_requestStart_reaches.
  - unfold onRequestFinished. mrun.
    destruct (requestStartTimes (this w) !! url) as [started|];
      [destruct (started =? 0)|]; try apply reaches_refl.
    apply push_requestDuration_reaches.
  - destruct ((500 <=? status) && (status <? 600));
      [apply defer_reaches|apply reaches_refl].
Qed.

Lemma resume_reaches (task : Task) (w : World) :
  reaches P w (snd (resume' task w)).
Proof.
  destruct task as [status url failureText method|status url method body
                    |label criticalError path]; cbn [resume].
  - apply push_failure_reaches.
  - unfold onResponse_body. mrun.
    destruct (isMonitoring (this w)); cbn [negb]; [|apply log_reaches].
    destruct (captureScreenshots options); [apply defer_reaches|]. cbn [snd].
    eapply reaches_trans; [|eapply (log_reaches (set_this _ w))].
    apply push_showStopper_reaches.
  - unfold addShowStopper_rest, page_screenshot. mrun.
    destruct (screenshotFailure w); cbn [snd].
    + eexists [Logs _; PushesShowStopper _; Logs _]. split; [reflexivity|].
      cbn [forallb]. rewrite !Hplain; reflexivity.
    + eexists [PushesShowStopper _; Logs _]. split; [reflexivity|].
      cbn [forallb]. rewrite !Hplain; reflexivity.
Qed.

Lemma settle_reaches (k : nat) (w : World) :
  reaches P w (snd (settle' k w)).
Proof.
  unfold settle. mrun.
  destruct (pending w !! k) as [task|]; [|apply reaches_refl].
  eapply reaches_trans; [|apply resume_reaches].
  apply (update_reaches (Resumes k)). reflexivity.
Qed.

Lemma emit_reaches (ev : PageEvent) (w : World) :
  reaches P w (snd (emit' ev w)).
Proof.
  unfold emit. mrun. generalize (subscriptions w) as n. intros n. revert w.
  induction n as [|n IH]; intros w; [apply reaches_refl|].
  cbn [times]. unfold bind at 1.
  pose proof (listener_reaches ev w) as Hone.
  destruct (listener_footprint ev w) as (w1 & Heq & _).
  rewrite Heq in *. cbn [snd] in Hone.
  eapply reaches_trans; [exact Hone|apply IH].
Qed.

Lemma measureAction_reaches (action : M unit) (label : string) :
  (forall w, reaches P w (snd (action w))) ->
  forall w, reaches P w (snd (measureAction' action label w)).
Proof.
  intros Hact w. destruct (isMonitoring (this w)) eqn:Hrun.
  - pose proof (Hact w) as H. unfold measureAction. mrun. rewrite Hrun. cbn [negb].
    destruct (action w) as [[[]|[e| |]|code] w1]; cbn [snd] in *;
      try exact H.
    + eapply reaches_trans; [exact H|].
      destruct (_ >? _); cbn [snd].
      * eapply reaches_trans; [|eapply (log_reaches (set_this _ w1))]. apply push_timing_reaches.
      * apply push_timing_reaches.
    + eapply reaches_trans; [exact H|].
      eapply reaches_trans; [apply push_timing_reaches|].
      eapply reaches_trans; [apply push_showStopper_reaches|].
      eapply reaches_trans; [apply log_reaches|].
      destruct (captureScreenshots options); [|apply reaches_refl].
      match goal with
      | |- context [captureErrorScreenshot _ _ label ?w0] =>
          destruct (captureErrorScreenshot_total label w0) as (p & lg & ->)
      end.
      cbn [snd]. apply log_reaches.
  - rewrite (measureAction_idle action label w Hrun).
    eapply reaches_trans; [apply log_reaches|apply Hact].
Qed.

End Writes.

Lemma permits_plain (s : Script) (e : Effect) :
  plain e = true -> permits s e = true.
Proof. destruct e; cbn; congruence. Qed.

(** The world after a script is the world before it after a sequence of
    the writes the script permits. *)
Lemma run_reaches (s : Script) : forall w, reaches (permits s) w (snd (run' s w)).
Proof.
  induction s as [|first IH1 next IH2| | |body IH rejection label| | | | | | | | | | |k];
    intros w; cbn [run].
  - apply reaches_refl.
  - assert (H1 : forall e, permits first e = true ->
                           permits (Seq first next) e = true).
    { intros [] ; cbn; try reflexivity;
        destruct (noStart first), (noStart next), (noStop first), (noStop next),
                 (noWrite first), (noWrite next);
        cbn; try congruence; destruct b; cbn; congruence. }
    assert (H2 : forall e, permits next e = true ->
                           permits (Seq first next) e = true).
    { intros [] ; cbn; try reflexivity;
        destruct (noStart first), (noStart next), (noStop first), (noStop next),
                 (noWrite first), (noWrite next);
        cbn; try congruence; destruct b; cbn; congruence. }
    unfold bind. specialize (IH1 w). apply (reaches_mono _ _ _ _ H1) in IH1.
    destruct (run' first w) as [[[]|e|c] w1]; cbn [snd] in *; try exact IH1.
    eapply reaches_trans; [exact IH1|].
    apply (reaches_mono _ _ _ _ H2), IH2.
  - apply start_reaches; [apply permits_plain|reflexivity|reflexivity].
  - apply stop_reaches; [apply permits_plain|reflexivity|reflexivity].
  - apply measureAction_reaches; [apply permits_plain|].
    intros w0. unfold bind. specialize (IH w0).
    destruct (run' body w0) as [[[]|e|c] w1]; cbn [snd] in *;
      [destruct rejection|..]; exact IH.
  - apply addFailure_reaches, permits_plain.
  - apply addShowStopper_reaches, permits_plain.
  - apply reaches_refl.
  - unfold bind. pose proof (saveReport_reaches (permits (CallSaveReport outputFile_arg))
                 (permits_plain _) outputFile_arg w (fun _ _ => eq_refl)) as H.
    destruct (saveReport' outputFile_arg w) as [[p|e|c] w1]; exact H.
  - apply generateHTMLReport_reaches; [apply permits_plain|reflexivity].
  - apply (update_reaches _ (permits_plain _) (SetsTestName name)). reflexivity.
  - apply emit_reaches, permits_plain.
  - apply (update_reaches _ (permits_plain _) (ClockMoves ms)). reflexivity.
  - apply (update_reaches _ (permits_plain _) (DriverSet failure)). reflexivity.
  - apply write_reaches. reflexivity.
  - apply settle_reaches, permits_plain.
Qed.

Lemma extends_refl (i : Instance) : extends i i.
Proof. repeat split; auto. Qed.

Lemma extends_trans (i1 i2 i3 : Instance) :
  extends i1 i2 -> extends i2 i3 -> extends i1 i3.
Proof.
  intros (A1 & A2 & A3 & A4 & A5 & A6) (B1 & B2 & B3 & B4 & B5 & B6).
  repeat split; try (etransitivity; eassumption). auto.
Qed.

Lemma perform_extends (e : Effect) (w : World) :
  e <> Resets -> extends (this w) (this (perform e w)).
Proof.
  intros Hne. destruct e; try congruence; try apply extends_refl;
    cbn; unfold extends; cbn;
    repeat split; auto; try (eexists; reflexivity).
  intros url0 Hsome. destruct (decide (url = url0)) as [->|Hu].
  - rewrite lookup_insert_eq. eauto.
  - rewrite lookup_insert_ne by exact Hu. exact Hsome.
Qed.

(** Short of the reset of [start], no write removes a record. *)
Lemma reaches_extends (P : Effect -> bool) (w w' : World) :
  P Resets = false -> reaches P w w' -> extends (this w) (this w').
Proof.
  intros HR (es & -> & Hall). revert w.
  induction es as [|e es IH]; intros w; [apply extends_refl|].
  cbn [forallb] in Hall. apply andb_true_iff in Hall as [He Hall].
  eapply extends_trans; [apply (perform_extends e w); congruence|].
  apply (IH Hall).
Qed.

(** Every write keeps the two records of request durations in step. *)
Lemma reaches_inStep (P : Effect -> bool) (w w' : World) :
  reaches P w w' -> inStep (this w) -> inStep (this w').
Proof.
  intros (es & -> & _). revert w.
  induction es as [|e es IH]; intros w Hw; [exact Hw|].
  apply IH. unfold inStep in *. destruct e; cbn; try exact Hw; try reflexivity.
  rewrite map_app, Hw. reflexivity.
Qed.

(** Only [stop] turns [isMonitoring] off, and only [start] turns it on. *)
Lemma reaches_monitoring (P : Effect -> bool) (w w' : World) :
  (forall b, P (SetsMonitoring b) = false) -> reaches P w w' ->
  (isMonitoring (this w) = true -> isMonitoring (this w') = true) /\
  (P Resets = false -> isMonitoring (this w') = isMonitoring (this w)).
Proof.
  intros Hset (es & -> & Hall). revert w.
  induction es as [|e es IH]; intros w; [split; auto|].
  cbn [forallb] in Hall. apply andb_true_iff in Hall as [He Hall].
  destruct (IH Hall (perform e w)) as [IHon IHsame].
  destruct e; cbn in *; try (split; assumption); try congruence.
  split; [auto|congruence].
Qed.

(** A script that never calls [start] leaves a session that is not Running
    as it is. *)
Lemma reaches_idle (P : Effect -> bool) (w w' : World) :
  P Resets = false -> P (SetsMonitoring true) = false -> reaches P w w' ->
  isMonitoring (this w) = false -> isMonitoring (this w') = false.
Proof.
  intros HR Hon (es & -> & Hall). revert w.
  induction es as [|e es IH]; intros w Hw; [exact Hw|].
  cbn [forallb] in Hall. apply andb_true_iff in Hall as [He Hall].
  apply (IH Hall). destruct e; cbn; try exact Hw; try congruence.
  destruct b; congruence.
Qed.

(** X12.  Short of another [start], a session loses no record: after any
    script that never calls [start], each of the five collections still
    begins with the entries it had, in their order, and a request that had a
    start instant still has one.  Hence a session with a showstopper is
    never reported as passed again, and a session that is not Running is not
    Running afterwards either. *)
Theorem records_only_grow (s : Script) (w : World) :
  noStart s = true ->
  extends (this w) (this (snd (run' s w))) /\
  (showStoppers (this w) <> [] ->
   forall t, passed (reportOf' (this (snd (run' s w))) t) = false) /\
  (isMonitoring (this w) = false ->
   isMonitoring (this (snd (run' s w))) = false).
Proof.
  intros Hno. pose proof (run_reaches s w) as Hreach.
  assert (HR : permits s Resets = false) by (cbn; rewrite Hno; reflexivity).
  assert (Hext : extends (this w) (this (snd (run' s w))))
    by (exact (reaches_extends _ _ _ HR Hreach)).
  split; [exact Hext|]. split.
  - intros Hne t. destruct Hext as (_ & [k Hk] & _). cbn. rewrite Hk.
    destruct (showStoppers (this w)); [congruence|reflexivity].
  - apply (reaches_idle _ _ _ HR); [reflexivity|exact Hreach].
Qed.

(** X13.  In every world that a script reaches from a new instance, the
    list of request durations is the list of the durations of the detailed
    request records, entry by entry.  So every slow request of the report has
    its duration among those averaged, and [avgRequestTime] is [null] exactly
    when no request is listed. *)
Theorem request_records_in_step (s : Script) (t0 : Z) (fs : gmap string File) :
  let w := snd (run' s (newWorld t0 fs)) in
  requestDurations (this w) = map rd_duration (detailedRequestDurations (this w)) /\
  (forall t r, r ∈ slowRequests (reportOf' (this w) t) ->
               rd_duration r ∈ requestDurations (this w)) /\
  (forall t, avgRequestTime (reportOf' (this w) t) = None <->
             detailedRequestDurations (this w) = []).
Proof.
  intros w.
  assert (Hstep : inStep (this w)).
  { apply (reaches_inStep _ _ _ (run_reaches s (newWorld t0 fs))). reflexivity. }
  unfold inStep in Hstep. split; [exact Hstep|]. split.
  - intros t r Hin. cbn [slowRequests reportOf] in Hin.
    rewrite (sort_perm byDurationDesc) in Hin.
    apply list_elem_of_filter in Hin as [_ Hin].
    rewrite Hstep. apply list_elem_of_In, in_map, list_elem_of_In, Hin.
  - intros t. cbn [avgRequestTime reportOf]. rewrite calculateAverage_None, Hstep.
    split; [intros H; apply map_eq_nil in H; apply map_eq_nil in H; exact H|].
    intros ->. reflexivity.
Qed.

(** *** The fixture *)

Local Abbreviation sniff' :=
  (sniff options currentPpid toLocaleString JSON_parse renderHTML exponentForm).

(** *** Test bodies *)

Lemma bind_returns {A B : Type} (m : M A) (k : A -> M B) (w w' : World) (a : A) :
  m w = (Normal a, w') -> (x <- m ;; k x) w = k a w'.
Proof. intros H. unfold bind. rewrite H. reflexivity. Qed.

Lemma emit_returns (ev : PageEvent) (w : World) : fst (emit' ev w) = Normal tt.
Proof. destruct (emit_footprint ev w) as (w' & -> & _). reflexivity. Qed.

Lemma settle_returns (k : nat) (w : World) : fst (settle' k w) = Normal tt.
Proof. destruct (settle_footprint k w) as (w' & -> & _). reflexivity. Qed.

Lemma pageActivity_testBody (s : Script) :
  pageActivity s = true -> testBody s = true.
Proof.
  induction s; cbn; try congruence. intros H.
  apply andb_true_iff in H as [H1 H2]. rewrite IHs1, IHs2; auto.
Qed.

Lemma testBody_quiet (s : Script) :
  testBody s = true -> noStart s = true /\ noStop s = true.
Proof.
  induction s as [|first IH1 next IH2| | |body IH rejection label| | | | | | | | | | |k];
    cbn; try (split; congruence).
  - intros H. apply andb_true_iff in H as [H1 H2].
    destruct (IH1 H1) as [-> ->], (IH2 H2) as [-> ->]. split; reflexivity.
  - intros H. apply andb_true_iff in H as [H _].
    apply IH, pageActivity_testBody, H.
Qed.

Lemma pageActivity_returns (s : Script) :
  pageActivity s = true -> forall w, fst (run' s w) = Normal tt.
Proof.
  induction s as [|first IH1 next IH2| | |body IH rejection label| | | | | | | | | | |k];
    cbn [pageActivity run]; intros H w; try discriminate; try reflexivity.
  - apply andb_true_iff in H as [H1 H2]. unfold bind.
    specialize (IH1 H1 w). destruct (run' first w) as [c w1]. cbn [fst] in IH1.
    subst c. apply (IH2 H2).
  - apply emit_returns.
  - apply settle_returns.
Qed.

(** A test body returns normally on a Running session and leaves it
    Running. *)
Lemma testBody_runs (s : Script) :
  testBody s = true ->
  forall w, isMonitoring (this w) = true ->
  fst (run' s w) = Normal tt /\ isMonitoring (this (snd (run' s w))) = true.
Proof.
  intros Hbody w Hrun.
  assert (Hstays : forall s0 w0, testBody s0 = true ->
            isMonitoring (this w0) = true ->
            isMonitoring (this (snd (run' s0 w0))) = true).
  { intros s0 w0 Hs0 Hw0. destruct (testBody_quiet s0 Hs0) as [_ Hnostop].
    destruct (reaches_monitoring (permits s0) w0 (snd (run' s0 w0))) as [Hon _];
      [intros b; cbn; rewrite Hnostop; apply andb_false_r
      |apply run_reaches|exact (Hon Hw0)]. }
  split; [|exact (Hstays s w Hbody Hrun)].
  revert w Hrun Hbody.
  induction s as [|first IH1 next IH2| | |body IH rejection label| | | | | | | | | | |k];
    cbn [testBody run]; intros w Hrun Hbody; try discriminate; try reflexivity.
  - apply andb_true_iff in Hbody as [H1 H2]. unfold bind.
    pose proof (IH1 w Hrun H1) as Hfirst.
    pose proof (Hstays first w H1 Hrun) as Hrun1.
    destruct (run' first w) as [c w1]. cbn [fst snd] in *. subst c.
    apply (IH2 w1 Hrun1 H2).
  - apply andb_true_iff in Hbody as [Hbody Htext].
    pose proof (pageActivity_returns body Hbody w) as Hnormal.
    destruct (run' body w) as [c w1] eqn:Hc. cbn [fst] in Hnormal. subst c.
    destruct rejection as [[e| |]|]; try discriminate.
    + destruct (measureAction_rejected
                  (run' body ;; throw e) label w w1 e Hrun) as (w2 & -> & _);
        [unfold bind; rewrite Hc; reflexivity|reflexivity].
    + unfold measureAction. mrun. rewrite Hrun. cbn [negb].
      rewrite Hc. cbn. destruct (_ >? _); reflexivity.
  - unfold addFailure. mrun. rewrite Hrun. reflexivity.
  - destruct (addShowStopper_running label criticalError w Hrun) as (lg & ->).
    reflexivity.
  - destruct (saveReport_spec outputFile_arg w) as (previous & lg & H).
    unfold bind. rewrite H. reflexivity.
  - apply emit_returns.
  - apply settle_returns.
Qed.

(** A step of a test body in a Running session. *)
Lemma testBody_step (s : Script) (w : World) :
  testBody s = true -> isMonitoring (this w) = true ->
  exists w', run' s w = (Normal tt, w') /\ isMonitoring (this w') = true.
Proof.
  intros Hs Hw. destruct (testBody_runs s Hs w Hw) as [Hn Hr].
  destruct (run' s w) as [c w']. cbn [fst snd] in *. subst c. eauto.
Qed.

(** The teardown of the fixture, after a test body that leaves the session
    Running. *)
Lemma sniff_teardown (title : string) (test : Script) (t0 : Z)
    (fs : gmap string File) :
  noStart test = true -> noStop test = true ->
  let w1 := snd (start (snd (setTestName title (newWorld t0 fs)))) in
  let w2 := snd (run' test w1) in
  (forall code, fst (run' test w1) <> Exit code) ->
  exists previous lg,
    let stored :=
      {| stored_reportData := previous ++ [reportOf' (this w2) (now w2)];
         testRunnerPid := Some currentPpid |} in
    sniff' title (run' test) (newWorld t0 fs) =
      (match showStoppers (this w2) with
       | [] => Normal tt
       | _ => Throw (ErrorObject "Error" "Test failed due to showstoppers")
       end,
       {| this := set_isMonitoring false (this w2);
          now := now w2;
          files := <[outputHTML options := Text (renderHTML (now w2) stored)]>
                     (<[outputFile options := JsonReports stored]> (files w2));
          logged := logged w2 ++ lg;
          subscriptions := 1;
          screenshotFailure := screenshotFailure w2;
          pending := pending w2 |}).
Proof.
  intros Hno Hnostop w1 w2 Hexit.
  assert (Hrun : isMonitoring (this w2) = true).
  { destruct (reaches_monitoring (permits test) w1 w2) as [Hon _];
      [intros b; cbn; rewrite Hnostop; apply andb_false_r
      |apply run_reaches|apply Hon; reflexivity]. }
  assert (Hsub : subscriptions w2 = 1%nat)
    by (subst w2; rewrite (run_no_start test Hno); reflexivity).
  pose proof (stop_spec w2) as Hstop. rewrite Hrun in Hstop.
  destruct Hstop as (previous & lg & Hstop). cbn zeta in Hstop.
  rewrite Hsub in Hstop. exists previous, lg. cbn zeta. rewrite <- Hstop.
  transitivity ((use (run' test) ;; stop') w1); [reflexivity|].
  unfold bind, use. subst w2. revert Hexit.
  destruct (run' test w1) as [[[]|e|code] w2]; cbn [fst snd]; intros Hexit;
    try reflexivity.
  exfalso. exact (Hexit code eq_refl).
Qed.

(** X14.  The [sniff] fixture around a test body that calls neither [start]
    nor [stop] and does not end the process: whatever the body does, and
    whether it returns or throws, the teardown finds the session Running
    with the one listener set of the fixture's [start]; it appends the report
    of the session to the stored reports, writes the page, leaves the session
    not Running, and throws exactly when the body left a showstopper. *)
Theorem sniff_fixture (title : string) (test : Script) (t0 : Z)
    (fs : gmap string File) :
  noStart test = true -> noStop test = true ->
  let w1 := snd (start (snd (setTestName title (newWorld t0 fs)))) in
  let w2 := snd (run' test w1) in
  (forall code, fst (run' test w1) <> Exit code) ->
  exists previous lg,
    let stored :=
      {| stored_reportData := previous ++ [reportOf' (this w2) (now w2)];
         testRunnerPid := Some currentPpid |} in
    sniff' title (run' test) (newWorld t0 fs) =
      (match showStoppers (this w2) with
       | [] => Normal tt
       | _ => Throw (ErrorObject "Error" "Test failed due to showstoppers")
       end,
       {| this := set_isMonitoring false (this w2);
          now := now w2;
          files := <[outputHTML options := Text (renderHTML (now w2) stored)]>
                     (<[outputFile options := JsonReports stored]> (files w2));
          logged := logged w2 ++ lg;
          subscriptions := 1;
          screenshotFailure := screenshotFailure w2;
          pending := pending w2 |}).
Proof. apply sniff_teardown. Qed.

(** X22.  The example test [Monitor page performance], run under the
    fixture: whatever the page does during its three measured actions, and
    whether each of them returns or rejects, the body returns normally, and
    the teardown of the fixture throws [Test failed due to showstoppers],
    because the body adds the showstopper [Manual check] by hand; the
    failure added by hand is recorded with its metadata. *)
Theorem example_test_fails (goto click expectVisible : Script)
    (rejection1 rejection2 rejection3 : option Thrown)
    (title : string) (t0 : Z) (fs : gmap string File) :
  pageActivity goto = true -> pageActivity click = true ->
  pageActivity expectVisible = true ->
  let body :=
    monitorPagePerformance goto click expectVisible
      rejection1 rejection2 rejection3 in
  let w1 := snd (start (snd (setTestName title (newWorld t0 fs)))) in
  fst (run' body w1) = Normal tt /\
  fst (sniff' title (run' body) (newWorld t0 fs)) =
    Throw (ErrorObject "Error" "Test failed due to showstoppers") /\
  (exists shot,
     {| ss_label := "Manual check";
        ss_criticalError := "Found an issue during manual verification";
        ss_screenshot := shot |} ∈ showStoppers (this (snd (run' body w1)))) /\
  {| f_error := Some "Example custom failure"; f_type := custom;
     f_requestUrl := None; f_requestStatus := None; f_requestMethod := None;
     f_metadata := [("additionalInfo", "test")] |}
    ∈ failures (this (snd (run' body w1))).
Proof.
  intros H1 H2 H3 body w1.
  set (m1 := CallMeasureAction goto (option_map Printable rejection1) "Open Playwright Page").
  set (m2 := CallMeasureAction click (option_map Printable rejection2) "Click Link").
  set (m3 := CallMeasureAction expectVisible (option_map Printable rejection3)
               "Expects page to have a heading with the name of Installation").
  assert (Hm1 : testBody m1 = true)
    by (cbn; rewrite H1; destruct rejection1; reflexivity).
  assert (Hm2 : testBody m2 = true)
    by (cbn; rewrite H2; destruct rejection2; reflexivity).
  assert (Hm3 : testBody m3 = true)
    by (cbn; rewrite H3; destruct rejection3; reflexivity).
  assert (Hbody : testBody body = true).
  { subst body. unfold monitorPagePerformance. fold m1 m2 m3.
    cbn [testBody]. rewrite Hm1, Hm2, Hm3. reflexivity. }
  assert (Hrun1 : isMonitoring (this w1) = true) by reflexivity.
  destruct (testBody_runs body Hbody w1 Hrun1) as [Hnormal Hrun2].
  destruct (testBody_quiet body Hbody) as [Hnostart Hnostop].
  (* the world before the two records are added by hand *)
  assert (Hsteps : exists wa lgf lgs,
            isMonitoring (this wa) = true /\
            snd (run' body w1) =
              set_logged (logged wa ++ lgf ++ lgs)
                (set_this
                   (push_showStopper
                      {| ss_label := "Manual check";
                         ss_criticalError := "Found an issue during manual verification";
                         ss_screenshot :=
                           attachedScreenshot options path_join "Manual check"
                             (set_logged (logged wa ++ lgf)
                                (set_this
                                   (push_failure
                                      {| f_error := Some "Example custom failure";
                                         f_type := custom; f_requestUrl := None;
                                         f_requestStatus := None;
                                         f_requestMethod := None;
                                         f_metadata := [("additionalInfo", "test")] |}
                                      (this wa)) wa)) |}
                      (push_failure
                         {| f_error := Some "Example custom failure";
                            f_type := custom; f_requestUrl := None;
                            f_requestStatus := None; f_requestMethod := None;
                            f_metadata := [("additionalInfo", "test")] |}
                         (this wa))) wa)).
  { assert (Hm : forall m w, testBody m = true -> isMonitoring (this w) = true ->
                 exists w', run' m w = (Normal tt, w') /\
                            isMonitoring (this w') = true).
    { intros m w Hm Hw. destruct (testBody_runs m Hm w Hw) as [Hn Hr].
      destruct (run' m w) as [c w']. cbn [fst snd] in *. subst c. eauto. }
    destruct (Hm m1 w1 Hm1 Hrun1) as (wx & Hx & Hrx).
    destruct (Hm m2 wx Hm2 Hrx) as (wy & Hy & Hry).
    destruct (Hm m3 wy Hm3 Hry) as (wa & Ha & Hra).
    exists wa. subst body. unfold monitorPagePerformance. fold m1 m2 m3.
    cbn [run].
    rewrite (bind_returns _ _ _ _ _ Hx), (bind_returns _ _ _ _ _ Hy),
            (bind_returns _ _ _ _ _ Ha).
    set (wf := set_logged
                 (logged wa ++ [("Failure added: Example custom failure", WARN)])
                 (set_this
                    (push_failure
                       {| f_error := Some "Example custom failure";
                          f_type := custom; f_requestUrl := None;
                          f_requestStatus := None; f_requestMethod := None;
                          f_metadata := [("additionalInfo", "test")] |}
                       (this wa)) wa)).
    assert (Hf : addFailure "Example custom failure" custom
                   [("additionalInfo", "test")] wa = (Normal tt, wf))
      by (unfold addFailure; mrun; rewrite Hra; reflexivity).
    rewrite (bind_returns _ _ _ _ _ Hf).
    destruct (addShowStopper_running "Manual check"
                "Found an issue during manual verification" wf Hra) as (lgs & Hs).
    rewrite (bind_returns _ _ _ _ _ Hs).
    eexists [_], lgs. split; [exact Hra|]. subst wf. cbn.
    rewrite <- app_assoc. reflexivity. }
  destruct Hsteps as (wa & lgf & lgs & Hra & Hend).
  split; [exact Hnormal|]. split; [|split].
  - destruct (sniff_teardown title body t0 fs Hnostart Hnostop) as (previous & lg & Heq).
    { fold w1. rewrite Hnormal. discriminate. }
    cbv zeta in Heq. rewrite Heq. cbn [fst]. fold w1. rewrite Hend. cbn.
    destruct (showStoppers (this wa)); reflexivity.
  - eexists. rewrite Hend. cbn. apply elem_of_app. right. left.
  - rewrite Hend. cbn. apply elem_of_app. right. left.
Qed.

(** *** What fails a test *)

Lemma existsb_delete {A : Type} (f : A -> bool) (l : list A) (k : nat) (x : A) :
  l !! k = Some x -> existsb f l = f x || existsb f (delete k l).
Proof.
  revert k. induction l as [|a l IH]; intros [|k] Hk; try discriminate.
  - cbn in Hk. injection Hk as ->. reflexivity.
  - cbn in Hk. cbn. rewrite (IH k Hk).
    destruct (f a), (f x); reflexivity.
Qed.

(** An event appends the runs it leaves pending, one for each listener
    set. *)
Lemma emit_pending (ev : PageEvent) (w : World) :
  pending (snd (emit' ev w)) =
    pending w ++ concat (repeat (deferred ev) (subscriptions w)).
Proof.
  assert (Hone : forall w0,
            pending (snd (listener' ev w0)) = pending w0 ++ deferred ev).
  { intros w0.
    destruct ev as [type text|status url failureText method|url|url method
                    |status url method body]; cbn [listener deferred].
    - unfold onConsole. mrun. destruct (String.eqb type "error");
        cbn; rewrite app_nil_r; reflexivity.
    - reflexivity.
    - cbn. rewrite app_nil_r. reflexivity.
    - unfold onRequestFinished. mrun.
      destruct (requestStartTimes (this w0) !! url) as [started|];
        [destruct (started =? 0)|]; cbn; rewrite app_nil_r; reflexivity.
    - destruct ((500 <=? status) && (status <? 600)); [reflexivity|].
      cbn. rewrite app_nil_r. reflexivity. }
  unfold emit. mrun. generalize (subscriptions w) as n. intros n. revert w.
  induction n as [|n IH]; intros w; [cbn; rewrite app_nil_r; reflexivity|].
  cbn [times]. unfold bind at 1. specialize (Hone w).
  destruct (listener_footprint ev w) as (w1 & Heq & _).
  rewrite Heq in *. cbn [snd] in Hone. rewrite IH, Hone.
  cbn [repeat concat]. rewrite <- app_assoc. reflexivity.
Qed.

Lemma existsb_deferred (ev : PageEvent) (n : nat) :
  existsb stopperTask (concat (repeat (deferred ev) n)) =
    serverError ev && negb (Nat.eqb n 0).
Proof.
  induction n as [|n IH]; [cbn; apply eq_sym, andb_false_r|].
  cbn [repeat concat]. rewrite existsb_app, IH.
  destruct ev as [| | | |status url method body]; cbn; try reflexivity.
  destruct ((500 <=? status) && (status <? 600)); reflexivity.
Qed.

(** A measured action leaves the showstoppers of its action in place, and
    adds one when the action rejects with a value that has a string form. *)
Lemma measureAction_showStoppers (action : M unit) (label : string) (w w1 : World)
    (c : Completion unit) :
  isMonitoring (this w) = true ->
  action w = (c, w1) ->
  pending (snd (measureAction' action label w)) = pending w1 /\
  match c with
  | Throw raw =>
      if hasText raw then
        exists s,
          showStoppers (this (snd (measureAction' action label w))) =
            showStoppers (this w1) ++ [s]
      else
        showStoppers (this (snd (measureAction' action label w))) =
          showStoppers (this w1)
  | _ =>
      showStoppers (this (snd (measureAction' action label w))) =
        showStoppers (this w1)
  end.
Proof.
  intros Hrun Hact. split.
  { destruct (measureAction_subscriptions action label w) as [_ H].
    rewrite Hrun, Hact in H. exact H. }
  destruct c as [[]|[e|cleaning template|cleaning template]|code].
  - unfold measureAction. mrun. rewrite Hrun. cbn [negb]. rewrite Hact. cbn.
    destruct (_ >? _); reflexivity.
  - destruct (measureAction_rejected action label w w1 e Hrun Hact)
      as (w2 & -> & _ & Hss & _).
    eexists. exact Hss.
  - rewrite (measureAction_textless action label w w1 _ cleaning Hrun Hact eq_refl).
    reflexivity.
  - rewrite (measureAction_textless action label w w1 _ cleaning Hrun Hact eq_refl).
    reflexivity.
  - unfold measureAction. mrun. rewrite Hrun. cbn [negb]. rewrite Hact.
    reflexivity.
Qed.

(** A quiet test body leaves the showstoppers as they are and no run of the
    response listener pending. *)
Lemma quiet_keeps_showStoppers (s : Script) :
  testBody s = true -> quiet s = true ->
  forall w, isMonitoring (this w) = true ->
  existsb stopperTask (pending w) = false ->
  showStoppers (this (snd (run' s w))) = showStoppers (this w) /\
  existsb stopperTask (pending (snd (run' s w))) = false.
Proof.
  induction s as [|first IH1 next IH2| | |body IH rejection label| | | | | | | | | | |k];
    cbn [testBody quiet run]; intros Hbody Hquiet w Hrun Hpend;
    try discriminate; try (split; [reflexivity|exact Hpend]).
  - apply andb_true_iff in Hbody as [Hb1 Hb2].
    apply andb_true_iff in Hquiet as [Hq1 Hq2].
    destruct (testBody_runs first Hb1 w Hrun) as [Hn Hr].
    destruct (IH1 Hb1 Hq1 w Hrun Hpend) as [Hss1 Hp1]. unfold bind.
    destruct (run' first w) as [c w1]. cbn [fst snd] in *. subst c.
    destruct (IH2 Hb2 Hq2 w1 Hr Hp1) as [Hss2 Hp2].
    split; [congruence|exact Hp2].
  - apply andb_true_iff in Hbody as [Hbody _].
    apply andb_true_iff in Hquiet as [Hq Hrej].
    destruct rejection; [discriminate|].
    pose proof (pageActivity_returns body Hbody w) as Hn.
    destruct (IH (pageActivity_testBody body Hbody) Hq w Hrun Hpend) as [Hss Hp].
    destruct (run' body w) as [c w1] eqn:Hc. cbn [fst snd] in *. subst c.
    destruct (measureAction_showStoppers (run' body ;; ret tt) label w w1
                (Normal tt) Hrun) as [Hp' Hss'];
      [unfold bind; rewrite Hc; reflexivity|].
    rewrite Hp', Hss'. split; assumption.
  - unfold addFailure. mrun. rewrite Hrun. split; [reflexivity|exact Hpend].
  - destruct (saveReport_spec outputFile_arg w) as (previous & lg & H).
    unfold bind. rewrite H. split; [reflexivity|exact Hpend].
  - apply negb_true_iff in Hquiet.
    rewrite emit_pending, existsb_app, Hpend, existsb_deferred, Hquiet.
    destruct (emit_footprint ev w) as (w' & -> & _ & Hss & _).
    split; [exact Hss|reflexivity].
  - destruct (pending w !! k) as [task|] eqn:Hk.
    + rewrite (existsb_delete stopperTask _ k task Hk) in Hpend.
      apply orb_false_iff in Hpend as [Htask Hrest].
      destruct task as [status url failureText method| |]; try discriminate.
      unfold settle. mrun. rewrite Hk. cbn [resume]. unfold onRequestFailed. mrun.
      split; [reflexivity|exact Hrest].
    + unfold settle. mrun. rewrite Hk. split; [reflexivity|exact Hpend].
Qed.

(** In a session that is not restarted, a showstopper stays. *)
Lemma showStoppers_stay (s : Script) (w : World) :
  noStart s = true -> showStoppers (this w) <> [] ->
  showStoppers (this (snd (run' s w))) <> [].
Proof.
  intros Hno Hne.
  assert (HR : permits s Resets = false) by (cbn; rewrite Hno; reflexivity).
  destruct (reaches_extends _ _ _ HR (run_reaches s w)) as (_ & [l Hl] & _).
  rewrite Hl. destruct (showStoppers (this w)); [congruence|discriminate].
Qed.

(** A pending run of the response listener that goes on in a Running
    session ends in a showstopper, or in the next await. *)
Lemma settle_flagged (k : nat) (w : World) :
  isMonitoring (this w) = true ->
  existsb stopperTask (pending w) = true ->
  flagged (snd (settle' k w)).
Proof.
  intros Hrun Hpend. destruct (pending w !! k) as [task|] eqn:Hk.
  - rewrite (existsb_delete stopperTask _ k task Hk) in Hpend.
    destruct task as [status url failureText method|status url method body
                      |label criticalError path].
    + right. unfold settle. mrun. rewrite Hk. cbn [resume].
      unfold onRequestFailed. mrun. exact Hpend.
    + rewrite (settle_body status url method body k w Hk), Hrun. cbn [snd].
      destruct (captureScreenshots options).
      * right. cbn [pending set_pending]. rewrite existsb_app. cbn.
        apply orb_true_r.
      * left. cbn. destruct (showStoppers (this w)); discriminate.
    + destruct (settle_screenshot label criticalError path k w Hk) as (lg & ->).
      left. cbn. destruct (showStoppers (this w)); discriminate.
  - right. unfold settle. mrun. rewrite Hk. exact Hpend.
Qed.

(** A test body does not unflag a Running session. *)
Lemma testBody_flagged (s : Script) :
  testBody s = true ->
  forall w, isMonitoring (this w) = true -> flagged w -> flagged (snd (run' s w)).
Proof.
  intros Hbody w Hrun [Hne|Hpend].
  { left. apply showStoppers_stay; [apply testBody_quiet, Hbody|exact Hne]. }
  revert w Hrun Hpend Hbody.
  induction s as [|first IH1 next IH2| | |body IH rejection label| | | | | | | | | | |k];
    cbn [testBody run]; intros w Hrun Hpend Hbody;
    try discriminate; try (right; exact Hpend).
  - apply andb_true_iff in Hbody as [Hb1 Hb2].
    destruct (testBody_step first w Hb1 Hrun) as (w1 & Hfirst & Hrun1).
    specialize (IH1 w Hrun Hpend Hb1). unfold bind. rewrite Hfirst in *.
    cbn [snd] in IH1. destruct IH1 as [Hne1|Hpend1].
    + left. apply showStoppers_stay; [apply testBody_quiet, Hb2|exact Hne1].
    + apply (IH2 w1 Hrun1 Hpend1 Hb2).
  - apply andb_true_iff in Hbody as [Hbody Htext].
    pose proof (pageActivity_returns body Hbody w) as Hn.
    specialize (IH w Hrun Hpend (pageActivity_testBody body Hbody)).
    destruct (run' body w) as [c w1] eqn:Hc. cbn [fst snd] in *. subst c.
    match goal with
    | |- flagged (snd (measureAction' ?action label w)) =>
        assert (Hact : exists c, action w = (c, w1) /\
                  forall raw, c = Throw raw -> hasText raw = true)
    end.
    { unfold bind. rewrite Hc. destruct rejection as [raw|]; eexists;
        (split; [reflexivity|]); [|discriminate].
      intros raw0 Heq. injection Heq as <-. exact Htext. }
    destruct Hact as (c & Hact & Hc').
    destruct (measureAction_showStoppers _ label w w1 c Hrun Hact) as [Hp Hss].
    destruct IH as [Hne1|Hpend1]; [left|right; rewrite Hp; exact Hpend1].
    destruct c as [[]|raw|code].
    + rewrite Hss. exact Hne1.
    + rewrite (Hc' raw eq_refl) in Hss. destruct Hss as [s0 ->].
      destruct (showStoppers (this w1)); discriminate.
    + rewrite Hss. exact Hne1.
  - right. unfold addFailure. mrun. rewrite Hrun. exact Hpend.
  - left. destruct (addShowStopper_running label criticalError w Hrun) as (lg & ->).
    cbn. destruct (showStoppers (this w)); discriminate.
  - right. destruct (saveReport_spec outputFile_arg w) as (previous & lg & H).
    unfold bind. rewrite H. exact Hpend.
  - right. rewrite emit_pending, existsb_app, Hpend. reflexivity.
  - apply settle_flagged; assumption.
Qed.

(** A test body that is not quiet flags the session. *)
Lemma testBody_flags (s : Script) :
  testBody s = true -> quiet s = false ->
  forall w, isMonitoring (this w) = true -> subscriptions w <> O ->
  flagged (snd (run' s w)).
Proof.
  induction s as [|first IH1 next IH2| | |body IH rejection label| | | | | | | | | | |k];
    cbn [testBody quiet run]; intros Hbody Hquiet w Hrun Hsub;
    try discriminate.
  - apply andb_true_iff in Hbody as [Hb1 Hb2].
    destruct (testBody_step first w Hb1 Hrun) as (w1 & Hfirst & Hrun1).
    destruct (testBody_quiet first Hb1) as [Hns1 _].
    pose proof (run_no_start first Hns1 w) as Hsub1.
    unfold bind. rewrite Hfirst in *. cbn [snd] in Hsub1.
    destruct (quiet first) eqn:Hq1.
    + apply (IH2 Hb2 Hquiet w1 Hrun1). congruence.
    + specialize (IH1 Hb1 eq_refl w Hrun Hsub). rewrite Hfirst in IH1.
      apply (testBody_flagged next Hb2 w1 Hrun1 IH1).
  - apply andb_true_iff in Hbody as [Hbody Htext].
    pose proof (pageActivity_returns body Hbody w) as Hn.
    destruct (run' body w) as [c w1] eqn:Hc. cbn [fst] in Hn. subst c.
    destruct rejection as [raw|].
    + left.
      destruct (measureAction_showStoppers (run' body ;; throw raw) label w w1
                  (Throw raw) Hrun) as [_ Hss];
        [unfold bind; rewrite Hc; reflexivity|].
      rewrite Htext in Hss. destruct Hss as [s0 ->].
      destruct (showStoppers (this w1)); discriminate.
    + rewrite andb_true_r in Hquiet.
      specialize (IH (pageActivity_testBody body Hbody) Hquiet w Hrun Hsub).
      rewrite Hc in IH. cbn [snd] in IH.
      destruct (measureAction_showStoppers (run' body ;; ret tt) label w w1
                  (Normal tt) Hrun) as [Hp Hss];
        [unfold bind; rewrite Hc; reflexivity|].
      destruct IH as [Hne|Hpend]; [left; rewrite Hss|right; rewrite Hp]; assumption.
  - left. destruct (addShowStopper_running label criticalError w Hrun) as (lg & ->).
    cbn. destruct (showStoppers (this w)); discriminate.
  - right. apply negb_false_iff in Hquiet.
    rewrite emit_pending, existsb_app, existsb_deferred, Hquiet.
    destruct (subscriptions w); [congruence|]. apply orb_true_r.
Qed.

(** X23.  What fails a test under the [sniff] fixture.  The test body is
    made of measured page actions, which return or reject with a value that
    has a string form, of records added by hand, reads and saved reports,
    with the page events and the settling awaits of the listeners in
    between.  A body without a source of showstoppers (no measured action
    that rejects, no call of [addShowStopper], no response with a status
    from 500 to 599) passes the teardown, however slow its actions and
    whatever the console errors, the failed requests and the failures added
    by hand.  A body with such a source fails the teardown, provided that no
    run of the response listener is still pending when the body ends.  A
    server error whose listener is still awaiting at the teardown goes
    unnoticed: a body that is this response alone passes. *)
Theorem fixture_verdict (title : string) (test : Script) (t0 : Z)
    (fs : gmap string File) :
  testBody test = true ->
  let w1 := snd (start (snd (setTestName title (newWorld t0 fs)))) in
  let w2 := snd (run' test w1) in
  (quiet test = true ->
   fst (sniff' title (run' test) (newWorld t0 fs)) = Normal tt) /\
  (quiet test = false ->
   existsb stopperTask (pending w2) = false ->
   fst (sniff' title (run' test) (newWorld t0 fs)) =
     Throw (ErrorObject "Error" "Test failed due to showstoppers")) /\
  (forall (status : Z) (url method : string) (body : option string),
     fst (sniff' title (run' (PageEmits (ResponseReceived status url method body)))
            (newWorld t0 fs)) = Normal tt).
Proof.
  intros Hbody w1 w2.
  assert (Hrun1 : isMonitoring (this w1) = true) by reflexivity.
  assert (Hverdict : forall body, testBody body = true ->
            fst (sniff' title (run' body) (newWorld t0 fs)) =
              match showStoppers (this (snd (run' body w1))) with
              | [] => Normal tt
              | _ => Throw (ErrorObject "Error" "Test failed due to showstoppers")
              end).
  { intros body Hb. destruct (testBody_quiet body Hb) as [Hnostart Hnostop].
    destruct (testBody_runs body Hb w1 Hrun1) as [Hnormal _].
    destruct (sniff_teardown title body t0 fs Hnostart Hnostop)
      as (previous & lg & Heq).
    { fold w1. rewrite Hnormal. discriminate. }
    cbv zeta in Heq. rewrite Heq. reflexivity. }
  split; [|split].
  - intros Hquiet. rewrite (Hverdict test Hbody).
    destruct (quiet_keeps_showStoppers test Hbody Hquiet w1 Hrun1 eq_refl)
      as [-> _]. reflexivity.
  - intros Hquiet Hpend. rewrite (Hverdict test Hbody).
    destruct (testBody_flags test Hbody Hquiet w1 Hrun1 ltac:(discriminate))
      as [Hne|Hp]; [|fold w2 in Hp; congruence].
    destruct (showStoppers (this (snd (run' test w1)))); [congruence|reflexivity].
  - intros status url method body.
    rewrite (Hverdict (PageEmits (ResponseReceived status url method body)) eq_refl).
    cbn [run].
    destruct (emit_footprint (ResponseReceived status url method body) w1)
      as (w' & -> & _ & Hss & _). cbn [snd]. rewrite Hss. reflexivity.
Qed.

(** *** Sessions that are never stopped *)

Lemma reaches_files (P : Effect -> bool) (w w' : World) :
  (forall path content, P (WritesFile path content) = false) ->
  reaches P w w' -> files w' = files w.
Proof.
  intros HW (es & -> & Hall). revert w.
  induction es as [|e es IH]; intros w; [reflexivity|].
  cbn [forallb] in Hall. apply andb_true_iff in Hall as [He Hall].
  change (performAll (e :: es) w) with (performAll es (perform e w)).
  rewrite (IH Hall). destruct e; try reflexivity. congruence.
Qed.

Lemma pageActivity_noWrite (s : Script) :
  pageActivity s = true -> noWrite s = true.
Proof.
  induction s; cbn; try congruence. intros H.
  apply andb_true_iff in H as [H1 H2]. rewrite IHs1, IHs2; auto.
Qed.

(** X24.  With screenshots disabled, so that the driver writes no picture,
    only [stop], [saveReport] and [generateHTMLReport] write files: a script
    that calls none of them, and in which the host writes none, leaves every
    file as it is.  So the test [Basic usage of playwright-sniff], which
    disables screenshots, starts a session of its own and never stops it,
    returns normally, whatever the page does and whether its measured
    actions return or reject, with the showstopper it added still recorded
    and the session still Running, and no report is written. *)
Theorem unstopped_session_writes_nothing :
  captureScreenshots options = false ->
  (forall (s : Script) (w : World),
     noWrite s = true -> files (snd (run' s w)) = files w) /\
  (forall (goto click expectVisible : Script)
          (rejection1 rejection2 rejection3 : option Thrown)
          (title : string) (t0 : Z) (fs : gmap string File),
     pageActivity goto = true -> pageActivity click = true ->
     pageActivity expectVisible = true ->
     let result :=
       run' (basicUsage title goto click expectVisible
               rejection1 rejection2 rejection3) (newWorld t0 fs) in
     fst result = Normal tt /\
     files (snd result) = fs /\
     showStoppers (this (snd result)) <> [] /\
     isMonitoring (this (snd result)) = true).
Proof.
  intros _.
  assert (Hfiles : forall (s : Script) (w : World),
            noWrite s = true -> files (snd (run' s w)) = files w).
  { intros s w Hno. apply (reaches_files (permits s)); [|apply run_reaches].
    intros path content. cbn. rewrite Hno. reflexivity. }
  split; [exact Hfiles|].
  intros goto click expectVisible rejection1 rejection2 rejection3 title t0 fs
         H1 H2 H3 result.
  set (m1 := CallMeasureAction goto (option_map Printable rejection1) "Open Playwright Page").
  set (m2 := CallMeasureAction click (option_map Printable rejection2) "Click Link").
  set (m3 := CallMeasureAction expectVisible (option_map Printable rejection3)
               "Expects page to have a heading with the name of Installation").
  set (byHand :=
    Seq (CallAddFailure "Example custom failure" custom [("additionalInfo", "test")])
        (CallAddShowStopper "Manual check"
           "Found an issue during manual verification")).
  set (rest := Seq m1 (Seq m2 (Seq m3 byHand))).
  set (w1 := snd (start (snd (setTestName title (newWorld t0 fs))))).
  assert (Hresult : result = run' rest w1) by reflexivity.
  assert (Hm1 : testBody m1 = true)
    by (cbn; rewrite H1; destruct rejection1; reflexivity).
  assert (Hm2 : testBody m2 = true)
    by (cbn; rewrite H2; destruct rejection2; reflexivity).
  assert (Hm3 : testBody m3 = true)
    by (cbn; rewrite H3; destruct rejection3; reflexivity).
  assert (Hbody : testBody rest = true).
  { subst rest. cbn [testBody]. rewrite Hm1, Hm2, Hm3. reflexivity. }
  assert (Hrun1 : isMonitoring (this w1) = true) by reflexivity.
  destruct (testBody_runs rest Hbody w1 Hrun1) as [Hnormal Hrun2].
  rewrite Hresult. split; [exact Hnormal|]. split; [|split].
  - rewrite (Hfiles rest w1); [reflexivity|].
    cbn. rewrite !pageActivity_noWrite by assumption. reflexivity.
  - destruct (testBody_step m1 w1 Hm1 Hrun1) as (wx & Hx & Hrx).
    destruct (testBody_step m2 wx Hm2 Hrx) as (wy & Hy & Hry).
    destruct (testBody_step m3 wy Hm3 Hry) as (wa & Ha & Hra).
    destruct (testBody_step (CallAddFailure "Example custom failure" custom
                               [("additionalInfo", "test")]) wa eq_refl Hra)
      as (wf & Hf & Hrf).
    subst rest byHand. cbn [run].
    rewrite (bind_returns _ _ _ _ _ Hx), (bind_returns _ _ _ _ _ Hy),
            (bind_returns _ _ _ _ _ Ha).
    cbn [run] in Hf. rewrite (bind_returns _ _ _ _ _ Hf).
    destruct (addShowStopper_running "Manual check"
                "Found an issue during manual verification" wf Hrf) as (lgs & ->).
    cbn. destruct (showStoppers (this wf)); discriminate.
  - exact Hrun2.
Qed.

End MonitorFacts.

(** ** Facts about the helpers *)

(** *** Colour codes *)

(** X15.  On a message made of stretches of text without escape characters
    and of colour codes [ESC [ params m] whose parameters are digits and
    semicolons, [cleanErrorMessage] returns the text alone, every line of
    it, and the result holds no escape character; this for an [Error] with
    that message and for any other thrown value with that text. *)
Theorem cleanErrorMessage_strips_colours (ps : list Piece) (name : string) :
  forallb wellFormed ps = true ->
  cleanErrorMessage (ErrorObject name (render ps)) = plainText ps /\
  cleanErrorMessage (OtherValue (render ps)) = plainText ps /\
  containsChar JS.ESC (cleanErrorMessage (ErrorObject name (render ps))) = false.
Proof.
  intros H. destruct (stripAnsi_render ps H) as [Hs He].
  unfold cleanErrorMessage. cbn [errorText]. rewrite Hs. auto.
Qed.

(** *** Timestamps and file names *)

Lemma replaceChar_cons (a b c : ascii) (s : string) :
  JS.replaceChar a b (String c s) =
  String (if Ascii.eqb c a then b else c) (JS.replaceChar a b s).
Proof. reflexivity. Qed.

(** A digit is not a character that is no digit. *)
Lemma digit_other (a c : ascii) :
  JS.isDigit c = true -> JS.isDigit a = false -> Ascii.eqb c a = false.
Proof.
  intros Hc Ha. destruct (Ascii.eqb c a) eqn:Heq; [|reflexivity].
  apply Ascii.eqb_eq in Heq. congruence.
Qed.

(** Replacing a character that is no digit skips a run of digits. *)
Lemma replaceChar_digits (a b c : ascii) (s rest : string) :
  allDigits s = true -> JS.isDigit a = false ->
  JS.replaceChar a b (s +:+ String c rest) =
  s +:+ String (if Ascii.eqb c a then b else c) (JS.replaceChar a b rest).
Proof.
  intros Hs Ha. induction s as [|x s IH]; [reflexivity|].
  cbn [allDigits] in Hs. apply andb_true_iff in Hs as [Hx Hs].
  rewrite !append_cons, replaceChar_cons, (digit_other a x Hx Ha), (IH Hs).
  reflexivity.
Qed.

Lemma replaceFirst_digits (a c : ascii) (b s rest : string) :
  allDigits s = true -> JS.isDigit a = false ->
  JS.replaceFirst a b (s +:+ String c rest) =
  s +:+ (if Ascii.eqb c a then b +:+ rest
         else String c (JS.replaceFirst a b rest)).
Proof.
  intros Hs Ha. induction s as [|x s IH]; [reflexivity|].
  cbn [allDigits] in Hs. apply andb_true_iff in Hs as [Hx Hs].
  rewrite !append_cons. cbn [JS.replaceFirst].
  rewrite (digit_other a x Hx Ha), (IH Hs). reflexivity.
Qed.

Lemma append_nil_r (s : string) : s +:+ EmptyString = s.
Proof.
  induction s as [|c s IH]; [reflexivity|]. rewrite append_cons, IH. reflexivity.
Qed.

Lemma allDigits_pad (width : nat) (n : Z) : allDigits (JS.pad width n) = true.
Proof. unfold JS.pad. apply padStart0_digits, digits_allDigits. Qed.

Lemma allChars_app (p : ascii -> bool) (a b : string) :
  allChars p (a +:+ b) = allChars p a && allChars p b.
Proof.
  induction a as [|c a IH]; [reflexivity|].
  rewrite append_cons. cbn [allChars]. rewrite IH, andb_assoc. reflexivity.
Qed.

Lemma allChars_impl (p q : ascii -> bool) (s : string) :
  (forall c, p c = true -> q c = true) ->
  allChars p s = true -> allChars q s = true.
Proof.
  intros Himp. induction s as [|c s IH]; [reflexivity|].
  cbn [allChars]. intros H. apply andb_true_iff in H as [Hc H].
  rewrite (Himp c Hc), (IH H). reflexivity.
Qed.

Lemma allDigits_allChars (s : string) : allDigits s = allChars JS.isDigit s.
Proof. induction s as [|c s IH]; [reflexivity|]. cbn. rewrite IH. reflexivity. Qed.

(** The ISO text of an instant with colons and the point turned into
    hyphens, as [captureErrorScreenshot] uses it. *)
Lemma hyphenated_iso (t : Z) :
  JS.replaceChar "." "-" (JS.replaceChar ":" "-" (JS.toISOString t)) =
  let '(y, m, d) := JS.civil (t / 86400000) in
  let ms := t mod 86400000 in
  JS.pad 4 y +:+ "-" +:+ JS.pad 2 m +:+ "-" +:+ JS.pad 2 d +:+ "T" +:+
  JS.pad 2 (ms / 3600000) +:+ "-" +:+ JS.pad 2 (ms / 60000 mod 60) +:+ "-" +:+
  JS.pad 2 (ms / 1000 mod 60) +:+ "-" +:+ JS.pad 3 (ms mod 1000) +:+ "Z".
Proof.
  unfold JS.toISOString. destruct (JS.civil (t / 86400000)) as [[y m] d].
  cbv zeta.
  repeat match goal with
  | |- context [?s +:+ String ?c EmptyString +:+ ?r] =>
      change (s +:+ String c EmptyString +:+ r) with (s +:+ String c r)
  end.
  rewrite !replaceChar_digits by (apply allDigits_pad || reflexivity).
  reflexivity.
Qed.

Lemma timestampOf_iso (t : Z) :
  timestampOf (JS.toISOString t) = timestampText t.
Proof.
  unfold timestampOf, timestampText. rewrite hyphenated_iso.
  destruct (JS.civil (t / 86400000)) as [[y m] d]. cbv zeta.
  repeat match goal with
  | |- context [?s +:+ String ?c EmptyString +:+ ?r] =>
      change (s +:+ String c EmptyString +:+ r) with (s +:+ String c r)
  end.
  repeat first
    [ rewrite replaceFirst_digits by (apply allDigits_pad || reflexivity)
    | match goal with
      | |- context [Ascii.eqb ?a ?b] =>
          let v := eval vm_compute in (Ascii.eqb a b) in
          change (Ascii.eqb a b) with v
      end; cbv iota
    | match goal with
      | |- context [String ?c EmptyString +:+ ?r] =>
          change (String c EmptyString +:+ r) with (String c r)
      | |- context [EmptyString +:+ ?r] => change (EmptyString +:+ r) with r
      end ].
  rewrite append_nil_r. reflexivity.
Qed.

Lemma pad_stamp (width : nat) (n : Z) :
  allChars isStampChar (JS.pad width n) = true.
Proof.
  apply (allChars_impl JS.isDigit); [|rewrite <- allDigits_allChars; apply allDigits_pad].
  intros c Hc. unfold isStampChar. rewrite Hc. reflexivity.
Qed.

Lemma timestampText_chars (t : Z) :
  allChars isStampChar (timestampText t) = true.
Proof.
  unfold timestampText. destruct (JS.civil (t / 86400000)) as [[y m] d].
  cbv zeta. rewrite !allChars_app, !pad_stamp. vm_compute. reflexivity.
Qed.

(** A text holds no character outside the class all its characters are
    in. *)
Lemma allChars_excludes (p : ascii -> bool) (c : ascii) (s : string) :
  allChars p s = true -> p c = false -> containsChar c s = false.
Proof.
  intros Hall Hc. unfold containsChar.
  induction s as [|x s IH]; [reflexivity|].
  cbn [allChars] in Hall. apply andb_true_iff in Hall as [Hx Hall].
  cbn [list_ascii_of_string existsb]. rewrite (IH Hall), orb_false_r.
  destruct (Ascii.eqb c x) eqn:Heq; [|reflexivity].
  apply Ascii.eqb_eq in Heq. congruence.
Qed.

Lemma generateTimestamp_now (w : World) :
  generateTimestamp w = (Normal (timestampText (now w)), w).
Proof.
  unfold generateTimestamp, Date_now. unfold bind, get, ret. cbv beta iota.
  rewrite timestampOf_iso. reflexivity.
Qed.

Lemma safeName_cons (c : ascii) (s : string) :
  safeName (String c s) =
  String (if JS.isDigit c || JS.isLower c || JS.isUpper c
          then JS.toLower c else "_"%char) (safeName s).
Proof. reflexivity. Qed.

(** The character [safeName] puts for [c] is safe, and stands for itself. *)
Lemma safeChar_facts (c : ascii) :
  let c' := if JS.isDigit c || JS.isLower c || JS.isUpper c
            then JS.toLower c else "_"%char in
  isSafeChar c' = true /\
  (if JS.isDigit c' || JS.isLower c' || JS.isUpper c'
   then JS.toLower c' else "_"%char) = c'.
Proof.
  destruct c as [[|] [|] [|] [|] [|] [|] [|] [|]]; vm_compute; split; reflexivity.
Qed.

Lemma safeName_facts (label : string) :
  allChars isSafeChar (safeName label) = true /\
  String.length (safeName label) = String.length label /\
  safeName (safeName label) = safeName label.
Proof.
  induction label as [|c s (IH1 & IH2 & IH3)]; [repeat split|].
  rewrite !safeName_cons. cbn [allChars String.length].
  destruct (safeChar_facts c) as [Hc1 Hc2]. cbv zeta in Hc1, Hc2.
  rewrite IH1, IH2, IH3, Hc1, Hc2. repeat split.
Qed.

Lemma safeChar_fileNameChar (c : ascii) :
  isSafeChar c = true -> isFileNameChar c = true.
Proof.
  unfold isSafeChar, isFileNameChar.
  destruct (JS.isDigit c), (JS.isLower c); cbn [orb]; try reflexivity.
  intros H. apply Ascii.eqb_eq in H. subst c. reflexivity.
Qed.

Lemma pad_fileName (width : nat) (n : Z) :
  allChars isFileNameChar (JS.pad width n) = true.
Proof.
  apply (allChars_impl JS.isDigit); [|rewrite <- allDigits_allChars; apply allDigits_pad].
  intros c Hc. unfold isFileNameChar. rewrite Hc. reflexivity.
Qed.

(** X17.  For an instant of the years 1970 to 9999, [captureErrorScreenshot]
    never throws: when the driver takes the picture it returns the path of
    the file [error_<safe label>_<stamp>.png] in the screenshot directory and
    changes nothing; when the driver fails it returns [undefined] and the
    logger receives one error.  The file name is made of lower-case letters,
    digits, underscores, hyphens, points, [T] and [Z] only, whatever the
    label; the safe label has the length of the label and is its own safe
    label. *)
Theorem captureErrorScreenshot_file_name (options : SniffOptions)
    (path_join : string -> string -> string) (label : string) (w : World) :
  0 <= now w < 253402300800000 ->
  let name := errorFileName label (now w) in
  captureErrorScreenshot options path_join label w =
    match screenshotFailure w with
    | None => (Normal (Some (path_join (screenshotDir options) name)), w)
    | Some e =>
        (Normal None,
         set_logged
           (logged w ++
            [("Failed to capture error screenshot: " +:+ thrownToString e, ERROR)])
           w)
    end /\
  allChars isFileNameChar name = true /\
  String.length (safeName label) = String.length label /\
  safeName (safeName label) = safeName label.
Proof.
  intros _ name. destruct (safeName_facts label) as (Hsafe & Hlen & Hidem).
  split; [|split; [|split; assumption]].
  - unfold captureErrorScreenshot, page_screenshot. mrun.
    destruct (screenshotFailure w); [reflexivity|]. destruct w; reflexivity.
  - subst name. unfold errorFileName. rewrite hyphenated_iso.
    destruct (JS.civil (now w / 86400000)) as [[y m] d]. cbv zeta.
    rewrite !allChars_app, !pad_fileName.
    rewrite (allChars_impl isSafeChar isFileNameChar _ safeChar_fileNameChar Hsafe).
    reflexivity.
Qed.

(** *** Percentiles *)

(** X18.  [calculatePercentile] returns 0 on the empty list.  On a list that
    is not empty, whatever the percentile, a result that is a number is one
    of the values of the list; and the result is [undefined], not a number,
    when the percentile is [NaN]. *)
Theorem calculatePercentile_spec :
  (forall percentile,
     calculatePercentile [] percentile = Some (JS.number_of_Z 0)) /\
  (forall v values percentile x,
     calculatePercentile (v :: values) percentile = Some x ->
     x ∈ v :: values) /\
  (forall v values, calculatePercentile (v :: values) JS.NaN = None).
Proof.
  split; [reflexivity|]. split.
  - intros v values percentile x. unfold calculatePercentile, JS.elementAt.
    destruct (JS.toIndex _) as [k|]; [|discriminate].
    destruct (k <? _); [|discriminate].
    intros Hnth. apply nth_error_In, list_elem_of_In in Hnth.
    rewrite (sort_perm ascending) in Hnth. exact Hnth.
  - intros v values. reflexivity.
Qed.

(** The 50th and the 100th percentile of 30, 10, 20 are 20 and 30; the
    percentile 0 is the smallest value; there is no 150th percentile. *)
Lemma calculatePercentile_examples :
  let values := map JS.number_of_Z [30; 10; 20] in
  calculatePercentile values (JS.number_of_Z 50) = Some (JS.number_of_Z 20) /\
  calculatePercentile values (JS.number_of_Z 100) = Some (JS.number_of_Z 30) /\
  calculatePercentile values (JS.number_of_Z 0) = Some (JS.number_of_Z 10) /\
  calculatePercentile values (JS.number_of_Z 150) = None.
Proof. vm_compute. repeat split. Qed.

(** *** The figures of the HTML page *)

Lemma summary_counts (l : list SniffReport) :
  let p := length (filter (fun r => passed r = true) l) in
  (p <= length l)%nat /\ (forallb passed l = true <-> p = length l).
Proof.
  induction l as [|r l [IH1 IH2]]; cbn zeta in *;
    [rewrite filter_nil; cbn; split; [lia|split; reflexivity]|].
  rewrite filter_cons. cbn [forallb length].
  destruct (passed r) eqn:Hr; case_decide; try congruence; cbn [length andb].
  - split; [lia|]. rewrite IH2. lia.
  - split; [lia|]. split; [discriminate|lia].
Qed.

Lemma summary_showStoppers (l : list SniffReport) :
  Forall verdictConsistent l ->
  let stoppers :=
    flat_map (fun report => map (fun s => (s, r_testName report)) (r_showStoppers report)) l in
  (forallb passed l = true <-> stoppers = []) /\
  (length l - length (filter (fun r => passed r = true) l) <= length stoppers)%nat.
Proof.
  induction 1 as [|r l Hr Hl [IH1 IH2]]; cbn zeta in *;
    [rewrite filter_nil; cbn; split; [split; reflexivity|lia]|].
  rewrite filter_cons. cbn [forallb flat_map length]. rewrite length_app, length_map.
  unfold verdictConsistent in Hr. rewrite Hr.
  destruct (r_showStoppers r) as [|s ss] eqn:Hss; cbn [length Nat.eqb map app andb].
  - case_decide; [|congruence]. cbn [length]. split; [exact IH1|lia].
  - case_decide; [congruence|]. split; [split; discriminate|].
    pose proof (summary_counts l) as [Hle _]. cbn zeta in Hle. lia.
Qed.

(** X19.  The figures of the page agree with each other: the tests passed
    and the tests failed add up to the number of stored reports, and the
    page says that all tests passed exactly when it counts no failed test.
    When every stored report is passed exactly when it lists no showstopper,
    as every report of [getResults] is, the page says that all tests passed
    exactly when it lists no critical issue, and it lists at least as many
    critical issues as it counts failed tests. *)
Theorem page_figures_agree (data : StoredReports) :
  passedTests data + failedTests data = Z.of_nat (length (stored_reportData data)) /\
  0 <= failedTests data /\
  (overallPassed data = true <-> failedTests data = 0) /\
  (Forall verdictConsistent (stored_reportData data) ->
   (overallPassed data = true <-> allShowStoppers data = []) /\
   failedTests data <= Z.of_nat (length (allShowStoppers data))) /\
  (forall options toLocaleString exponentForm i t,
     verdictConsistent (reportOf options toLocaleString exponentForm i t)).
Proof.
  unfold failedTests, passedTests, overallPassed, allShowStoppers.
  destruct (summary_counts (stored_reportData data)) as [Hle Hiff]. cbn zeta in *.
  split; [lia|]. split; [lia|]. split; [rewrite Hiff; lia|]. split.
  - intros Hall.
    destruct (summary_showStoppers _ Hall) as [Hnone Hmany]. cbn zeta in *.
    split; [exact Hnone|lia].
  - intros options toLocaleString exponentForm i t. reflexivity.
Qed.

(** *** The width of dates *)

Lemma allFrom_spec (p : Z -> bool) (count : nat) :
  forall z, allFrom p z count = true ->
  forall x, z <= x < z + Z.of_nat count -> p x = true.
Proof.
  induction count as [|count IH]; intros z Hall x Hx; [lia|].
  cbn [allFrom] in Hall. apply andb_true_iff in Hall as [Hz Hall].
  destruct (Z.eq_dec x z) as [->|Hne]; [exact Hz|].
  apply (IH (z + 1) Hall). lia.
Qed.

Lemma pad2_length (n : Z) : 0 <= n < 100 -> String.length (JS.pad 2 n) = 2%nat.
Proof.
  intros Hn. apply Nat.eqb_eq.
  apply (allFrom_spec (fun n => (String.length (JS.pad 2 n) =? 2)%nat) 100 0);
    [vm_compute; reflexivity|lia].
Qed.

Lemma pad3_length (n : Z) : 0 <= n < 1000 -> String.length (JS.pad 3 n) = 3%nat.
Proof.
  intros Hn. apply Nat.eqb_eq.
  apply (allFrom_spec (fun n => (String.length (JS.pad 3 n) =? 3)%nat) 1000 0);
    [vm_compute; reflexivity|lia].
Qed.

Lemma pad4_length (n : Z) : 0 <= n < 10000 -> String.length (JS.pad 4 n) = 4%nat.
Proof.
  intros Hn. apply Nat.eqb_eq.
  apply (allFrom_spec (fun n => (String.length (JS.pad 4 n) =? 4)%nat)
           (Z.to_nat 10000) 0); [vm_compute; reflexivity|lia].
Qed.

(** The fields of a day of the years 1970 to 9999. *)
Lemma civil_bounds (days : Z) :
  0 <= days < 2932897 ->
  let '(y, m, d) := JS.civil days in
  1970 <= y < 10000 /\ 1 <= m <= 12 /\ 1 <= d <= 31.
Proof.
  intros Hd. unfold JS.civil. cbv zeta.
  set (z := days + 719468).
  set (era := z / 146097).
  set (doe := z - era * 146097).
  set (yoe := (doe - doe / 1460 + doe / 36524 - doe / 146096) / 365).
  set (doy := doe - (365 * yoe + yoe / 4 - yoe / 100)).
  set (mp := (5 * doy + 2) / 153).
  destruct (mp <? 10) eqn:Hmp; [apply Z.ltb_lt in Hmp|apply Z.ltb_ge in Hmp].
  - destruct (mp + 3 <=? 2) eqn:Hm; [apply Z.leb_le in Hm|apply Z.leb_gt in Hm];
      subst mp doy yoe doe era z; Z.div_mod_to_equations; lia.
  - destruct (mp - 9 <=? 2) eqn:Hm; [apply Z.leb_le in Hm|apply Z.leb_gt in Hm];
      subst mp doy yoe doe era z; Z.div_mod_to_equations; lia.
Qed.

Lemma substring0_app (a b : string) (k n : nat) :
  String.length a = k ->
  JS.substring0 (k + n) (a +:+ b) = a +:+ JS.substring0 n b.
Proof.
  intros <-. unfold JS.substring0. induction a as [|c a IH]; [reflexivity|].
  rewrite !append_cons. cbn [String.length Nat.add String.substring].
  rewrite IH. reflexivity.
Qed.

Lemma substring0_cons (c : ascii) (b : string) (n : nat) :
  JS.substring0 (S n) (String c b) = String c (JS.substring0 n b).
Proof. reflexivity. Qed.

Lemma substring0_zero (b : string) : JS.substring0 0 b = EmptyString.
Proof. destruct b; reflexivity. Qed.

(** The widths of the fields of an instant of the years 1970 to 9999. *)
Lemma field_widths (t : Z) :
  0 <= t < 253402300800000 ->
  let '(y, m, d) := JS.civil (t / 86400000) in
  let ms := t mod 86400000 in
  String.length (JS.pad 4 y) = 4%nat /\ String.length (JS.pad 2 m) = 2%nat /\
  String.length (JS.pad 2 d) = 2%nat /\
  String.length (JS.pad 2 (ms / 3600000)) = 2%nat /\
  String.length (JS.pad 2 (ms / 60000 mod 60)) = 2%nat /\
  String.length (JS.pad 2 (ms / 1000 mod 60)) = 2%nat /\
  String.length (JS.pad 3 (ms mod 1000)) = 3%nat.
Proof.
  intros Ht.
  assert (Hdays : 0 <= t / 86400000 < 2932897)
    by (Z.div_mod_to_equations; lia).
  pose proof (civil_bounds _ Hdays) as Hc.
  destruct (JS.civil (t / 86400000)) as [[y m] d]. cbv zeta.
  destruct Hc as (Hy & Hm & Hd).
  repeat split; first [apply pad4_length|apply pad3_length|apply pad2_length];
    try lia; Z.div_mod_to_equations; lia.
Qed.

Lemma formatDate_text (t : Z) :
  0 <= t < 253402300800000 -> formatDate t = dateText t.
Proof.
  intros Ht. pose proof (field_widths t Ht) as Hw.
  unfold formatDate, dateText, JS.toISOString.
  destruct (JS.civil (t / 86400000)) as [[y m] d]. cbv zeta in *.
  destruct Hw as (Hy & Hm & Hd & Hh & Hmi & Hs & _).
  repeat match goal with
  | |- context [?s +:+ String ?c EmptyString +:+ ?r] =>
      change (s +:+ String c EmptyString +:+ r) with (s +:+ String c r)
  end.
  repeat first
    [ rewrite replaceFirst_digits by (apply allDigits_pad || reflexivity)
    | match goal with
      | |- context [Ascii.eqb ?a ?b] =>
          let v := eval vm_compute in (Ascii.eqb a b) in
          change (Ascii.eqb a b) with v
      end; cbv iota
    | match goal with
      | |- context [String ?c EmptyString +:+ ?r] =>
          change (String c EmptyString +:+ r) with (String c r)
      end ].
  change 19%nat with (4 + S (2 + S (2 + S (2 + S (2 + S (2 + 0))))))%nat.
  rewrite (substring0_app _ _ _ _ Hy), substring0_cons.
  rewrite (substring0_app _ _ _ _ Hm), substring0_cons.
  rewrite (substring0_app _ _ _ _ Hd), substring0_cons.
  rewrite (substring0_app _ _ _ _ Hh), substring0_cons.
  rewrite (substring0_app _ _ _ _ Hmi), substring0_cons.
  rewrite (substring0_app _ _ _ _ Hs), substring0_zero.
  rewrite append_nil_r. reflexivity.
Qed.

(** X16.  For an instant of the years 1970 to 9999, [generateTimestamp]
    returns the text [YYYY-MM-DD_HH-mm-ss-SSS] of the clock and leaves the
    world as it is: the ISO text with its colons and its point turned into
    hyphens, its [T] into an underscore, and its [Z] dropped.  The text holds
    23 characters, digits, hyphens and one underscore only, so neither a
    colon nor a point. *)
Theorem generateTimestamp_shape (w : World) :
  0 <= now w < 253402300800000 ->
  generateTimestamp w = (Normal (timestampText (now w)), w) /\
  timestampText (now w) = timestampOf (JS.toISOString (now w)) /\
  String.length (timestampText (now w)) = 23%nat /\
  allChars isStampChar (timestampText (now w)) = true /\
  containsChar ":" (timestampText (now w)) = false /\
  containsChar "." (timestampText (now w)) = false.
Proof.
  intros Ht. split; [apply generateTimestamp_now|].
  split; [symmetry; exact (timestampOf_iso (now w))|].
  split.
  { pose proof (field_widths (now w) Ht) as Hw. unfold timestampText.
    destruct (JS.civil (now w / 86400000)) as [[y m] d]. cbv zeta in *.
    destruct Hw as (Hy & Hm & Hd & Hh & Hmi & Hs & Hms).
    rewrite !length_app_string, Hy, Hm, Hd, Hh, Hmi, Hs, Hms. reflexivity. }
  split; [apply timestampText_chars|].
  split; apply (allChars_excludes isStampChar);
    solve [apply timestampText_chars | vm_compute; reflexivity].
Qed.

(** X20.  For an instant of the years 1970 to 9999, [formatDate] returns
    the 19 characters [YYYY-MM-DD HH:mm:ss] of the instant: the milliseconds
    and the zone letter are cut off, so two instants of the same second
    have the same text. *)
Theorem formatDate_shape (t : Z) :
  0 <= t < 253402300800000 ->
  formatDate t = dateText t /\
  String.length (formatDate t) = 19%nat /\
  (forall t', 0 <= t' < 253402300800000 -> t / 1000 = t' / 1000 ->
              formatDate t' = formatDate t).
Proof.
  intros Ht. split; [apply formatDate_text, Ht|]. split.
  - rewrite (formatDate_text t Ht).
    pose proof (field_widths t Ht) as Hw. unfold dateText.
    destruct (JS.civil (t / 86400000)) as [[y m] d]. cbv zeta in *.
    destruct Hw as (Hy & Hm & Hd & Hh & Hmi & Hs & _).
    rewrite !length_app_string, Hy, Hm, Hd, Hh, Hmi, Hs. reflexivity.
  - intros t' Ht' Hsec. rewrite (formatDate_text t Ht), (formatDate_text t' Ht').
    unfold dateText.
    replace (t' / 86400000) with (t / 86400000)
      by (Z.div_mod_to_equations; lia).
    replace (t' mod 86400000 / 3600000) with (t mod 86400000 / 3600000)
      by (Z.div_mod_to_equations; lia).
    replace (t' mod 86400000 / 60000) with (t mod 86400000 / 60000)
      by (Z.div_mod_to_equations; lia).
    replace (t' mod 86400000 / 1000) with (t mod 86400000 / 1000)
      by (Z.div_mod_to_equations; lia).
    reflexivity.
Qed.

(** ** The statements at concrete worlds *)

(** The report of a session with one showstopper. *)
Lemma getResults_passed_example :
  exists r,
    Demo.getResults (Demo.after (Demo.measureAction Demo.failing "Click") Demo.running) =
      (Normal {| tr_reportData := [r] |},
       Demo.after (Demo.measureAction Demo.failing "Click") Demo.running) /\
    passed r = false.
Proof.
  destruct (getResults_passed Demo.options JS.toLocaleString_enUS_UTC
              Demo.exponentForm
              (Demo.after (Demo.measureAction Demo.failing "Click") Demo.running))
    as (r & Hr & Hp & _).
  exists r. split; [exact Hr|]. rewrite Hp. reflexivity.
Defined.



(** An action of three seconds under a threshold of two. *)
Lemma measureAction_timing_example :
  isMonitoring (this Demo.running) = true /\
  Demo.sleep3000 Demo.running = (Normal tt, set_now 4000 Demo.running) /\
  exists t,
    timings (this (snd (Demo.measureAction Demo.sleep3000 "Open" Demo.running))) =
      timings (this Demo.running) ++ [t] /\
    at_duration t = 3000 /\ at_failed t = false /\ at_slow t = true.
Proof.
  split; [reflexivity|]. split; [reflexivity|].
  destruct (proj1 (measureAction_timing Demo.options Demo.currentPpid
                     JS.toLocaleString_enUS_UTC Demo.path_join Demo.JSON_parse
                     Demo.renderHTML Demo.exponentForm)
              Demo.sleep3000 "Open"
              Demo.running (set_now 4000 Demo.running) (Normal tt)
              eq_refl eq_refl ltac:(discriminate) ltac:(discriminate))
    as (t & Ht & _ & Hok & _).
  exists t. split; [exact Ht|]. destruct (Hok eq_refl) as (Hd & Hf & Hs).
  rewrite Hd, Hf, Hs. repeat split; reflexivity.
Defined.

(** [addFailure] before [start]. *)
Lemma guarded_operations_frozen_example :
  isMonitoring (this Demo.fresh) = false /\
  addFailure "note" custom [] Demo.fresh = (Normal tt, warned Demo.fresh).
Proof.
  split; [reflexivity|].
  apply (proj1 (guarded_operations_frozen Demo.options Demo.currentPpid
                  JS.toLocaleString_enUS_UTC Demo.path_join Demo.JSON_parse
                  Demo.renderHTML Demo.exponentForm) Demo.fresh eq_refl).
Defined.

(** The console listener after [stop]: the session is not Running and an
    error message is recorded all the same. *)
Lemma console_listener_records_after_stop :
  isMonitoring (this Demo.stopped) = false /\
  failures (this (Demo.after (Demo.emit (ConsoleMessage "error" "late")) Demo.stopped)) =
    [{| f_error := Some "late"; f_type := console; f_requestUrl := None;
        f_requestStatus := None; f_requestMethod := None; f_metadata := [] |}] /\
  failures (this Demo.stopped) = [] /\
  collections (this (Demo.after (Demo.emit (ConsoleMessage "error" "late")) Demo.stopped))
    <> collections (this Demo.stopped).
Proof.
  split; [|split; [|split]]; vm_compute; try reflexivity. discriminate.
Qed.

(** A 503 response in a first session, its body read with nothing in
    between. *)
Lemma onResponse_server_error_example :
  isMonitoring (this Demo.running) = true /\
  pending Demo.running = [] /\
  exists w',
    (Demo.emit Demo.response503 ;;
     times (2 * subscriptions Demo.running) (Demo.settle 0)) Demo.running =
      (Normal tt, w') /\
    showStoppers (this w') = [Demo.stopper503] /\
    pending w' = [].
Proof.
  split; [reflexivity|]. split; [reflexivity|].
  destruct (onResponse_server_error Demo.options Demo.currentPpid
              JS.toLocaleString_enUS_UTC Demo.path_join Demo.JSON_parse
              Demo.renderHTML Demo.exponentForm)
    as (_ & _ & _ & Honce & _).
  destruct (Honce 503 "http://shop.test/api/cart" "GET" (Some "Service Unavailable")
              Demo.running eq_refl eq_refl eq_refl)
    as (w' & Hemit & Hss & Hpend & _).
  exists w'. split; [exact Hemit|]. split; [|exact Hpend].
  rewrite Hss. reflexivity.
Defined.

(** A 503 response in the second session of an instance: the session is
    Running, and one event, the bodies read with nothing in between, appends
    two showstoppers. *)
Lemma response_listener_runs_twice_after_restart :
  let w' :=
    Demo.after (Demo.emit Demo.response503 ;; Demo.settle 0 ;; Demo.settle 0)
               Demo.restarted in
  isMonitoring (this Demo.restarted) = true /\
  showStoppers (this Demo.restarted) = [] /\
  pending Demo.restarted = [] /\
  (Demo.emit Demo.response503 ;; Demo.settle 0 ;; Demo.settle 0) Demo.restarted =
    (Normal tt, w') /\
  isMonitoring (this w') = true /\
  pending w' = [] /\
  showStoppers (this w') = [Demo.stopper503; Demo.stopper503].
Proof. evaluate. Qed.

(** A 503 response observed in a Running session whose body is still being
    read when [stop] is called: [stop] returns normally, and the listener,
    when it goes on, only warns; no showstopper is ever recorded. *)
Lemma response_unnoticed_when_stop_comes_first :
  let w1 := Demo.after (Demo.emit Demo.response503) Demo.running in
  let w2 := Demo.after Demo.stop w1 in
  let w3 := Demo.after (Demo.settle 0) w2 in
  isMonitoring (this Demo.running) = true /\
  pending w1 = [AwaitsBody 503 "http://shop.test/api/cart" "GET"
                  (Some "Service Unavailable")] /\
  fst (Demo.stop w1) = Normal tt /\
  Demo.settle 0 w2 = (Normal tt, w3) /\
  showStoppers (this w3) = [] /\ pending w3 = [] /\
  last (logged w3) = Some ("Monitoring not started", WARN).
Proof. evaluate. Qed.

(** With screenshots enabled: the body of a 503 response is read in the
    Running session, and [stop] is called while the screenshot is being
    taken.  [stop] returns normally and stores a passed report; the
    showstopper is appended afterwards, to a session that is not Running. *)
Lemma showstopper_lands_after_stop :
  let settle := settle Demo.withScreenshots Demo.path_join in
  let stop := stop Demo.withScreenshots Demo.currentPpid JS.toLocaleString_enUS_UTC
                   Demo.JSON_parse Demo.renderHTML Demo.exponentForm in
  let w1 := Demo.after (Demo.emit Demo.response503 ;; settle 0%nat) Demo.running in
  let w2 := Demo.after stop w1 in
  let w3 := Demo.after (settle 0%nat) w2 in
  isMonitoring (this w1) = true /\ showStoppers (this w1) = [] /\
  fst (stop w1) = Normal tt /\
  isMonitoring (this w2) = false /\
  isMonitoring (this w3) = false /\
  map ss_label (showStoppers (this w3)) = ["GET - http://shop.test/api/cart"].
Proof. evaluate. Qed.

(** Two reports of an untouched instance, five seconds apart. *)
Lemma getResults_pure_example :
  untimed (reportOf Demo.options JS.toLocaleString_enUS_UTC Demo.exponentForm
             Demo.threeRequests 1000) =
  untimed (reportOf Demo.options JS.toLocaleString_enUS_UTC Demo.exponentForm
             Demo.threeRequests 6000).
Proof.
  apply (getResults_pure Demo.options Demo.currentPpid JS.toLocaleString_enUS_UTC
           Demo.path_join Demo.JSON_parse Demo.renderHTML Demo.exponentForm).
Defined.

(** The same session read at two instants: the reports differ. *)
Lemma getResults_timestamp_differs :
  this (set_now 6000 Demo.fresh) = this Demo.fresh /\
  (exists r1 r2,
     Demo.getResults Demo.fresh = (Normal {| tr_reportData := [r1] |}, Demo.fresh) /\
     Demo.getResults (set_now 6000 Demo.fresh) =
       (Normal {| tr_reportData := [r2] |}, set_now 6000 Demo.fresh) /\
     timestamp r1 = "1/1/1970, 12:00:01 AM" /\
     timestamp r2 = "1/1/1970, 12:00:06 AM" /\
     r1 <> r2).
Proof.
  split; [reflexivity|]. do 2 eexists.
  split; [reflexivity|]. split; [reflexivity|].
  split; [reflexivity|]. split; [reflexivity|].
  vm_compute. discriminate.
Qed.

(** Durations 50, 900, 300 under a threshold of 200. *)
Lemma slowRequests_sorted_stable_example :
  map rd_duration
    (slowRequests (reportOf Demo.options200 JS.toLocaleString_enUS_UTC
                     Demo.exponentForm Demo.threeRequests 1000)) = [900; 300].
Proof.
  apply (slowRequests_sorted_stable Demo.options200 JS.toLocaleString_enUS_UTC
           Demo.exponentForm Demo.threeRequests 1000); reflexivity.
Defined.

(** The average of 100, 200 and 301. *)
Lemma calculateAverage_spec_example :
  let mean := JS.div (total (map JS.number_of_Z [100; 200; 301])) (JS.number_of_Z 3) in
  printsFixed mean = true /\
  calculateAverage Demo.exponentForm (map JS.number_of_Z [100; 200; 301]) =
    Some (toFixed2 Demo.exponentForm mean) /\
  hasTwoDecimals (toFixed2 Demo.exponentForm mean) = true /\
  toFixed2 Demo.exponentForm mean = "200.33".
Proof.
  intros mean.
  assert (Hfixed : printsFixed mean = true) by (vm_compute; reflexivity).
  destruct (calculateAverage_spec Demo.exponentForm) as [_ H].
  destruct (H (JS.number_of_Z 100) (map JS.number_of_Z [200; 301]))
    as (Hs & Hd & _).
  split; [exact Hfixed|]. split; [exact Hs|].
  split; [exact (proj1 (Hd Hfixed))|]. vm_compute. reflexivity.
Defined.

(** The average of a list holding [NaN]: a text without decimal places. *)
Lemma calculateAverage_NaN_text :
  calculateAverage Demo.exponentForm [JS.NaN] = Some "NaN" /\
  hasTwoDecimals "NaN" = false /\
  calculateAverage Demo.exponentForm [JS.Infinity; JS.number_of_Z 1] = Some "Infinity".
Proof. split; [|split]; vm_compute; reflexivity. Qed.

(** [stop] twice on a session with a showstopper: the first call throws, the
    second only warns. *)
Lemma stop_contract_example :
  let w := Demo.after (Demo.measureAction Demo.failing "Click") Demo.running in
  isMonitoring (this w) = true /\
  (exists e, fst (Demo.stop w) = Throw e) /\
  Demo.stop (snd (Demo.stop w)) = (Normal tt, warned (snd (Demo.stop w))).
Proof.
  intros w.
  destruct (stop_contract Demo.options Demo.currentPpid JS.toLocaleString_enUS_UTC
              Demo.JSON_parse Demo.renderHTML Demo.exponentForm w)
    as (_ & Hthrows & Hagain).
  split; [reflexivity|]. split; [|exact Hagain].
  apply Hthrows. split; [reflexivity|]. vm_compute. discriminate.
Defined.

(** ** The further facts at concrete worlds *)

(** A second [saveReport] in the same run. *)
Lemma saveReport_accumulates_example :
  files Demo.savedOnce !! "sniffing-results.json" =
    Some (JsonReports {| stored_reportData := [Demo.firstReport];
                         testRunnerPid := Some "4242" |}) /\
  files (snd (Demo.saveReport None Demo.savedOnce)) !! "sniffing-results.json" =
    Some (JsonReports {| stored_reportData := [Demo.firstReport; Demo.firstReport];
                         testRunnerPid := Some "4242" |}).
Proof.
  split; [vm_compute; reflexivity|].
  unfold Demo.saveReport.
  rewrite (saveReport_accumulates Demo.options Demo.currentPpid
             JS.toLocaleString_enUS_UTC Demo.JSON_parse Demo.exponentForm None
             Demo.savedOnce
             (JsonReports {| stored_reportData := [Demo.firstReport];
                             testRunnerPid := Some "4242" |})
             {| stored_reportData := [Demo.firstReport];
                testRunnerPid := Some "4242" |});
    vm_compute; reflexivity.
Defined.

(** A showstopper added by hand, with screenshots enabled. *)
Lemma addShowStopper_records_example :
  isMonitoring (this Demo.running) = true /\
  exists w',
    addShowStopper DEFAULT_OPTIONS Demo.path_join "Add to cart!" "cart is empty"
      Demo.running = (Normal tt, w') /\
    showStoppers (this w') =
      [{| ss_label := "Add to cart!"; ss_criticalError := "cart is empty";
          ss_screenshot :=
            Some "screenshots/error_add_to_cart__1970-01-01T00-00-01-000Z.png" |}].
Proof.
  split; [reflexivity|].
  destruct (addShowStopper_records DEFAULT_OPTIONS Demo.currentPpid
              JS.toLocaleString_enUS_UTC Demo.path_join Demo.JSON_parse
              Demo.renderHTML Demo.exponentForm "Add to cart!" "cart is empty"
              Demo.running eq_refl) as (w' & Hadd & Hss & _).
  exists w'. split; [exact Hadd|]. rewrite Hss. vm_compute. reflexivity.
Defined.

(** A failure added by hand leaves [stop] as it was. *)
Lemma addFailure_records_example :
  isMonitoring (this Demo.running) = true /\
  namesNoField [("additionalInfo", "test")] = true /\
  failures (this (snd (addFailure "Example custom failure" custom
                         [("additionalInfo", "test")] Demo.running))) =
    [{| f_error := Some "Example custom failure"; f_type := custom;
        f_requestUrl := None; f_requestStatus := None; f_requestMethod := None;
        f_metadata := [("additionalInfo", "test")] |}] /\
  fst (Demo.stop (snd (addFailure "Example custom failure" custom
                         [("additionalInfo", "test")] Demo.running))) =
    fst (Demo.stop Demo.running) /\
  fst (Demo.stop Demo.running) = Normal tt /\
  spread "Example custom failure" custom
    [("additionalInfo", "test"); ("error", "replaced")] =
    {| f_error := Some "replaced"; f_type := custom; f_requestUrl := None;
       f_requestStatus := None; f_requestMethod := None;
       f_metadata := [("additionalInfo", "test")] |}.
Proof.
  split; [reflexivity|]. split; [reflexivity|].
  destruct (addFailure_records Demo.options Demo.currentPpid
              JS.toLocaleString_enUS_UTC Demo.JSON_parse Demo.renderHTML
              Demo.exponentForm "Example custom failure" custom
              [("additionalInfo", "test")] Demo.running eq_refl)
    as (Heq & Hplain & _ & _ & _ & _ & Hstop).
  split; [rewrite Heq; cbn [snd this set_logged set_this failures push_failure];
          rewrite (Hplain eq_refl); reflexivity|].
  split; [exact Hstop|]. split; vm_compute; reflexivity.
Defined.

(** The showstopper of a failed click is still there after a failure, a
    [stop] and a late console error. *)
Lemma records_only_grow_example :
  noStart Demo.lateEvents = true /\
  let w := Demo.after (Demo.measureAction Demo.failing "Click") Demo.running in
  showStoppers (this w) <> [] /\
  passed (reportOf Demo.options JS.toLocaleString_enUS_UTC Demo.exponentForm
            (this (snd (Demo.run Demo.lateEvents w))) 9000) = false.
Proof.
  split; [reflexivity|]. cbv zeta. split; [vm_compute; discriminate|].
  destruct (records_only_grow Demo.options Demo.currentPpid
              JS.toLocaleString_enUS_UTC Demo.path_join Demo.JSON_parse
              Demo.renderHTML Demo.exponentForm Demo.lateEvents
              (Demo.after (Demo.measureAction Demo.failing "Click") Demo.running)
              eq_refl) as (_ & Hpassed & _).
  apply Hpassed. vm_compute. discriminate.
Defined.

(** The fixture around a test whose click fails: the teardown throws. *)
Lemma sniff_fixture_example :
  noStart Demo.clickFails = true /\ noStop Demo.clickFails = true /\
  fst (Demo.sniff "cart" (Demo.run Demo.clickFails) Demo.fresh) =
    Throw (ErrorObject "Error" "Test failed due to showstoppers") /\
  subscriptions (snd (Demo.sniff "cart" (Demo.run Demo.clickFails) Demo.fresh)) = 1%nat.
Proof.
  split; [reflexivity|]. split; [reflexivity|].
  destruct (sniff_fixture Demo.options Demo.currentPpid
              JS.toLocaleString_enUS_UTC Demo.path_join Demo.JSON_parse
              Demo.renderHTML Demo.exponentForm "cart" Demo.clickFails 1000 ∅
              eq_refl eq_refl ltac:(vm_compute; discriminate))
    as (previous & lg & Heq).
  cbv zeta in Heq. unfold Demo.sniff, Demo.run, Demo.fresh. rewrite Heq.
  split; [vm_compute; reflexivity|reflexivity].
Defined.

(** [boom] in red with a stack line. *)
Lemma cleanErrorMessage_strips_colours_example :
  forallb wellFormed Demo.coloured = true /\
  cleanErrorMessage (ErrorObject "Error" (render Demo.coloured)) =
    "boom" +:+ String JS.LF "    at step (test.ts:3:9)".
Proof.
  split; [reflexivity|].
  apply (cleanErrorMessage_strips_colours Demo.coloured "Error" eq_refl).
Defined.

(** One second after the epoch. *)
Lemma generateTimestamp_shape_example :
  0 <= now Demo.fresh < 253402300800000 /\
  generateTimestamp Demo.fresh = (Normal "1970-01-01_00-00-01-000", Demo.fresh).
Proof.
  split; [vm_compute; split; [discriminate|reflexivity]|].
  apply (generateTimestamp_shape Demo.fresh).
  vm_compute; split; [discriminate|reflexivity].
Defined.

(** The picture of a failed step, one second after the epoch. *)
Lemma captureErrorScreenshot_file_name_example :
  0 <= now Demo.fresh < 253402300800000 /\
  captureErrorScreenshot Demo.options Demo.path_join "Add to cart!" Demo.fresh =
    (Normal (Some "screenshots/error_add_to_cart__1970-01-01T00-00-01-000Z.png"),
     Demo.fresh).
Proof.
  split; [vm_compute; split; [discriminate|reflexivity]|].
  apply (captureErrorScreenshot_file_name Demo.options Demo.path_join
           "Add to cart!" Demo.fresh).
  vm_compute; split; [discriminate|reflexivity].
Defined.

(** One second after the epoch, whatever the milliseconds. *)
Lemma formatDate_shape_example :
  0 <= 1000 < 253402300800000 /\
  formatDate 1000 = "1970-01-01 00:00:01" /\
  formatDate 1999 = formatDate 1000.
Proof.
  split; [lia|].
  destruct (formatDate_shape 1000 ltac:(lia)) as (Htext & _ & Hsame).
  split; [rewrite Htext; vm_compute; reflexivity|].
  apply Hsame; [lia|reflexivity].
Defined.

(** A slow action in a Running session: one warning, no showstopper. *)
Lemma measureAction_success_example :
  isMonitoring (this Demo.running) = true /\
  Demo.sleep3000 Demo.running = (Normal tt, set_now 4000 Demo.running) /\
  logged (snd (Demo.measureAction Demo.sleep3000 "Open" Demo.running)) =
    logged Demo.running ++
    [("Slow action detected: Open took 3000ms (threshold: 2000ms)", WARN)] /\
  showStoppers (this (snd (Demo.measureAction Demo.sleep3000 "Open" Demo.running))) = [].
Proof.
  split; [reflexivity|]. split; [reflexivity|].
  destruct (measureAction_success Demo.options Demo.currentPpid
              JS.toLocaleString_enUS_UTC Demo.path_join Demo.JSON_parse
              Demo.renderHTML Demo.exponentForm Demo.sleep3000 "Open"
              Demo.running (set_now 4000 Demo.running) eq_refl eq_refl)
    as (_ & Hthis & Hlog & _).
  unfold Demo.measureAction. rewrite Hlog, Hthis. split; reflexivity.
Defined.

(** The example test with a slow navigation and an assertion that fails. *)
Lemma example_test_fails_example :
  pageActivity Demo.navigation = true /\ pageActivity Skip = true /\
  fst (Demo.sniff "Monitor page performance"
         (Demo.run (monitorPagePerformance Demo.navigation Skip Skip
                      None None (Some Demo.notVisible)))
         Demo.fresh) =
    Throw (ErrorObject "Error" "Test failed due to showstoppers").
Proof.
  split; [reflexivity|]. split; [reflexivity|].
  destruct (example_test_fails Demo.options Demo.currentPpid
              JS.toLocaleString_enUS_UTC Demo.path_join Demo.JSON_parse
              Demo.renderHTML Demo.exponentForm Demo.navigation Skip Skip
              None None (Some Demo.notVisible) "Monitor page performance"
              1000 ∅ eq_refl eq_refl eq_refl) as (_ & Hthrows & _).
  exact Hthrows.
Defined.

(** The report file of another run is started over. *)
Lemma saveReport_starts_over_example :
  stale Demo.currentPpid
    {| stored_reportData := [Demo.firstReport; Demo.firstReport];
       testRunnerPid := Some "17" |} = true /\
  files (snd (Demo.saveReport None Demo.otherRun)) !! "sniffing-results.json" =
    Some (JsonReports {| stored_reportData := [Demo.firstReport];
                         testRunnerPid := Some "4242" |}).
Proof.
  split; [reflexivity|].
  destruct (saveReport_starts_over Demo.options Demo.currentPpid
              JS.toLocaleString_enUS_UTC Demo.JSON_parse Demo.exponentForm
              None Demo.otherRun) as (_ & Hstale & _).
  unfold Demo.saveReport.
  rewrite (Hstale _ _ ltac:(vm_compute; reflexivity) eq_refl eq_refl).
  vm_compute. reflexivity.
Defined.

(** No report file yet: the page generator ends the process. *)
Lemma generateHTMLReport_outcome_example :
  files Demo.running !! "sniffing-results.json" = None /\
  fst (generateHTMLReport Demo.options Demo.JSON_parse Demo.renderHTML None
         Demo.running) = Exit 1.
Proof.
  split; [reflexivity|].
  destruct (generateHTMLReport_outcome Demo.options Demo.JSON_parse
              Demo.renderHTML None Demo.running) as (Hexit & Hcode & _).
  destruct (proj2 Hexit (or_introl eq_refl)) as [code Hc].
  rewrite Hc. f_equal. exact (Hcode code Hc).
Defined.

(** A report saved elsewhere is not the one the page is made from. *)
Lemma saveReport_then_generateHTMLReport_example :
  files Demo.running !! "sniffing-results.json" = None /\
  fst (generateHTMLReport Demo.options Demo.JSON_parse Demo.renderHTML None
         (snd (Demo.saveReport (Some "custom.json") Demo.running))) = Exit 1.
Proof.
  split; [reflexivity|].
  apply (proj2 (saveReport_then_generateHTMLReport Demo.options Demo.currentPpid
                  JS.toLocaleString_enUS_UTC Demo.JSON_parse Demo.renderHTML
                  Demo.exponentForm None Demo.running));
    [reflexivity|discriminate|reflexivity].
Defined.

(** A request that failed before any response, without a failure text. *)
Lemma failure_listeners_example :
  failures (this (snd (onRequestFailed None "http://shop.test/api/cart" None "GET"
                         Demo.running))) =
    [{| f_error := Some "Unknown error"; f_type := request;
        f_requestUrl := Some "http://shop.test/api/cart";
        f_requestStatus := Some StatusNull; f_requestMethod := Some "GET";
        f_metadata := [] |}].
Proof.
  destruct (proj1 (proj2 (failure_listeners Demo.options
                            JS.toLocaleString_enUS_UTC Demo.exponentForm
                            Demo.running))
              None "http://shop.test/api/cart" None "GET")
    as (f & Heq & Htype & Hurl & Hmethod & Hmeta & Hstatus & _ & Herror & _).
  rewrite Heq. cbn [snd this set_this failures push_failure].
  destruct f as [e ty u st m md]. cbn in *.
  rewrite (proj2 Hstatus (or_introl eq_refl)) in *.
  rewrite (Herror (or_introl eq_refl)) in *. subst. reflexivity.
Defined.


(** A failed timing after a timing of 100 milliseconds. *)
Lemma avgLoadTime_skips_failed_example :
  let i := push_timing {| at_label := "Open"; at_duration := 100;
                          at_slow := false; at_failed := false |} newInstance in
  let report j := reportOf Demo.options JS.toLocaleString_enUS_UTC
                    Demo.exponentForm j 1000 in
  avgLoadTime (report i) = Some "100.00" /\
  avgLoadTime
    (report (push_timing {| at_label := "Click"; at_duration := 0;
                            at_slow := false; at_failed := true |} i)) =
    Some "100.00".
Proof.
  cbv zeta.
  assert (H : avgLoadTime
                (reportOf Demo.options JS.toLocaleString_enUS_UTC Demo.exponentForm
                   (push_timing {| at_label := "Open"; at_duration := 100;
                                   at_slow := false; at_failed := false |}
                      newInstance) 1000) = Some "100.00")
    by (vm_compute; reflexivity).
  split; [exact H|].
  rewrite (proj1 (proj2 (avgLoadTime_skips_failed Demo.options
                           JS.toLocaleString_enUS_UTC Demo.exponentForm
                           (push_timing {| at_label := "Open"; at_duration := 100;
                                           at_slow := false; at_failed := false |}
                              newInstance) 1000))
             {| at_label := "Click"; at_duration := 0; at_slow := false;
                at_failed := true |} eq_refl).
  exact H.
Defined.

(** The median of 30, 10, 20 is one of them. *)
Lemma calculatePercentile_spec_example :
  calculatePercentile (map JS.number_of_Z [30; 10; 20]) (JS.number_of_Z 50) =
    Some (JS.number_of_Z 20) /\
  JS.number_of_Z 20 ∈ map JS.number_of_Z [30; 10; 20].
Proof.
  assert (H : calculatePercentile (map JS.number_of_Z [30; 10; 20])
                (JS.number_of_Z 50) = Some (JS.number_of_Z 20))
    by (vm_compute; reflexivity).
  split; [exact H|].
  exact (proj1 (proj2 calculatePercentile_spec) _ _ _ _ H).
Defined.

(** A page for a passed test and a failed one. *)
Lemma page_figures_agree_example :
  Forall verdictConsistent (stored_reportData Demo.twoTests) /\
  overallPassed Demo.twoTests = false /\
  passedTests Demo.twoTests = 1 /\ failedTests Demo.twoTests = 1 /\
  allShowStoppers Demo.twoTests <> [].
Proof.
  assert (Hall : Forall verdictConsistent (stored_reportData Demo.twoTests))
    by (repeat constructor).
  destruct (page_figures_agree Demo.twoTests) as (_ & _ & _ & Hcons & _).
  destruct (Hcons Hall) as [Hiff _].
  split; [exact Hall|]. split; [reflexivity|].
  split; [reflexivity|]. split; [reflexivity|].
  intros Hnil. apply Hiff in Hnil. discriminate Hnil.
Defined.

(** A session with one request of two and a half seconds. *)
Lemma request_records_in_step_example :
  requestDurations (this (snd (Demo.run (Seq CallStart Demo.navigation) Demo.fresh))) =
    map rd_duration
      (detailedRequestDurations
         (this (snd (Demo.run (Seq CallStart Demo.navigation) Demo.fresh)))) /\
  requestDurations (this (snd (Demo.run (Seq CallStart Demo.navigation) Demo.fresh))) =
    [2500].
Proof.
  split; [|vm_compute; reflexivity].
  exact (proj1 (request_records_in_step Demo.options Demo.currentPpid
                  JS.toLocaleString_enUS_UTC Demo.path_join Demo.JSON_parse
                  Demo.renderHTML Demo.exponentForm
                  (Seq CallStart Demo.navigation) 1000 ∅)).
Defined.

(** The test [Dashboard page smoke tests] under the fixture: with a page
    that answers, it passes; when a 503 response is read during its second
    action, or when its third action rejects, the teardown throws; and a 503
    response whose body is still being read at the teardown goes
    unnoticed. *)
Lemma fixture_verdict_example :
  let answers := dashboardPageSmokeTests Demo.navigation Skip Skip None None None in
  let serverFails :=
    dashboardPageSmokeTests Demo.navigation
      (Seq (PageEmits Demo.response503) (Settles 0)) Skip None None None in
  let notShown :=
    dashboardPageSmokeTests Demo.navigation Skip Skip
      None None (Some Demo.notVisible) in
  let failed := Throw (ErrorObject "Error" "Test failed due to showstoppers") in
  let w1 := snd (start (snd (setTestName "Dashboard page smoke tests" Demo.fresh))) in
  (testBody answers = true /\ quiet answers = true /\
   fst (Demo.sniff "Dashboard page smoke tests" (Demo.run answers) Demo.fresh) =
     Normal tt) /\
  (testBody serverFails = true /\ quiet serverFails = false /\
   pending (snd (Demo.run serverFails w1)) = [] /\
   fst (Demo.sniff "Dashboard page smoke tests" (Demo.run serverFails) Demo.fresh) =
     failed) /\
  (testBody notShown = true /\ quiet notShown = false /\
   fst (Demo.sniff "Dashboard page smoke tests" (Demo.run notShown) Demo.fresh) =
     failed) /\
  fst (Demo.sniff "Dashboard page smoke tests"
         (Demo.run (PageEmits Demo.response503)) Demo.fresh) = Normal tt.
Proof.
  cbv zeta.
  pose proof (fun test =>
    fixture_verdict Demo.options Demo.currentPpid JS.toLocaleString_enUS_UTC
      Demo.path_join Demo.JSON_parse Demo.renderHTML Demo.exponentForm
      "Dashboard page smoke tests" test 1000 ∅) as verdict.
  cbv zeta in verdict.
  split; [|split; [|split]].
  - split; [reflexivity|]. split; [reflexivity|].
    exact (proj1 (verdict (dashboardPageSmokeTests Demo.navigation Skip Skip
                             None None None) eq_refl) eq_refl).
  - split; [reflexivity|]. split; [reflexivity|].
    split; [vm_compute; reflexivity|].
    apply (proj1 (proj2 (verdict
             (dashboardPageSmokeTests Demo.navigation
                (Seq (PageEmits Demo.response503) (Settles 0)) Skip
                None None None) eq_refl))); vm_compute; reflexivity.
  - split; [reflexivity|]. split; [reflexivity|].
    apply (proj1 (proj2 (verdict
             (dashboardPageSmokeTests Demo.navigation Skip Skip
                None None (Some Demo.notVisible)) eq_refl)));
      vm_compute; reflexivity.
  - exact (proj2 (proj2 (verdict Skip eq_refl)) 503 "http://shop.test/api/cart"
             "GET" (Some "Service Unavailable")).
Defined.

(** The test [Basic usage of playwright-sniff] with an assertion that
    fails: it returns normally and leaves no file. *)
Lemma unstopped_session_writes_nothing_example :
  let result :=
    Demo.run (basicUsage "Basic usage of playwright-sniff" Demo.navigation Skip
                Skip None None (Some Demo.notVisible)) Demo.fresh in
  captureScreenshots Demo.options = false /\
  fst result = Normal tt /\ files (snd result) = ∅ /\
  length (showStoppers (this (snd result))) = 2%nat.
Proof.
  cbv zeta. split; [reflexivity|].
  destruct (proj2 (unstopped_session_writes_nothing Demo.options Demo.currentPpid
                     JS.toLocaleString_enUS_UTC Demo.path_join Demo.JSON_parse
                     Demo.renderHTML Demo.exponentForm eq_refl)
              Demo.navigation Skip Skip None None (Some Demo.notVisible)
              "Basic usage of playwright-sniff" 1000 ∅ eq_refl eq_refl eq_refl)
    as (Hnormal & Hfiles & _).
  split; [exact Hnormal|]. split; [exact Hfiles|]. vm_compute. reflexivity.
Defined.
